(** * OCR_PADDLE: the form parser, the text post-processor and the accuracy
      evaluator, embedded from the Python sources.

    Python [str] values are sequences of Unicode code points.  A character is
    modelled by its code point (an [N]) and a string by a list of them, so that
    the literals of the program which lie outside ASCII (the em dash of the
    section names, the check mark of the checkbox class, the zero-width
    characters removed by the post-processor) are ordinary characters here.

    Where Python consults the Unicode database, the model follows it as
    follows:
    - white space ([str.strip], [str.isspace], the class [\s]): the complete
      set of the interpreter;
    - decimal digits ([\d], [\D], [int()]): the characters of category Nd,
      each with its value;
    - word characters ([\w], hence [\b]): every alphanumeric character and
      the underscore;
    - [str.lower]: the lower-case form of every character, the two
      characters that U+0130 becomes, and the capital sigma, which becomes
      the final sigma after a cased character and before none;
    - case-insensitive matching (the patterns of the program that are
      matched that way are made of ASCII characters): the ASCII letters and
      the four characters that the documentation of [re] lists as their
      extra equivalents.
    The tables are those of Unicode 14.0, which CPython 3.11 carries. *)

From Stdlib Require Import String Ascii.
From Stdlib Require Import List NArith ZArith QArith Qminmax Bool Lia.
Import ListNotations.
Close Scope Q_scope.

Set Implicit Arguments.
Set Warnings "-register-all,-notation-for-abbreviation".

(** ** Python strings *)

Module Str.

Notation char := N (only parsing).
Notation text := (list N) (only parsing).

Definition lit (s : string) : text := map N_of_ascii (list_ascii_of_string s).

Definition in_range (c : char) (r : char * char) : bool :=
  (N.leb (fst r) c && N.leb c (snd r))%bool.

Definition in_ranges (rs : list (char * char)) (c : char) : bool :=
  existsb (in_range c) rs.

(** The characters for which [str.isspace] holds; [\s] is the same set. *)
Definition r_space : list (char * char) :=
  [(9, 13); (28, 31); (32, 32); (133, 133); (160, 160); (5760, 5760);
   (8192, 8202); (8232, 8233); (8239, 8239); (8287, 8287); (12288, 12288)]%N.

(** The decimal digits.  Every run of the table holds the digits 0 to 9 in
    order, once or several times. *)
Definition r_digit : list (char * char) :=
  [(48, 57); (1632, 1641); (1776, 1785); (1984, 1993); (2406, 2415); (2534, 2543); (2662, 2671);
   (2790, 2799); (2918, 2927); (3046, 3055); (3174, 3183); (3302, 3311); (3430, 3439); (3558,
   3567); (3664, 3673); (3792, 3801); (3872, 3881); (4160, 4169); (4240, 4249); (6112, 6121);
   (6160, 6169); (6470, 6479); (6608, 6617); (6784, 6793); (6800, 6809); (6992, 7001); (7088,
   7097); (7232, 7241); (7248, 7257); (42528, 42537); (43216, 43225); (43264, 43273); (43472,
   43481); (43504, 43513); (43600, 43609); (44016, 44025); (65296, 65305); (66720, 66729);
   (68912, 68921); (69734, 69743); (69872, 69881); (69942, 69951); (70096, 70105); (70384,
   70393); (70736, 70745); (70864, 70873); (71248, 71257); (71360, 71369); (71472, 71481);
   (71904, 71913); (72016, 72025); (72784, 72793); (73040, 73049); (73120, 73129); (92768,
   92777); (92864, 92873); (93008, 93017); (120782, 120831); (123200, 123209); (123632, 123641);
   (125264, 125273); (130032, 130041)]%N.

Definition r_upper : list (char * char) := [(65, 90)]%N.
Definition r_lower : list (char * char) := [(97, 122)]%N.

(** [\w]: alphanumeric characters and the underscore. *)
Definition r_word : list (char * char) :=
  [(48, 57); (65, 90); (95, 95); (97, 122); (170, 170); (178, 179); (181, 181); (185, 186);
   (188, 190); (192, 214); (216, 246); (248, 705); (710, 721); (736, 740); (748, 748); (750,
   750); (880, 884); (886, 887); (890, 893); (895, 895); (902, 902); (904, 906); (908, 908);
   (910, 929); (931, 1013); (1015, 1153); (1162, 1327); (1329, 1366); (1369, 1369); (1376,
   1416); (1488, 1514); (1519, 1522); (1568, 1610); (1632, 1641); (1646, 1647); (1649, 1747);
   (1749, 1749); (1765, 1766); (1774, 1788); (1791, 1791); (1808, 1808); (1810, 1839); (1869,
   1957); (1969, 1969); (1984, 2026); (2036, 2037); (2042, 2042); (2048, 2069); (2074, 2074);
   (2084, 2084); (2088, 2088); (2112, 2136); (2144, 2154); (2160, 2183); (2185, 2190); (2208,
   2249); (2308, 2361); (2365, 2365); (2384, 2384); (2392, 2401); (2406, 2415); (2417, 2432);
   (2437, 2444); (2447, 2448); (2451, 2472); (2474, 2480); (2482, 2482); (2486, 2489); (2493,
   2493); (2510, 2510); (2524, 2525); (2527, 2529); (2534, 2545); (2548, 2553); (2556, 2556);
   (2565, 2570); (2575, 2576); (2579, 2600); (2602, 2608); (2610, 2611); (2613, 2614); (2616,
   2617); (2649, 2652); (2654, 2654); (2662, 2671); (2674, 2676); (2693, 2701); (2703, 2705);
   (2707, 2728); (2730, 2736); (2738, 2739); (2741, 2745); (2749, 2749); (2768, 2768); (2784,
   2785); (2790, 2799); (2809, 2809); (2821, 2828); (2831, 2832); (2835, 2856); (2858, 2864);
   (2866, 2867); (2869, 2873); (2877, 2877); (2908, 2909); (2911, 2913); (2918, 2927); (2929,
   2935); (2947, 2947); (2949, 2954); (2958, 2960); (2962, 2965); (2969, 2970); (2972, 2972);
   (2974, 2975); (2979, 2980); (2984, 2986); (2990, 3001); (3024, 3024); (3046, 3058); (3077,
   3084); (3086, 3088); (3090, 3112); (3114, 3129); (3133, 3133); (3160, 3162); (3165, 3165);
   (3168, 3169); (3174, 3183); (3192, 3198); (3200, 3200); (3205, 3212); (3214, 3216); (3218,
   3240); (3242, 3251); (3253, 3257); (3261, 3261); (3293, 3294); (3296, 3297); (3302, 3311);
   (3313, 3314); (3332, 3340); (3342, 3344); (3346, 3386); (3389, 3389); (3406, 3406); (3412,
   3414); (3416, 3425); (3430, 3448); (3450, 3455); (3461, 3478); (3482, 3505); (3507, 3515);
   (3517, 3517); (3520, 3526); (3558, 3567); (3585, 3632); (3634, 3635); (3648, 3654); (3664,
   3673); (3713, 3714); (3716, 3716); (3718, 3722); (3724, 3747); (3749, 3749); (3751, 3760);
   (3762, 3763); (3773, 3773); (3776, 3780); (3782, 3782); (3792, 3801); (3804, 3807); (3840,
   3840); (3872, 3891); (3904, 3911); (3913, 3948); (3976, 3980); (4096, 4138); (4159, 4169);
   (4176, 4181); (4186, 4189); (4193, 4193); (4197, 4198); (4206, 4208); (4213, 4225); (4238,
   4238); (4240, 4249); (4256, 4293); (4295, 4295); (4301, 4301); (4304, 4346); (4348, 4680);
   (4682, 4685); (4688, 4694); (4696, 4696); (4698, 4701); (4704, 4744); (4746, 4749); (4752,
   4784); (4786, 4789); (4792, 4798); (4800, 4800); (4802, 4805); (4808, 4822); (4824, 4880);
   (4882, 4885); (4888, 4954); (4969, 4988); (4992, 5007); (5024, 5109); (5112, 5117); (5121,
   5740); (5743, 5759); (5761, 5786); (5792, 5866); (5870, 5880); (5888, 5905); (5919, 5937);
   (5952, 5969); (5984, 5996); (5998, 6000); (6016, 6067); (6103, 6103); (6108, 6108); (6112,
   6121); (6128, 6137); (6160, 6169); (6176, 6264); (6272, 6276); (6279, 6312); (6314, 6314);
   (6320, 6389); (6400, 6430); (6470, 6509); (6512, 6516); (6528, 6571); (6576, 6601); (6608,
   6618); (6656, 6678); (6688, 6740); (6784, 6793); (6800, 6809); (6823, 6823); (6917, 6963);
   (6981, 6988); (6992, 7001); (7043, 7072); (7086, 7141); (7168, 7203); (7232, 7241); (7245,
   7293); (7296, 7304); (7312, 7354); (7357, 7359); (7401, 7404); (7406, 7411); (7413, 7414);
   (7418, 7418); (7424, 7615); (7680, 7957); (7960, 7965); (7968, 8005); (8008, 8013); (8016,
   8023); (8025, 8025); (8027, 8027); (8029, 8029); (8031, 8061); (8064, 8116); (8118, 8124);
   (8126, 8126); (8130, 8132); (8134, 8140); (8144, 8147); (8150, 8155); (8160, 8172); (8178,
   8180); (8182, 8188); (8304, 8305); (8308, 8313); (8319, 8329); (8336, 8348); (8450, 8450);
   (8455, 8455); (8458, 8467); (8469, 8469); (8473, 8477); (8484, 8484); (8486, 8486); (8488,
   8488); (8490, 8493); (8495, 8505); (8508, 8511); (8517, 8521); (8526, 8526); (8528, 8585);
   (9312, 9371); (9450, 9471); (10102, 10131); (11264, 11492); (11499, 11502); (11506, 11507);
   (11517, 11517); (11520, 11557); (11559, 11559); (11565, 11565); (11568, 11623); (11631,
   11631); (11648, 11670); (11680, 11686); (11688, 11694); (11696, 11702); (11704, 11710);
   (11712, 11718); (11720, 11726); (11728, 11734); (11736, 11742); (11823, 11823); (12293,
   12295); (12321, 12329); (12337, 12341); (12344, 12348); (12353, 12438); (12445, 12447);
   (12449, 12538); (12540, 12543); (12549, 12591); (12593, 12686); (12690, 12693); (12704,
   12735); (12784, 12799); (12832, 12841); (12872, 12879); (12881, 12895); (12928, 12937);
   (12977, 12991); (13312, 19903); (19968, 42124); (42192, 42237); (42240, 42508); (42512,
   42539); (42560, 42606); (42623, 42653); (42656, 42735); (42775, 42783); (42786, 42888);
   (42891, 42954); (42960, 42961); (42963, 42963); (42965, 42969); (42994, 43009); (43011,
   43013); (43015, 43018); (43020, 43042); (43056, 43061); (43072, 43123); (43138, 43187);
   (43216, 43225); (43250, 43255); (43259, 43259); (43261, 43262); (43264, 43301); (43312,
   43334); (43360, 43388); (43396, 43442); (43471, 43481); (43488, 43492); (43494, 43518);
   (43520, 43560); (43584, 43586); (43588, 43595); (43600, 43609); (43616, 43638); (43642,
   43642); (43646, 43695); (43697, 43697); (43701, 43702); (43705, 43709); (43712, 43712);
   (43714, 43714); (43739, 43741); (43744, 43754); (43762, 43764); (43777, 43782); (43785,
   43790); (43793, 43798); (43808, 43814); (43816, 43822); (43824, 43866); (43868, 43881);
   (43888, 44002); (44016, 44025); (44032, 55203); (55216, 55238); (55243, 55291); (63744,
   64109); (64112, 64217); (64256, 64262); (64275, 64279); (64285, 64285); (64287, 64296);
   (64298, 64310); (64312, 64316); (64318, 64318); (64320, 64321); (64323, 64324); (64326,
   64433); (64467, 64829); (64848, 64911); (64914, 64967); (65008, 65019); (65136, 65140);
   (65142, 65276); (65296, 65305); (65313, 65338); (65345, 65370); (65382, 65470); (65474,
   65479); (65482, 65487); (65490, 65495); (65498, 65500); (65536, 65547); (65549, 65574);
   (65576, 65594); (65596, 65597); (65599, 65613); (65616, 65629); (65664, 65786); (65799,
   65843); (65856, 65912); (65930, 65931); (66176, 66204); (66208, 66256); (66273, 66299);
   (66304, 66339); (66349, 66378); (66384, 66421); (66432, 66461); (66464, 66499); (66504,
   66511); (66513, 66517); (66560, 66717); (66720, 66729); (66736, 66771); (66776, 66811);
   (66816, 66855); (66864, 66915); (66928, 66938); (66940, 66954); (66956, 66962); (66964,
   66965); (66967, 66977); (66979, 66993); (66995, 67001); (67003, 67004); (67072, 67382);
   (67392, 67413); (67424, 67431); (67456, 67461); (67463, 67504); (67506, 67514); (67584,
   67589); (67592, 67592); (67594, 67637); (67639, 67640); (67644, 67644); (67647, 67669);
   (67672, 67702); (67705, 67742); (67751, 67759); (67808, 67826); (67828, 67829); (67835,
   67867); (67872, 67897); (67968, 68023); (68028, 68047); (68050, 68096); (68112, 68115);
   (68117, 68119); (68121, 68149); (68160, 68168); (68192, 68222); (68224, 68255); (68288,
   68295); (68297, 68324); (68331, 68335); (68352, 68405); (68416, 68437); (68440, 68466);
   (68472, 68497); (68521, 68527); (68608, 68680); (68736, 68786); (68800, 68850); (68858,
   68899); (68912, 68921); (69216, 69246); (69248, 69289); (69296, 69297); (69376, 69415);
   (69424, 69445); (69457, 69460); (69488, 69505); (69552, 69579); (69600, 69622); (69635,
   69687); (69714, 69743); (69745, 69746); (69749, 69749); (69763, 69807); (69840, 69864);
   (69872, 69881); (69891, 69926); (69942, 69951); (69956, 69956); (69959, 69959); (69968,
   70002); (70006, 70006); (70019, 70066); (70081, 70084); (70096, 70106); (70108, 70108);
   (70113, 70132); (70144, 70161); (70163, 70187); (70272, 70278); (70280, 70280); (70282,
   70285); (70287, 70301); (70303, 70312); (70320, 70366); (70384, 70393); (70405, 70412);
   (70415, 70416); (70419, 70440); (70442, 70448); (70450, 70451); (70453, 70457); (70461,
   70461); (70480, 70480); (70493, 70497); (70656, 70708); (70727, 70730); (70736, 70745);
   (70751, 70753); (70784, 70831); (70852, 70853); (70855, 70855); (70864, 70873); (71040,
   71086); (71128, 71131); (71168, 71215); (71236, 71236); (71248, 71257); (71296, 71338);
   (71352, 71352); (71360, 71369); (71424, 71450); (71472, 71483); (71488, 71494); (71680,
   71723); (71840, 71922); (71935, 71942); (71945, 71945); (71948, 71955); (71957, 71958);
   (71960, 71983); (71999, 71999); (72001, 72001); (72016, 72025); (72096, 72103); (72106,
   72144); (72161, 72161); (72163, 72163); (72192, 72192); (72203, 72242); (72250, 72250);
   (72272, 72272); (72284, 72329); (72349, 72349); (72368, 72440); (72704, 72712); (72714,
   72750); (72768, 72768); (72784, 72812); (72818, 72847); (72960, 72966); (72968, 72969);
   (72971, 73008); (73030, 73030); (73040, 73049); (73056, 73061); (73063, 73064); (73066,
   73097); (73112, 73112); (73120, 73129); (73440, 73458); (73648, 73648); (73664, 73684);
   (73728, 74649); (74752, 74862); (74880, 75075); (77712, 77808); (77824, 78894); (82944,
   83526); (92160, 92728); (92736, 92766); (92768, 92777); (92784, 92862); (92864, 92873);
   (92880, 92909); (92928, 92975); (92992, 92995); (93008, 93017); (93019, 93025); (93027,
   93047); (93053, 93071); (93760, 93846); (93952, 94026); (94032, 94032); (94099, 94111);
   (94176, 94177); (94179, 94179); (94208, 100343); (100352, 101589); (101632, 101640); (110576,
   110579); (110581, 110587); (110589, 110590); (110592, 110882); (110928, 110930); (110948,
   110951); (110960, 111355); (113664, 113770); (113776, 113788); (113792, 113800); (113808,
   113817); (119520, 119539); (119648, 119672); (119808, 119892); (119894, 119964); (119966,
   119967); (119970, 119970); (119973, 119974); (119977, 119980); (119982, 119993); (119995,
   119995); (119997, 120003); (120005, 120069); (120071, 120074); (120077, 120084); (120086,
   120092); (120094, 120121); (120123, 120126); (120128, 120132); (120134, 120134); (120138,
   120144); (120146, 120485); (120488, 120512); (120514, 120538); (120540, 120570); (120572,
   120596); (120598, 120628); (120630, 120654); (120656, 120686); (120688, 120712); (120714,
   120744); (120746, 120770); (120772, 120779); (120782, 120831); (122624, 122654); (123136,
   123180); (123191, 123197); (123200, 123209); (123214, 123214); (123536, 123565); (123584,
   123627); (123632, 123641); (124896, 124902); (124904, 124907); (124909, 124910); (124912,
   124926); (124928, 125124); (125127, 125135); (125184, 125251); (125259, 125259); (125264,
   125273); (126065, 126123); (126125, 126127); (126129, 126132); (126209, 126253); (126255,
   126269); (126464, 126467); (126469, 126495); (126497, 126498); (126500, 126500); (126503,
   126503); (126505, 126514); (126516, 126519); (126521, 126521); (126523, 126523); (126530,
   126530); (126535, 126535); (126537, 126537); (126539, 126539); (126541, 126543); (126545,
   126546); (126548, 126548); (126551, 126551); (126553, 126553); (126555, 126555); (126557,
   126557); (126559, 126559); (126561, 126562); (126564, 126564); (126567, 126570); (126572,
   126578); (126580, 126583); (126585, 126588); (126590, 126590); (126592, 126601); (126603,
   126619); (126625, 126627); (126629, 126633); (126635, 126651); (127232, 127244); (130032,
   130041); (131072, 173791); (173824, 177976); (177984, 178205); (178208, 183969); (183984,
   191456); (194560, 195101); (196608, 201546)]%N.

Definition isspace (c : char) : bool := in_ranges r_space c.
Definition isdigit (c : char) : bool := in_ranges r_digit c.

Fixpoint eqb (a b : text) : bool :=
  match a, b with
  | [], [] => true
  | x :: a', y :: b' => (N.eqb x y && eqb a' b')%bool
  | _, _ => false
  end.

Fixpoint dropwhile (p : char -> bool) (s : text) : text :=
  match s with
  | [] => []
  | c :: t => if p c then dropwhile p t else s
  end.

Definition lstrip (s : text) : text := dropwhile isspace s.
Definition rstrip (s : text) : text := rev (dropwhile isspace (rev s)).
Definition strip (s : text) : text := rstrip (lstrip s).

Fixpoint startswith (s p : text) : bool :=
  match p, s with
  | [], _ => true
  | x :: p', y :: s' => (N.eqb x y && startswith s' p')%bool
  | _ :: _, [] => false
  end.

(** [needle in hay]. *)
Fixpoint contains (needle hay : text) : bool :=
  (startswith hay needle ||
   match hay with
   | [] => false
   | _ :: t => contains needle t
   end)%bool.

(** [s.replace(old, new)] for a non-empty [old]: the occurrences are taken
    from left to right and do not overlap. *)
Fixpoint replace_from (old new : text) (fuel : nat) (s : text) : text :=
  match fuel with
  | O => s
  | S f =>
      match s with
      | [] => []
      | c :: t =>
          if startswith s old
          then new ++ replace_from old new f (skipn (length old) s)
          else c :: replace_from old new f t
      end
  end.

(** With an empty [old], Python puts [new] before every character and at the
    end. *)
Definition replace (old new s : text) : text :=
  match old with
  | [] => new ++ flat_map (fun c => c :: new) s
  | _ :: _ => replace_from old new (length s) s
  end.

(** [str.lower].  The table holds every character whose lower-case form is
    another single character, with that form; U+0130 (304) becomes two
    characters, and the capital sigma (931) is treated apart. *)
Definition lower_table : list (char * char) :=
  [(65, 97); (66, 98); (67, 99); (68, 100); (69, 101); (70, 102); (71, 103); (72, 104); (73,
   105); (74, 106); (75, 107); (76, 108); (77, 109); (78, 110); (79, 111); (80, 112); (81, 113);
   (82, 114); (83, 115); (84, 116); (85, 117); (86, 118); (87, 119); (88, 120); (89, 121); (90,
   122); (192, 224); (193, 225); (194, 226); (195, 227); (196, 228); (197, 229); (198, 230);
   (199, 231); (200, 232); (201, 233); (202, 234); (203, 235); (204, 236); (205, 237); (206,
   238); (207, 239); (208, 240); (209, 241); (210, 242); (211, 243); (212, 244); (213, 245);
   (214, 246); (216, 248); (217, 249); (218, 250); (219, 251); (220, 252); (221, 253); (222,
   254); (256, 257); (258, 259); (260, 261); (262, 263); (264, 265); (266, 267); (268, 269);
   (270, 271); (272, 273); (274, 275); (276, 277); (278, 279); (280, 281); (282, 283); (284,
   285); (286, 287); (288, 289); (290, 291); (292, 293); (294, 295); (296, 297); (298, 299);
   (300, 301); (302, 303); (306, 307); (308, 309); (310, 311); (313, 314); (315, 316); (317,
   318); (319, 320); (321, 322); (323, 324); (325, 326); (327, 328); (330, 331); (332, 333);
   (334, 335); (336, 337); (338, 339); (340, 341); (342, 343); (344, 345); (346, 347); (348,
   349); (350, 351); (352, 353); (354, 355); (356, 357); (358, 359); (360, 361); (362, 363);
   (364, 365); (366, 367); (368, 369); (370, 371); (372, 373); (374, 375); (376, 255); (377,
   378); (379, 380); (381, 382); (385, 595); (386, 387); (388, 389); (390, 596); (391, 392);
   (393, 598); (394, 599); (395, 396); (398, 477); (399, 601); (400, 603); (401, 402); (403,
   608); (404, 611); (406, 617); (407, 616); (408, 409); (412, 623); (413, 626); (415, 629);
   (416, 417); (418, 419); (420, 421); (422, 640); (423, 424); (425, 643); (428, 429); (430,
   648); (431, 432); (433, 650); (434, 651); (435, 436); (437, 438); (439, 658); (440, 441);
   (444, 445); (452, 454); (453, 454); (455, 457); (456, 457); (458, 460); (459, 460); (461,
   462); (463, 464); (465, 466); (467, 468); (469, 470); (471, 472); (473, 474); (475, 476);
   (478, 479); (480, 481); (482, 483); (484, 485); (486, 487); (488, 489); (490, 491); (492,
   493); (494, 495); (497, 499); (498, 499); (500, 501); (502, 405); (503, 447); (504, 505);
   (506, 507); (508, 509); (510, 511); (512, 513); (514, 515); (516, 517); (518, 519); (520,
   521); (522, 523); (524, 525); (526, 527); (528, 529); (530, 531); (532, 533); (534, 535);
   (536, 537); (538, 539); (540, 541); (542, 543); (544, 414); (546, 547); (548, 549); (550,
   551); (552, 553); (554, 555); (556, 557); (558, 559); (560, 561); (562, 563); (570, 11365);
   (571, 572); (573, 410); (574, 11366); (577, 578); (579, 384); (580, 649); (581, 652); (582,
   583); (584, 585); (586, 587); (588, 589); (590, 591); (880, 881); (882, 883); (886, 887);
   (895, 1011); (902, 940); (904, 941); (905, 942); (906, 943); (908, 972); (910, 973); (911,
   974); (913, 945); (914, 946); (915, 947); (916, 948); (917, 949); (918, 950); (919, 951);
   (920, 952); (921, 953); (922, 954); (923, 955); (924, 956); (925, 957); (926, 958); (927,
   959); (928, 960); (929, 961); (932, 964); (933, 965); (934, 966); (935, 967); (936, 968);
   (937, 969); (938, 970); (939, 971); (975, 983); (984, 985); (986, 987); (988, 989); (990,
   991); (992, 993); (994, 995); (996, 997); (998, 999); (1000, 1001); (1002, 1003); (1004,
   1005); (1006, 1007); (1012, 952); (1015, 1016); (1017, 1010); (1018, 1019); (1021, 891);
   (1022, 892); (1023, 893); (1024, 1104); (1025, 1105); (1026, 1106); (1027, 1107); (1028,
   1108); (1029, 1109); (1030, 1110); (1031, 1111); (1032, 1112); (1033, 1113); (1034, 1114);
   (1035, 1115); (1036, 1116); (1037, 1117); (1038, 1118); (1039, 1119); (1040, 1072); (1041,
   1073); (1042, 1074); (1043, 1075); (1044, 1076); (1045, 1077); (1046, 1078); (1047, 1079);
   (1048, 1080); (1049, 1081); (1050, 1082); (1051, 1083); (1052, 1084); (1053, 1085); (1054,
   1086); (1055, 1087); (1056, 1088); (1057, 1089); (1058, 1090); (1059, 1091); (1060, 1092);
   (1061, 1093); (1062, 1094); (1063, 1095); (1064, 1096); (1065, 1097); (1066, 1098); (1067,
   1099); (1068, 1100); (1069, 1101); (1070, 1102); (1071, 1103); (1120, 1121); (1122, 1123);
   (1124, 1125); (1126, 1127); (1128, 1129); (1130, 1131); (1132, 1133); (1134, 1135); (1136,
   1137); (1138, 1139); (1140, 1141); (1142, 1143); (1144, 1145); (1146, 1147); (1148, 1149);
   (1150, 1151); (1152, 1153); (1162, 1163); (1164, 1165); (1166, 1167); (1168, 1169); (1170,
   1171); (1172, 1173); (1174, 1175); (1176, 1177); (1178, 1179); (1180, 1181); (1182, 1183);
   (1184, 1185); (1186, 1187); (1188, 1189); (1190, 1191); (1192, 1193); (1194, 1195); (1196,
   1197); (1198, 1199); (1200, 1201); (1202, 1203); (1204, 1205); (1206, 1207); (1208, 1209);
   (1210, 1211); (1212, 1213); (1214, 1215); (1216, 1231); (1217, 1218); (1219, 1220); (1221,
   1222); (1223, 1224); (1225, 1226); (1227, 1228); (1229, 1230); (1232, 1233); (1234, 1235);
   (1236, 1237); (1238, 1239); (1240, 1241); (1242, 1243); (1244, 1245); (1246, 1247); (1248,
   1249); (1250, 1251); (1252, 1253); (1254, 1255); (1256, 1257); (1258, 1259); (1260, 1261);
   (1262, 1263); (1264, 1265); (1266, 1267); (1268, 1269); (1270, 1271); (1272, 1273); (1274,
   1275); (1276, 1277); (1278, 1279); (1280, 1281); (1282, 1283); (1284, 1285); (1286, 1287);
   (1288, 1289); (1290, 1291); (1292, 1293); (1294, 1295); (1296, 1297); (1298, 1299); (1300,
   1301); (1302, 1303); (1304, 1305); (1306, 1307); (1308, 1309); (1310, 1311); (1312, 1313);
   (1314, 1315); (1316, 1317); (1318, 1319); (1320, 1321); (1322, 1323); (1324, 1325); (1326,
   1327); (1329, 1377); (1330, 1378); (1331, 1379); (1332, 1380); (1333, 1381); (1334, 1382);
   (1335, 1383); (1336, 1384); (1337, 1385); (1338, 1386); (1339, 1387); (1340, 1388); (1341,
   1389); (1342, 1390); (1343, 1391); (1344, 1392); (1345, 1393); (1346, 1394); (1347, 1395);
   (1348, 1396); (1349, 1397); (1350, 1398); (1351, 1399); (1352, 1400); (1353, 1401); (1354,
   1402); (1355, 1403); (1356, 1404); (1357, 1405); (1358, 1406); (1359, 1407); (1360, 1408);
   (1361, 1409); (1362, 1410); (1363, 1411); (1364, 1412); (1365, 1413); (1366, 1414); (4256,
   11520); (4257, 11521); (4258, 11522); (4259, 11523); (4260, 11524); (4261, 11525); (4262,
   11526); (4263, 11527); (4264, 11528); (4265, 11529); (4266, 11530); (4267, 11531); (4268,
   11532); (4269, 11533); (4270, 11534); (4271, 11535); (4272, 11536); (4273, 11537); (4274,
   11538); (4275, 11539); (4276, 11540); (4277, 11541); (4278, 11542); (4279, 11543); (4280,
   11544); (4281, 11545); (4282, 11546); (4283, 11547); (4284, 11548); (4285, 11549); (4286,
   11550); (4287, 11551); (4288, 11552); (4289, 11553); (4290, 11554); (4291, 11555); (4292,
   11556); (4293, 11557); (4295, 11559); (4301, 11565); (5024, 43888); (5025, 43889); (5026,
   43890); (5027, 43891); (5028, 43892); (5029, 43893); (5030, 43894); (5031, 43895); (5032,
   43896); (5033, 43897); (5034, 43898); (5035, 43899); (5036, 43900); (5037, 43901); (5038,
   43902); (5039, 43903); (5040, 43904); (5041, 43905); (5042, 43906); (5043, 43907); (5044,
   43908); (5045, 43909); (5046, 43910); (5047, 43911); (5048, 43912); (5049, 43913); (5050,
   43914); (5051, 43915); (5052, 43916); (5053, 43917); (5054, 43918); (5055, 43919); (5056,
   43920); (5057, 43921); (5058, 43922); (5059, 43923); (5060, 43924); (5061, 43925); (5062,
   43926); (5063, 43927); (5064, 43928); (5065, 43929); (5066, 43930); (5067, 43931); (5068,
   43932); (5069, 43933); (5070, 43934); (5071, 43935); (5072, 43936); (5073, 43937); (5074,
   43938); (5075, 43939); (5076, 43940); (5077, 43941); (5078, 43942); (5079, 43943); (5080,
   43944); (5081, 43945); (5082, 43946); (5083, 43947); (5084, 43948); (5085, 43949); (5086,
   43950); (5087, 43951); (5088, 43952); (5089, 43953); (5090, 43954); (5091, 43955); (5092,
   43956); (5093, 43957); (5094, 43958); (5095, 43959); (5096, 43960); (5097, 43961); (5098,
   43962); (5099, 43963); (5100, 43964); (5101, 43965); (5102, 43966); (5103, 43967); (5104,
   5112); (5105, 5113); (5106, 5114); (5107, 5115); (5108, 5116); (5109, 5117); (7312, 4304);
   (7313, 4305); (7314, 4306); (7315, 4307); (7316, 4308); (7317, 4309); (7318, 4310); (7319,
   4311); (7320, 4312); (7321, 4313); (7322, 4314); (7323, 4315); (7324, 4316); (7325, 4317);
   (7326, 4318); (7327, 4319); (7328, 4320); (7329, 4321); (7330, 4322); (7331, 4323); (7332,
   4324); (7333, 4325); (7334, 4326); (7335, 4327); (7336, 4328); (7337, 4329); (7338, 4330);
   (7339, 4331); (7340, 4332); (7341, 4333); (7342, 4334); (7343, 4335); (7344, 4336); (7345,
   4337); (7346, 4338); (7347, 4339); (7348, 4340); (7349, 4341); (7350, 4342); (7351, 4343);
   (7352, 4344); (7353, 4345); (7354, 4346); (7357, 4349); (7358, 4350); (7359, 4351); (7680,
   7681); (7682, 7683); (7684, 7685); (7686, 7687); (7688, 7689); (7690, 7691); (7692, 7693);
   (7694, 7695); (7696, 7697); (7698, 7699); (7700, 7701); (7702, 7703); (7704, 7705); (7706,
   7707); (7708, 7709); (7710, 7711); (7712, 7713); (7714, 7715); (7716, 7717); (7718, 7719);
   (7720, 7721); (7722, 7723); (7724, 7725); (7726, 7727); (7728, 7729); (7730, 7731); (7732,
   7733); (7734, 7735); (7736, 7737); (7738, 7739); (7740, 7741); (7742, 7743); (7744, 7745);
   (7746, 7747); (7748, 7749); (7750, 7751); (7752, 7753); (7754, 7755); (7756, 7757); (7758,
   7759); (7760, 7761); (7762, 7763); (7764, 7765); (7766, 7767); (7768, 7769); (7770, 7771);
   (7772, 7773); (7774, 7775); (7776, 7777); (7778, 7779); (7780, 7781); (7782, 7783); (7784,
   7785); (7786, 7787); (7788, 7789); (7790, 7791); (7792, 7793); (7794, 7795); (7796, 7797);
   (7798, 7799); (7800, 7801); (7802, 7803); (7804, 7805); (7806, 7807); (7808, 7809); (7810,
   7811); (7812, 7813); (7814, 7815); (7816, 7817); (7818, 7819); (7820, 7821); (7822, 7823);
   (7824, 7825); (7826, 7827); (7828, 7829); (7838, 223); (7840, 7841); (7842, 7843); (7844,
   7845); (7846, 7847); (7848, 7849); (7850, 7851); (7852, 7853); (7854, 7855); (7856, 7857);
   (7858, 7859); (7860, 7861); (7862, 7863); (7864, 7865); (7866, 7867); (7868, 7869); (7870,
   7871); (7872, 7873); (7874, 7875); (7876, 7877); (7878, 7879); (7880, 7881); (7882, 7883);
   (7884, 7885); (7886, 7887); (7888, 7889); (7890, 7891); (7892, 7893); (7894, 7895); (7896,
   7897); (7898, 7899); (7900, 7901); (7902, 7903); (7904, 7905); (7906, 7907); (7908, 7909);
   (7910, 7911); (7912, 7913); (7914, 7915); (7916, 7917); (7918, 7919); (7920, 7921); (7922,
   7923); (7924, 7925); (7926, 7927); (7928, 7929); (7930, 7931); (7932, 7933); (7934, 7935);
   (7944, 7936); (7945, 7937); (7946, 7938); (7947, 7939); (7948, 7940); (7949, 7941); (7950,
   7942); (7951, 7943); (7960, 7952); (7961, 7953); (7962, 7954); (7963, 7955); (7964, 7956);
   (7965, 7957); (7976, 7968); (7977, 7969); (7978, 7970); (7979, 7971); (7980, 7972); (7981,
   7973); (7982, 7974); (7983, 7975); (7992, 7984); (7993, 7985); (7994, 7986); (7995, 7987);
   (7996, 7988); (7997, 7989); (7998, 7990); (7999, 7991); (8008, 8000); (8009, 8001); (8010,
   8002); (8011, 8003); (8012, 8004); (8013, 8005); (8025, 8017); (8027, 8019); (8029, 8021);
   (8031, 8023); (8040, 8032); (8041, 8033); (8042, 8034); (8043, 8035); (8044, 8036); (8045,
   8037); (8046, 8038); (8047, 8039); (8072, 8064); (8073, 8065); (8074, 8066); (8075, 8067);
   (8076, 8068); (8077, 8069); (8078, 8070); (8079, 8071); (8088, 8080); (8089, 8081); (8090,
   8082); (8091, 8083); (8092, 8084); (8093, 8085); (8094, 8086); (8095, 8087); (8104, 8096);
   (8105, 8097); (8106, 8098); (8107, 8099); (8108, 8100); (8109, 8101); (8110, 8102); (8111,
   8103); (8120, 8112); (8121, 8113); (8122, 8048); (8123, 8049); (8124, 8115); (8136, 8050);
   (8137, 8051); (8138, 8052); (8139, 8053); (8140, 8131); (8152, 8144); (8153, 8145); (8154,
   8054); (8155, 8055); (8168, 8160); (8169, 8161); (8170, 8058); (8171, 8059); (8172, 8165);
   (8184, 8056); (8185, 8057); (8186, 8060); (8187, 8061); (8188, 8179); (8486, 969); (8490,
   107); (8491, 229); (8498, 8526); (8544, 8560); (8545, 8561); (8546, 8562); (8547, 8563);
   (8548, 8564); (8549, 8565); (8550, 8566); (8551, 8567); (8552, 8568); (8553, 8569); (8554,
   8570); (8555, 8571); (8556, 8572); (8557, 8573); (8558, 8574); (8559, 8575); (8579, 8580);
   (9398, 9424); (9399, 9425); (9400, 9426); (9401, 9427); (9402, 9428); (9403, 9429); (9404,
   9430); (9405, 9431); (9406, 9432); (9407, 9433); (9408, 9434); (9409, 9435); (9410, 9436);
   (9411, 9437); (9412, 9438); (9413, 9439); (9414, 9440); (9415, 9441); (9416, 9442); (9417,
   9443); (9418, 9444); (9419, 9445); (9420, 9446); (9421, 9447); (9422, 9448); (9423, 9449);
   (11264, 11312); (11265, 11313); (11266, 11314); (11267, 11315); (11268, 11316); (11269,
   11317); (11270, 11318); (11271, 11319); (11272, 11320); (11273, 11321); (11274, 11322);
   (11275, 11323); (11276, 11324); (11277, 11325); (11278, 11326); (11279, 11327); (11280,
   11328); (11281, 11329); (11282, 11330); (11283, 11331); (11284, 11332); (11285, 11333);
   (11286, 11334); (11287, 11335); (11288, 11336); (11289, 11337); (11290, 11338); (11291,
   11339); (11292, 11340); (11293, 11341); (11294, 11342); (11295, 11343); (11296, 11344);
   (11297, 11345); (11298, 11346); (11299, 11347); (11300, 11348); (11301, 11349); (11302,
   11350); (11303, 11351); (11304, 11352); (11305, 11353); (11306, 11354); (11307, 11355);
   (11308, 11356); (11309, 11357); (11310, 11358); (11311, 11359); (11360, 11361); (11362, 619);
   (11363, 7549); (11364, 637); (11367, 11368); (11369, 11370); (11371, 11372); (11373, 593);
   (11374, 625); (11375, 592); (11376, 594); (11378, 11379); (11381, 11382); (11390, 575);
   (11391, 576); (11392, 11393); (11394, 11395); (11396, 11397); (11398, 11399); (11400, 11401);
   (11402, 11403); (11404, 11405); (11406, 11407); (11408, 11409); (11410, 11411); (11412,
   11413); (11414, 11415); (11416, 11417); (11418, 11419); (11420, 11421); (11422, 11423);
   (11424, 11425); (11426, 11427); (11428, 11429); (11430, 11431); (11432, 11433); (11434,
   11435); (11436, 11437); (11438, 11439); (11440, 11441); (11442, 11443); (11444, 11445);
   (11446, 11447); (11448, 11449); (11450, 11451); (11452, 11453); (11454, 11455); (11456,
   11457); (11458, 11459); (11460, 11461); (11462, 11463); (11464, 11465); (11466, 11467);
   (11468, 11469); (11470, 11471); (11472, 11473); (11474, 11475); (11476, 11477); (11478,
   11479); (11480, 11481); (11482, 11483); (11484, 11485); (11486, 11487); (11488, 11489);
   (11490, 11491); (11499, 11500); (11501, 11502); (11506, 11507); (42560, 42561); (42562,
   42563); (42564, 42565); (42566, 42567); (42568, 42569); (42570, 42571); (42572, 42573);
   (42574, 42575); (42576, 42577); (42578, 42579); (42580, 42581); (42582, 42583); (42584,
   42585); (42586, 42587); (42588, 42589); (42590, 42591); (42592, 42593); (42594, 42595);
   (42596, 42597); (42598, 42599); (42600, 42601); (42602, 42603); (42604, 42605); (42624,
   42625); (42626, 42627); (42628, 42629); (42630, 42631); (42632, 42633); (42634, 42635);
   (42636, 42637); (42638, 42639); (42640, 42641); (42642, 42643); (42644, 42645); (42646,
   42647); (42648, 42649); (42650, 42651); (42786, 42787); (42788, 42789); (42790, 42791);
   (42792, 42793); (42794, 42795); (42796, 42797); (42798, 42799); (42802, 42803); (42804,
   42805); (42806, 42807); (42808, 42809); (42810, 42811); (42812, 42813); (42814, 42815);
   (42816, 42817); (42818, 42819); (42820, 42821); (42822, 42823); (42824, 42825); (42826,
   42827); (42828, 42829); (42830, 42831); (42832, 42833); (42834, 42835); (42836, 42837);
   (42838, 42839); (42840, 42841); (42842, 42843); (42844, 42845); (42846, 42847); (42848,
   42849); (42850, 42851); (42852, 42853); (42854, 42855); (42856, 42857); (42858, 42859);
   (42860, 42861); (42862, 42863); (42873, 42874); (42875, 42876); (42877, 7545); (42878,
   42879); (42880, 42881); (42882, 42883); (42884, 42885); (42886, 42887); (42891, 42892);
   (42893, 613); (42896, 42897); (42898, 42899); (42902, 42903); (42904, 42905); (42906, 42907);
   (42908, 42909); (42910, 42911); (42912, 42913); (42914, 42915); (42916, 42917); (42918,
   42919); (42920, 42921); (42922, 614); (42923, 604); (42924, 609); (42925, 620); (42926, 618);
   (42928, 670); (42929, 647); (42930, 669); (42931, 43859); (42932, 42933); (42934, 42935);
   (42936, 42937); (42938, 42939); (42940, 42941); (42942, 42943); (42944, 42945); (42946,
   42947); (42948, 42900); (42949, 642); (42950, 7566); (42951, 42952); (42953, 42954); (42960,
   42961); (42966, 42967); (42968, 42969); (42997, 42998); (65313, 65345); (65314, 65346);
   (65315, 65347); (65316, 65348); (65317, 65349); (65318, 65350); (65319, 65351); (65320,
   65352); (65321, 65353); (65322, 65354); (65323, 65355); (65324, 65356); (65325, 65357);
   (65326, 65358); (65327, 65359); (65328, 65360); (65329, 65361); (65330, 65362); (65331,
   65363); (65332, 65364); (65333, 65365); (65334, 65366); (65335, 65367); (65336, 65368);
   (65337, 65369); (65338, 65370); (66560, 66600); (66561, 66601); (66562, 66602); (66563,
   66603); (66564, 66604); (66565, 66605); (66566, 66606); (66567, 66607); (66568, 66608);
   (66569, 66609); (66570, 66610); (66571, 66611); (66572, 66612); (66573, 66613); (66574,
   66614); (66575, 66615); (66576, 66616); (66577, 66617); (66578, 66618); (66579, 66619);
   (66580, 66620); (66581, 66621); (66582, 66622); (66583, 66623); (66584, 66624); (66585,
   66625); (66586, 66626); (66587, 66627); (66588, 66628); (66589, 66629); (66590, 66630);
   (66591, 66631); (66592, 66632); (66593, 66633); (66594, 66634); (66595, 66635); (66596,
   66636); (66597, 66637); (66598, 66638); (66599, 66639); (66736, 66776); (66737, 66777);
   (66738, 66778); (66739, 66779); (66740, 66780); (66741, 66781); (66742, 66782); (66743,
   66783); (66744, 66784); (66745, 66785); (66746, 66786); (66747, 66787); (66748, 66788);
   (66749, 66789); (66750, 66790); (66751, 66791); (66752, 66792); (66753, 66793); (66754,
   66794); (66755, 66795); (66756, 66796); (66757, 66797); (66758, 66798); (66759, 66799);
   (66760, 66800); (66761, 66801); (66762, 66802); (66763, 66803); (66764, 66804); (66765,
   66805); (66766, 66806); (66767, 66807); (66768, 66808); (66769, 66809); (66770, 66810);
   (66771, 66811); (66928, 66967); (66929, 66968); (66930, 66969); (66931, 66970); (66932,
   66971); (66933, 66972); (66934, 66973); (66935, 66974); (66936, 66975); (66937, 66976);
   (66938, 66977); (66940, 66979); (66941, 66980); (66942, 66981); (66943, 66982); (66944,
   66983); (66945, 66984); (66946, 66985); (66947, 66986); (66948, 66987); (66949, 66988);
   (66950, 66989); (66951, 66990); (66952, 66991); (66953, 66992); (66954, 66993); (66956,
   66995); (66957, 66996); (66958, 66997); (66959, 66998); (66960, 66999); (66961, 67000);
   (66962, 67001); (66964, 67003); (66965, 67004); (68736, 68800); (68737, 68801); (68738,
   68802); (68739, 68803); (68740, 68804); (68741, 68805); (68742, 68806); (68743, 68807);
   (68744, 68808); (68745, 68809); (68746, 68810); (68747, 68811); (68748, 68812); (68749,
   68813); (68750, 68814); (68751, 68815); (68752, 68816); (68753, 68817); (68754, 68818);
   (68755, 68819); (68756, 68820); (68757, 68821); (68758, 68822); (68759, 68823); (68760,
   68824); (68761, 68825); (68762, 68826); (68763, 68827); (68764, 68828); (68765, 68829);
   (68766, 68830); (68767, 68831); (68768, 68832); (68769, 68833); (68770, 68834); (68771,
   68835); (68772, 68836); (68773, 68837); (68774, 68838); (68775, 68839); (68776, 68840);
   (68777, 68841); (68778, 68842); (68779, 68843); (68780, 68844); (68781, 68845); (68782,
   68846); (68783, 68847); (68784, 68848); (68785, 68849); (68786, 68850); (71840, 71872);
   (71841, 71873); (71842, 71874); (71843, 71875); (71844, 71876); (71845, 71877); (71846,
   71878); (71847, 71879); (71848, 71880); (71849, 71881); (71850, 71882); (71851, 71883);
   (71852, 71884); (71853, 71885); (71854, 71886); (71855, 71887); (71856, 71888); (71857,
   71889); (71858, 71890); (71859, 71891); (71860, 71892); (71861, 71893); (71862, 71894);
   (71863, 71895); (71864, 71896); (71865, 71897); (71866, 71898); (71867, 71899); (71868,
   71900); (71869, 71901); (71870, 71902); (71871, 71903); (93760, 93792); (93761, 93793);
   (93762, 93794); (93763, 93795); (93764, 93796); (93765, 93797); (93766, 93798); (93767,
   93799); (93768, 93800); (93769, 93801); (93770, 93802); (93771, 93803); (93772, 93804);
   (93773, 93805); (93774, 93806); (93775, 93807); (93776, 93808); (93777, 93809); (93778,
   93810); (93779, 93811); (93780, 93812); (93781, 93813); (93782, 93814); (93783, 93815);
   (93784, 93816); (93785, 93817); (93786, 93818); (93787, 93819); (93788, 93820); (93789,
   93821); (93790, 93822); (93791, 93823); (125184, 125218); (125185, 125219); (125186, 125220);
   (125187, 125221); (125188, 125222); (125189, 125223); (125190, 125224); (125191, 125225);
   (125192, 125226); (125193, 125227); (125194, 125228); (125195, 125229); (125196, 125230);
   (125197, 125231); (125198, 125232); (125199, 125233); (125200, 125234); (125201, 125235);
   (125202, 125236); (125203, 125237); (125204, 125238); (125205, 125239); (125206, 125240);
   (125207, 125241); (125208, 125242); (125209, 125243); (125210, 125244); (125211, 125245);
   (125212, 125246); (125213, 125247); (125214, 125248); (125215, 125249); (125216, 125250);
   (125217, 125251)]%N.

Definition lower_char (c : char) : text :=
  if N.eqb c 304 then [105; 775]%N
  else match find (fun e => N.eqb (fst e) c) lower_table with
       | Some e => [snd e]
       | None => [c]
       end.

(** The cased characters and the case-ignorable characters. *)
Definition r_cased : list (char * char) :=
  [(65, 90); (97, 122); (170, 170); (181, 181); (186, 186); (192, 214); (216, 246); (248, 442);
   (444, 447); (452, 659); (661, 696); (704, 705); (736, 740); (837, 837); (880, 883); (886,
   887); (890, 893); (895, 895); (902, 902); (904, 906); (908, 908); (910, 929); (931, 1013);
   (1015, 1153); (1162, 1327); (1329, 1366); (1376, 1416); (4256, 4293); (4295, 4295); (4301,
   4301); (4304, 4346); (4349, 4351); (5024, 5109); (5112, 5117); (7296, 7304); (7312, 7354);
   (7357, 7359); (7424, 7615); (7680, 7957); (7960, 7965); (7968, 8005); (8008, 8013); (8016,
   8023); (8025, 8025); (8027, 8027); (8029, 8029); (8031, 8061); (8064, 8116); (8118, 8124);
   (8126, 8126); (8130, 8132); (8134, 8140); (8144, 8147); (8150, 8155); (8160, 8172); (8178,
   8180); (8182, 8188); (8305, 8305); (8319, 8319); (8336, 8348); (8450, 8450); (8455, 8455);
   (8458, 8467); (8469, 8469); (8473, 8477); (8484, 8484); (8486, 8486); (8488, 8488); (8490,
   8493); (8495, 8500); (8505, 8505); (8508, 8511); (8517, 8521); (8526, 8526); (8544, 8575);
   (8579, 8580); (9398, 9449); (11264, 11492); (11499, 11502); (11506, 11507); (11520, 11557);
   (11559, 11559); (11565, 11565); (42560, 42605); (42624, 42653); (42786, 42887); (42891,
   42894); (42896, 42954); (42960, 42961); (42963, 42963); (42965, 42969); (42997, 42998);
   (43000, 43002); (43824, 43866); (43868, 43880); (43888, 43967); (64256, 64262); (64275,
   64279); (65313, 65338); (65345, 65370); (66560, 66639); (66736, 66771); (66776, 66811);
   (66928, 66938); (66940, 66954); (66956, 66962); (66964, 66965); (66967, 66977); (66979,
   66993); (66995, 67001); (67003, 67004); (67456, 67456); (67459, 67461); (67463, 67504);
   (67506, 67514); (68736, 68786); (68800, 68850); (71840, 71903); (93760, 93823); (119808,
   119892); (119894, 119964); (119966, 119967); (119970, 119970); (119973, 119974); (119977,
   119980); (119982, 119993); (119995, 119995); (119997, 120003); (120005, 120069); (120071,
   120074); (120077, 120084); (120086, 120092); (120094, 120121); (120123, 120126); (120128,
   120132); (120134, 120134); (120138, 120144); (120146, 120485); (120488, 120512); (120514,
   120538); (120540, 120570); (120572, 120596); (120598, 120628); (120630, 120654); (120656,
   120686); (120688, 120712); (120714, 120744); (120746, 120770); (120772, 120779); (122624,
   122633); (122635, 122654); (125184, 125251); (127280, 127305); (127312, 127337); (127344,
   127369)]%N.

Definition r_case_ignorable : list (char * char) :=
  [(39, 39); (46, 46); (58, 58); (94, 94); (96, 96); (168, 168); (173, 173); (175, 175); (180,
   180); (183, 184); (688, 879); (884, 885); (890, 890); (900, 901); (903, 903); (1155, 1161);
   (1369, 1369); (1375, 1375); (1425, 1469); (1471, 1471); (1473, 1474); (1476, 1477); (1479,
   1479); (1524, 1524); (1536, 1541); (1552, 1562); (1564, 1564); (1600, 1600); (1611, 1631);
   (1648, 1648); (1750, 1757); (1759, 1768); (1770, 1773); (1807, 1807); (1809, 1809); (1840,
   1866); (1958, 1968); (2027, 2037); (2042, 2042); (2045, 2045); (2070, 2093); (2137, 2139);
   (2184, 2184); (2192, 2193); (2200, 2207); (2249, 2306); (2362, 2362); (2364, 2364); (2369,
   2376); (2381, 2381); (2385, 2391); (2402, 2403); (2417, 2417); (2433, 2433); (2492, 2492);
   (2497, 2500); (2509, 2509); (2530, 2531); (2558, 2558); (2561, 2562); (2620, 2620); (2625,
   2626); (2631, 2632); (2635, 2637); (2641, 2641); (2672, 2673); (2677, 2677); (2689, 2690);
   (2748, 2748); (2753, 2757); (2759, 2760); (2765, 2765); (2786, 2787); (2810, 2815); (2817,
   2817); (2876, 2876); (2879, 2879); (2881, 2884); (2893, 2893); (2901, 2902); (2914, 2915);
   (2946, 2946); (3008, 3008); (3021, 3021); (3072, 3072); (3076, 3076); (3132, 3132); (3134,
   3136); (3142, 3144); (3146, 3149); (3157, 3158); (3170, 3171); (3201, 3201); (3260, 3260);
   (3263, 3263); (3270, 3270); (3276, 3277); (3298, 3299); (3328, 3329); (3387, 3388); (3393,
   3396); (3405, 3405); (3426, 3427); (3457, 3457); (3530, 3530); (3538, 3540); (3542, 3542);
   (3633, 3633); (3636, 3642); (3654, 3662); (3761, 3761); (3764, 3772); (3782, 3782); (3784,
   3789); (3864, 3865); (3893, 3893); (3895, 3895); (3897, 3897); (3953, 3966); (3968, 3972);
   (3974, 3975); (3981, 3991); (3993, 4028); (4038, 4038); (4141, 4144); (4146, 4151); (4153,
   4154); (4157, 4158); (4184, 4185); (4190, 4192); (4209, 4212); (4226, 4226); (4229, 4230);
   (4237, 4237); (4253, 4253); (4348, 4348); (4957, 4959); (5906, 5908); (5938, 5939); (5970,
   5971); (6002, 6003); (6068, 6069); (6071, 6077); (6086, 6086); (6089, 6099); (6103, 6103);
   (6109, 6109); (6155, 6159); (6211, 6211); (6277, 6278); (6313, 6313); (6432, 6434); (6439,
   6440); (6450, 6450); (6457, 6459); (6679, 6680); (6683, 6683); (6742, 6742); (6744, 6750);
   (6752, 6752); (6754, 6754); (6757, 6764); (6771, 6780); (6783, 6783); (6823, 6823); (6832,
   6862); (6912, 6915); (6964, 6964); (6966, 6970); (6972, 6972); (6978, 6978); (7019, 7027);
   (7040, 7041); (7074, 7077); (7080, 7081); (7083, 7085); (7142, 7142); (7144, 7145); (7149,
   7149); (7151, 7153); (7212, 7219); (7222, 7223); (7288, 7293); (7376, 7378); (7380, 7392);
   (7394, 7400); (7405, 7405); (7412, 7412); (7416, 7417); (7468, 7530); (7544, 7544); (7579,
   7679); (8125, 8125); (8127, 8129); (8141, 8143); (8157, 8159); (8173, 8175); (8189, 8190);
   (8203, 8207); (8216, 8217); (8228, 8228); (8231, 8231); (8234, 8238); (8288, 8292); (8294,
   8303); (8305, 8305); (8319, 8319); (8336, 8348); (8400, 8432); (11388, 11389); (11503,
   11505); (11631, 11631); (11647, 11647); (11744, 11775); (11823, 11823); (12293, 12293);
   (12330, 12333); (12337, 12341); (12347, 12347); (12441, 12446); (12540, 12542); (40981,
   40981); (42232, 42237); (42508, 42508); (42607, 42610); (42612, 42621); (42623, 42623);
   (42652, 42655); (42736, 42737); (42752, 42785); (42864, 42864); (42888, 42890); (42994,
   42996); (43000, 43001); (43010, 43010); (43014, 43014); (43019, 43019); (43045, 43046);
   (43052, 43052); (43204, 43205); (43232, 43249); (43263, 43263); (43302, 43309); (43335,
   43345); (43392, 43394); (43443, 43443); (43446, 43449); (43452, 43453); (43471, 43471);
   (43493, 43494); (43561, 43566); (43569, 43570); (43573, 43574); (43587, 43587); (43596,
   43596); (43632, 43632); (43644, 43644); (43696, 43696); (43698, 43700); (43703, 43704);
   (43710, 43711); (43713, 43713); (43741, 43741); (43756, 43757); (43763, 43764); (43766,
   43766); (43867, 43871); (43881, 43883); (44005, 44005); (44008, 44008); (44013, 44013);
   (64286, 64286); (64434, 64450); (65024, 65039); (65043, 65043); (65056, 65071); (65106,
   65106); (65109, 65109); (65279, 65279); (65287, 65287); (65294, 65294); (65306, 65306);
   (65342, 65342); (65344, 65344); (65392, 65392); (65438, 65439); (65507, 65507); (65529,
   65531); (66045, 66045); (66272, 66272); (66422, 66426); (67456, 67461); (67463, 67504);
   (67506, 67514); (68097, 68099); (68101, 68102); (68108, 68111); (68152, 68154); (68159,
   68159); (68325, 68326); (68900, 68903); (69291, 69292); (69446, 69456); (69506, 69509);
   (69633, 69633); (69688, 69702); (69744, 69744); (69747, 69748); (69759, 69761); (69811,
   69814); (69817, 69818); (69821, 69821); (69826, 69826); (69837, 69837); (69888, 69890);
   (69927, 69931); (69933, 69940); (70003, 70003); (70016, 70017); (70070, 70078); (70089,
   70092); (70095, 70095); (70191, 70193); (70196, 70196); (70198, 70199); (70206, 70206);
   (70367, 70367); (70371, 70378); (70400, 70401); (70459, 70460); (70464, 70464); (70502,
   70508); (70512, 70516); (70712, 70719); (70722, 70724); (70726, 70726); (70750, 70750);
   (70835, 70840); (70842, 70842); (70847, 70848); (70850, 70851); (71090, 71093); (71100,
   71101); (71103, 71104); (71132, 71133); (71219, 71226); (71229, 71229); (71231, 71232);
   (71339, 71339); (71341, 71341); (71344, 71349); (71351, 71351); (71453, 71455); (71458,
   71461); (71463, 71467); (71727, 71735); (71737, 71738); (71995, 71996); (71998, 71998);
   (72003, 72003); (72148, 72151); (72154, 72155); (72160, 72160); (72193, 72202); (72243,
   72248); (72251, 72254); (72263, 72263); (72273, 72278); (72281, 72283); (72330, 72342);
   (72344, 72345); (72752, 72758); (72760, 72765); (72767, 72767); (72850, 72871); (72874,
   72880); (72882, 72883); (72885, 72886); (73009, 73014); (73018, 73018); (73020, 73021);
   (73023, 73029); (73031, 73031); (73104, 73105); (73109, 73109); (73111, 73111); (73459,
   73460); (78896, 78904); (92912, 92916); (92976, 92982); (92992, 92995); (94031, 94031);
   (94095, 94111); (94176, 94177); (94179, 94180); (110576, 110579); (110581, 110587); (110589,
   110590); (113821, 113822); (113824, 113827); (118528, 118573); (118576, 118598); (119143,
   119145); (119155, 119170); (119173, 119179); (119210, 119213); (119362, 119364); (121344,
   121398); (121403, 121452); (121461, 121461); (121476, 121476); (121499, 121503); (121505,
   121519); (122880, 122886); (122888, 122904); (122907, 122913); (122915, 122916); (122918,
   122922); (123184, 123197); (123566, 123566); (123628, 123631); (125136, 125142); (125252,
   125259); (127995, 127999); (917505, 917505); (917536, 917631); (917760, 917999)]%N.

(** Whether the first character of [s] that is not case-ignorable is a
    cased one. *)
Definition cased_next (s : text) : bool :=
  match dropwhile (in_ranges r_case_ignorable) s with
  | c :: _ => in_ranges r_cased c
  | [] => false
  end.

(** A capital sigma is in final position when a cased character comes
    before it and none after it, case-ignorable characters skipped. *)
Definition final_sigma (before_rev after : text) : bool :=
  (cased_next before_rev && negb (cased_next after))%bool.

(** [before_rev] holds the characters before [s], the nearest first. *)
Fixpoint lower_from (before_rev s : text) : text :=
  match s with
  | [] => []
  | c :: t =>
      (if N.eqb c 931 then [if final_sigma before_rev t then 962 else 963]%N
       else lower_char c) ++ lower_from (c :: before_rev) t
  end.

Definition lower (s : text) : text := lower_from [] s.

(** [s.split(sep)] for a one-character separator. *)
Fixpoint split_on (sep : char) (s : text) : list text :=
  match s with
  | [] => [[]]
  | c :: t =>
      if N.eqb c sep then [] :: split_on sep t
      else match split_on sep t with
           | [] => [[c]]
           | h :: r => (c :: h) :: r
           end
  end.

(** [sep.join(parts)]. *)
Fixpoint join (sep : text) (parts : list text) : text :=
  match parts with
  | [] => []
  | [p] => p
  | p :: r => p ++ sep ++ join sep r
  end.

(** The value of a decimal digit. *)
Definition digit_value (c : char) : N :=
  match find (in_range c) r_digit with
  | Some r => ((c - fst r) mod 10)%N
  | None => 0%N
  end.

(** [int(s)] for a string of decimal digits. *)
Definition int_of (s : text) : N :=
  fold_left (fun acc c => (acc * 10 + digit_value c)%N) s 0%N.

Fixpoint digits_rev (fuel : nat) (n : N) : text :=
  match fuel with
  | O => []
  | S f => (48 + n mod 10)%N :: (if N.ltb n 10 then [] else digits_rev f (n / 10)%N)
  end.

(** [str(n)] for a natural number. *)
Definition str_of_N (n : N) : text := rev (digits_rev (S (N.to_nat (N.log2 n))) n).

(** [format(n, '02d')]: zero-padded to width two. *)
Definition fmt02 (n : N) : text :=
  let d := str_of_N n in
  repeat 48%N (2 - length d) ++ d.

End Str.

Import Str.

(** ** The subset of Python's [re] that the modelled functions use *)

Module Re.

Record flags := { IGNORECASE : bool; MULTILINE : bool; DOTALL : bool }.

Definition no_flags : flags :=
  {| IGNORECASE := false; MULTILINE := false; DOTALL := false |}.
Definition flag_I : flags :=
  {| IGNORECASE := true; MULTILINE := false; DOTALL := false |}.
Definition flag_IM : flags :=
  {| IGNORECASE := true; MULTILINE := true; DOTALL := false |}.

(** Pattern syntax.  [In_ neg rs] is a bracketed class given by its ranges,
    [Rep greedy lo hi a] is [a{lo,hi}] ([hi = None] for no upper bound) or its
    lazy form, [Grp n a] is the [n]-th capturing group. *)
Inductive regex : Type :=
| Eps
| Chr (c : char)
| Dot
| In_ (negate : bool) (ranges : list (char * char))
| Cat (a b : regex)
| Rep (greedy : bool) (lo : nat) (hi : option nat) (a : regex)
| Grp (n : nat) (a : regex)
| Bol
| Eol
| Wordb.

Arguments Chr c%_N.

Definition Lit (s : text) : regex := fold_right (fun c r => Cat (Chr c) r) Eps s.
Definition Seq (rs : list regex) : regex := fold_right Cat Eps rs.
Definition Star (a : regex) : regex := Rep true 0 None a.
Definition Plus (a : regex) : regex := Rep true 1 None a.
Definition Digit : regex := In_ false r_digit.
Definition Space : regex := In_ false r_space.

(** The characters that match [c] when case is ignored. *)
Definition case_variants (c : char) : list char :=
  if in_ranges r_upper c then
    c :: (c + 32)%N ::
      (if N.eqb c 73 then [304; 305] else if N.eqb c 75 then [8490]
       else if N.eqb c 83 then [383] else [])%N
  else if in_ranges r_lower c then
    c :: (c - 32)%N ::
      (if N.eqb c 105 then [304; 305] else if N.eqb c 107 then [8490]
       else if N.eqb c 115 then [383] else [])%N
  else if (N.eqb c 304 || N.eqb c 305)%bool then [c; 105; 73]%N
  else if N.eqb c 8490 then [c; 107; 75]%N
  else if N.eqb c 383 then [c; 115; 83]%N
  else [c].

Definition chr_ok (fl : flags) (p x : char) : bool :=
  if IGNORECASE fl then existsb (N.eqb p) (case_variants x) else N.eqb p x.

Definition in_ok (fl : flags) (neg : bool) (rs : list (char * char)) (x : char) : bool :=
  xorb neg (if IGNORECASE fl then existsb (in_ranges rs) (case_variants x)
            else in_ranges rs x).

Definition dot_ok (fl : flags) (x : char) : bool :=
  (DOTALL fl || negb (N.eqb x 10))%bool.

(** A position in the subject: the character before it (if any), the text
    from it onwards, and the groups captured so far. *)
Record mstate := { prev : option char; rest : text; caps : list (nat * text) }.

Definition start_of (s : text) : mstate := {| prev := None; rest := s; caps := [] |}.

Definition adv (c : char) (t : text) (st : mstate) : mstate :=
  {| prev := Some c; rest := t; caps := caps st |}.

Definition is_word (o : option char) : bool :=
  match o with
  | Some c => in_ranges r_word c
  | None => false
  end.

Definition at_bol (fl : flags) (st : mstate) : bool :=
  match prev st with
  | None => true
  | Some c => (MULTILINE fl && N.eqb c 10)%bool
  end.

(** [$]: at the end, or before a newline that ends the subject; with
    [MULTILINE], before any newline. *)
Definition at_eol (fl : flags) (st : mstate) : bool :=
  match rest st with
  | [] => true
  | c :: t => (N.eqb c 10 && (MULTILINE fl || match t with [] => true | _ => false end))%bool
  end.

Definition at_wordb (st : mstate) : bool :=
  xorb (is_word (prev st)) (is_word (hd_error (rest st))).

Definition consumed (st st' : mstate) : text :=
  firstn (length (rest st) - length (rest st')) (rest st).

Definition set_cap (n : nat) (v : text) (st : mstate) : mstate :=
  {| prev := prev st; rest := rest st;
     caps := (n, v) :: filter (fun e => negb (Nat.eqb (fst e) n)) (caps st) |}.

Definition cont := mstate -> option mstate.

Definition below (cnt : nat) (hi : option nat) : bool :=
  match hi with
  | None => true
  | Some h => Nat.ltb cnt h
  end.

(** The backtracking loop of a quantifier.  An iteration that consumes
    nothing is not repeated. *)
Fixpoint rep_loop (body : cont -> cont) (greedy : bool) (lo : nat)
    (hi : option nat) (k : cont) (fuel cnt : nat) (st : mstate) : option mstate :=
  let stop := if Nat.leb lo cnt then k st else None in
  if below cnt hi then
    match fuel with
    | O => stop
    | S f =>
        let more :=
          body (fun st' =>
                  if Nat.ltb (length (rest st')) (length (rest st))
                  then rep_loop body greedy lo hi k f (S cnt) st'
                  else None) st in
        if greedy
        then match more with Some r => Some r | None => stop end
        else match stop with Some r => Some r | None => more end
    end
  else stop.

(** The matcher, in continuation-passing style: [m fl r k st] matches [r] at
    [st] and hands the position reached to [k]; alternatives are tried in
    the order of the backtracking engine. *)
Fixpoint m (fl : flags) (r : regex) (k : cont) (st : mstate) : option mstate :=
  match r with
  | Eps => k st
  | Chr c =>
      match rest st with
      | x :: t => if chr_ok fl c x then k (adv x t st) else None
      | [] => None
      end
  | Dot =>
      match rest st with
      | x :: t => if dot_ok fl x then k (adv x t st) else None
      | [] => None
      end
  | In_ neg rs =>
      match rest st with
      | x :: t => if in_ok fl neg rs x then k (adv x t st) else None
      | [] => None
      end
  | Cat a b => m fl a (m fl b k) st
  | Rep g lo hi a => rep_loop (m fl a) g lo hi k (length (rest st)) 0 st
  | Grp n a => m fl a (fun st' => k (set_cap n (consumed st st') st')) st
  | Bol => if at_bol fl st then k st else None
  | Eol => if at_eol fl st then k st else None
  | Wordb => if at_wordb st then k st else None
  end.

(** A match object: the text before the match, the matched text, the groups
    and the position after the match. *)
Record Match := { m_pre : text; m_0 : text; m_groups : list (nat * text); m_end : mstate }.

Definition group (mt : Match) (n : nat) : text :=
  match find (fun e => Nat.eqb (fst e) n) (m_groups mt) with
  | Some e => snd e
  | None => []
  end.

Definition match_at (fl : flags) (r : regex) (pre : text) (st : mstate) : option Match :=
  match m fl r Some {| prev := prev st; rest := rest st; caps := [] |} with
  | Some st' =>
      Some {| m_pre := pre; m_0 := consumed st st'; m_groups := caps st'; m_end := st' |}
  | None => None
  end.

(** [re.match]. *)
Definition re_match (fl : flags) (r : regex) (s : text) : option Match :=
  match_at fl r [] (start_of s).

Fixpoint search_from (fl : flags) (r : regex) (pre_rev : text) (p : option char)
    (s : text) : option Match :=
  match match_at fl r (rev pre_rev) {| prev := p; rest := s; caps := [] |} with
  | Some mt => Some mt
  | None =>
      match s with
      | [] => None
      | c :: t => search_from fl r (c :: pre_rev) (Some c) t
      end
  end.

(** [re.search]. *)
Definition search (fl : flags) (r : regex) (s : text) : option Match :=
  search_from fl r [] None s.

(** A replacement template: literal text and group references. *)
Inductive repl_item := RLit (t : text) | RGroup (n : nat).

Definition expand (tpl : list repl_item) (mt : Match) : text :=
  flat_map (fun i => match i with RLit t => t | RGroup n => group mt n end) tpl.

(** [re.sub]: the matches are found from left to right; after an empty match
    the next character is copied. *)
Fixpoint sub_loop (fl : flags) (r : regex) (tpl : list repl_item) (fuel : nat)
    (st : mstate) : text :=
  match fuel with
  | O => rest st
  | S f =>
      let copy :=
        match rest st with
        | [] => []
        | c :: t => c :: sub_loop fl r tpl f (adv c t st)
        end in
      match match_at fl r [] st with
      | Some mt =>
          match m_0 mt with
          | [] => expand tpl mt ++ copy
          | _ :: _ => expand tpl mt ++ sub_loop fl r tpl f (m_end mt)
          end
      | None => copy
      end
  end.

Definition sub (fl : flags) (r : regex) (tpl : list repl_item) (s : text) : text :=
  sub_loop fl r tpl (S (length s)) (start_of s).

(** [re.split] for a pattern without groups: the pieces between the matches. *)
Fixpoint split_loop (fl : flags) (r : regex) (fuel : nat) (piece_rev : text)
    (st : mstate) : list text :=
  match fuel with
  | O => [rev piece_rev ++ rest st]
  | S f =>
      let copy :=
        match rest st with
        | [] => [rev piece_rev]
        | c :: t => split_loop fl r f (c :: piece_rev) (adv c t st)
        end in
      match match_at fl r [] st with
      | Some mt =>
          match m_0 mt with
          | [] => copy
          | _ :: _ => rev piece_rev :: split_loop fl r f [] (m_end mt)
          end
      | None => copy
      end
  end.

Definition split (fl : flags) (r : regex) (s : text) : list text :=
  split_loop fl r (S (length s)) [] (start_of s).

(** [re.finditer]: the matches from left to right, without overlap; after an
    empty match the search goes on one character further. *)
Fixpoint finditer_loop (fl : flags) (r : regex) (fuel : nat) (st : mstate) : list Match :=
  match fuel with
  | O => []
  | S f =>
      let skip :=
        match rest st with
        | [] => []
        | c :: t => finditer_loop fl r f (adv c t st)
        end in
      match match_at fl r [] st with
      | Some mt =>
          match m_0 mt with
          | [] => mt :: skip
          | _ :: _ => mt :: finditer_loop fl r f (m_end mt)
          end
      | None => skip
      end
  end.

Definition finditer (fl : flags) (r : regex) (s : text) : list Match :=
  finditer_loop fl r (S (length s)) (start_of s).

(** [re.findall] for a pattern with one group: the texts of the group. *)
Definition findall (fl : flags) (r : regex) (s : text) : list text :=
  map (fun mt => group mt 1) (finditer fl r s).

End Re.

Import Re.

(** ** Python values: [None], booleans, integers, strings, lists and
    dictionaries (insertion-ordered, one entry per key) *)

Inductive value : Type :=
| VNone
| VBool (b : bool)
| VInt (z : Z)
| VStr (s : text)
| VList (l : list value)
| VDict (d : list (text * value)).

Definition dict := list (text * value).

Fixpoint dict_get (k : text) (d : dict) : option value :=
  match d with
  | [] => None
  | (k', v) :: r => if Str.eqb k' k then Some v else dict_get k r
  end.

(** [d[k] = v]: an existing key keeps its place, a new key goes last. *)
Fixpoint dict_set (k : text) (v : value) (d : dict) : dict :=
  match d with
  | [] => [(k, v)]
  | (k', v') :: r => if Str.eqb k' k then (k', v) :: r else (k', v') :: dict_set k v r
  end.

(** An [Optional[str]] as a value. *)
Definition of_opt (o : option text) : value :=
  match o with
  | Some s => VStr s
  | None => VNone
  end.

(** ** src/parsers/form_parser.py *)

Module FormParser.

(** Line 61. *)
Definition page_pattern : regex :=
  Seq [Lit (lit "--- Page "); Plus Digit; Lit (lit " ---")].

Definition not_blank (p : text) : bool :=
  match strip p with
  | [] => false
  | _ :: _ => true
  end.

Definition _split_pages (t : text) : list text :=
  let pages := Re.split no_flags page_pattern t in
  let pages :=
    match pages with
    | p0 :: r => if not_blank p0 then pages else r
    | [] => pages
    end in
  map strip (filter not_blank pages).

(** Line 73.  [now] is the reading of [datetime.now().isoformat()]. *)
Definition docusign_pattern : regex :=
  Seq [Lit (lit "DocuSign Envelope ID");
       Star (In_ false ((58, 58)%N :: r_space));
       Grp 1 (Plus (In_ false [(65, 90); (48, 57); (45, 45)]%N))].

Definition page_of_pattern : regex :=
  Seq [Lit (lit "Page "); Plus Digit; Lit (lit " of "); Grp 1 (Plus Digit)].

Definition _extract_document_metadata (now t : text) : dict :=
  let metadata :=
    [(lit "file_name", VStr (lit "unknown"));
     (lit "document_type", VStr (lit "WorldTrips Claimant Statement and Authorization"));
     (lit "extracted_at", VStr now)] in
  let metadata :=
    match search flag_I docusign_pattern t with
    | Some mt => dict_set (lit "docu_sign_envelope_id") (VStr (strip (group mt 1))) metadata
    | None => metadata
    end in
  match search no_flags page_of_pattern t with
  | Some mt =>
      dict_set (lit "total_pages_from_document") (VInt (Z.of_N (int_of (group mt 1)))) metadata
  | None => metadata
  end.

(** The section names (line 128); 8212 is the em dash. *)
Definition PART_A : text := lit "PART A: CLAIMANT INFORMATION".
Definition PART_A_B : text :=
  lit "PART A (Continued) + PART B: TRAVEL ASSISTANCE AND OTHER CLAIMS".
Definition PART_C : text := lit "PART C: MEDICAL INFORMATION".
Definition PART_D : text := lit "PART D: MEDICAL RECORD AUTHORIZATION".
Definition SUPPLEMENT_A : text :=
  lit "SUPPLEMENT A " ++ [8212%N] ++ lit " NON-U.S. CLAIM ITEMIZATION FORM".
Definition SUPPLEMENT_B : text :=
  lit "SUPPLEMENT B " ++ [8212%N] ++ lit " ILLNESS OR INJURY".
Definition SUPPLEMENT_C_3P : text :=
  lit "SUPPLEMENT C (Continued) + THIRD PARTY PAYMENT FORM".
Definition SUPPLEMENT_C : text :=
  lit "SUPPLEMENT C " ++ [8212%N] ++ lit " PAYMENT AUTHORIZATION AGREEMENT FORM".
Definition SUPPLEMENT_D : text :=
  lit "SUPPLEMENT D " ++ [8212%N] ++ lit " AUTHORIZATION FORM (PHI Disclosure)".
Definition UNKNOWN_SECTION : text := lit "UNKNOWN SECTION".

Definition _identify_section (t : text) (page_num : Z) : text :=
  if (contains (lit "PART A: CLAIMANT INFORMATION") t && Z.eqb page_num 1)%bool then PART_A
  else if (contains (lit "PART A: CLAIMANT INFORMATION") t && Z.eqb page_num 2)%bool then PART_A_B
  else if contains (lit "PART C: MEDICAL INFORMATION") t then PART_C
  else if contains (lit "PART D: MEDICAL RECORD AUTHORIZATION") t then PART_D
  else if contains (lit "SUPPLEMENT A") t then SUPPLEMENT_A
  else if contains (lit "SUPPLEMENT B") t then SUPPLEMENT_B
  else if contains (lit "SUPPLEMENT C") t then
    if contains (lit "THIRD PARTY") t then SUPPLEMENT_C_3P else SUPPLEMENT_C
  else if contains (lit "SUPPLEMENT D") t then SUPPLEMENT_D
  else UNKNOWN_SECTION.

(** [not value] for an [Optional[str]]. *)
Definition falsy (o : option text) : bool :=
  match o with
  | None | Some [] => true
  | Some (_ :: _) => false
  end.

(** The first definition of [_clean_value] in the class body (line 151).
    The class body binds the same name again at line 1064, so this one is
    never the method that is called. *)
Definition _clean_value_151 (value : option text) : option text :=
  match value with
  | None | Some [] => None
  | Some v =>
      let cleaned := replace (lit ".") [] (replace (lit "_") [] (strip v)) in
      if existsb (Str.eqb (lower cleaned)) [lit "none"; lit "n/a"; lit "unspecified"]
      then None
      else Some cleaned
  end.

(** Line 161. *)
Definition date_pattern (year_digits : nat) : regex :=
  Seq [Bol; Grp 1 (Rep true 1 (Some 2) Digit); Chr 47;
       Grp 2 (Rep true 1 (Some 2) Digit); Chr 47;
       Grp 3 (Rep true year_digits (Some year_digits) Digit); Eol].

Definition _normalize_date (date_str : option text) : option text :=
  match date_str with
  | None | Some [] => None
  | Some s =>
      match re_match no_flags (date_pattern 4) (strip s) with
      | Some mt =>
          Some (fmt02 (int_of (group mt 1)) ++ lit "/" ++ fmt02 (int_of (group mt 2))
                ++ lit "/" ++ group mt 3)
      | None =>
          match re_match no_flags (date_pattern 2) (strip s) with
          | Some mt =>
              Some (fmt02 (int_of (group mt 1)) ++ lit "/" ++ fmt02 (int_of (group mt 2))
                    ++ lit "/20" ++ group mt 3)
          | None => Some (strip s)
          end
      end
  end.

(** Line 179. *)
Definition _validate_zip (zip_code : option text) : option text :=
  match zip_code with
  | None | Some [] => None
  | Some z =>
      if (contains (lit "48333") z || contains (lit "2005") z)%bool then None
      else Some z
  end.

(** Line 1012; the flags are [re.IGNORECASE | re.MULTILINE]. *)
Definition _extract_field (t : text) (pattern : regex) : option text :=
  match search flag_IM pattern t with
  | Some mt => Some (strip (group mt 1))
  | None => None
  end.

(** Line 1050; 10003 is the check mark. *)
Definition _is_checked (t : text) (pattern : regex) : bool :=
  match search flag_I (Cat pattern (Seq [Star Space; In_ false [(88, 88); (120, 120); (10003, 10003)]%N])) t with
  | Some _ => true
  | None => false
  end.

(** The definition of [_clean_value] in force (line 1064). *)
Definition _clean_value (value : option text) : option text :=
  match value with
  | None => None
  | Some v =>
      let v := strip v in
      let v := Re.sub no_flags (Plus Space) [RLit (lit " ")] v in
      match v with
      | [] => None
      | _ :: _ => Some v
      end
  end.

(** Line 189. *)
Definition _validate_phone (phone : option text) : option text :=
  match phone with
  | None | Some [] => None
  | Some p =>
      if Nat.ltb (length (Re.sub no_flags (In_ true r_digit) [] p)) 7 then None
      else Some p
  end.

(** Lines 245 to 249 of [_parse_part_a], repeated at lines 540 to 544 of
    [_parse_part_a_continued]: the postal code is the first five-digit
    candidate that passes the ZIP check. *)
Definition zip_candidate_pattern : regex :=
  Seq [Wordb; Grp 1 (Rep true 5 (Some 5) Digit); Wordb].

Definition first_valid_zip (t : text) : option text :=
  find (fun z => negb (falsy (_validate_zip (Some z))))
    (findall no_flags zip_candidate_pattern t).

(** Line 326. *)
Definition dob_shape : regex :=
  Seq [Rep true 2 (Some 2) Digit; Chr 47; Rep true 2 (Some 2) Digit; Chr 47;
       Rep true 4 (Some 4) Digit].

Definition dob_label_pattern : regex :=
  Seq [Lit (lit "3A"); Chr 46; Star Space; Lit (lit "Date of Birth");
       Star (In_ false ((58, 58)%N :: r_space)); Grp 1 dob_shape].

Definition _extract_dob_value (t : text) : option text :=
  match findall no_flags (Grp 1 dob_shape) t with
  | (_ :: _) as matches => Some (last matches [])
  | [] =>
      match search no_flags dob_label_pattern t with
      | Some mt => Some (group mt 1)
      | None => None
      end
  end.

(** Line 366. *)
Definition state_pattern : regex :=
  Seq [Lit (lit "6A"); Chr 46; Star Space; Lit (lit "State");
       Star (In_ false ((58, 58)%N :: r_space));
       Grp 1 (Rep true 2 (Some 2) (In_ false r_upper))].

Definition _extract_state_value (t : text) : option text :=
  match search no_flags state_pattern t with
  | Some mt => Some (group mt 1)
  | None => None
  end.

(** Line 374. *)
Definition postal_pattern : regex :=
  Seq [Lit (lit "7A"); Rep true 0 (Some 1) (In_ false [(58, 58); (46, 46)]%N);
       Star Space; Lit (lit "Postal Code");
       Star (In_ false ((58, 58)%N :: r_space));
       Grp 1 (Rep true 5 (Some 5) Digit)].

Definition _extract_postal_value (t : text) : option text :=
  match search no_flags postal_pattern t with
  | Some mt => Some (group mt 1)
  | None => None
  end.

(** Python truth value. *)
Definition truthy (v : value) : bool :=
  match v with
  | VNone => false
  | VBool b => b
  | VInt z => negb (Z.eqb z 0)
  | VStr s => match s with [] => false | _ :: _ => true end
  | VList l => match l with [] => false | _ :: _ => true end
  | VDict d => match d with [] => false | _ :: _ => true end
  end.

(** [not d.get(k)]. *)
Definition missing (k : text) (d : dict) : bool :=
  match dict_get k d with
  | Some v => negb (truthy v)
  | None => true
  end.

(** Line 553. *)
Definition incident_pattern : regex :=
  Seq [Lit (lit "incident"); Star (In_ false ((58, 58)%N :: r_space));
       Grp 1 (Plus (In_ true [(10, 10)]%N))].

Definition _parse_part_b (t : text) : dict :=
  let checked (label : text) := (contains label t && _is_checked t (Lit label))%bool in
  let part_b :=
    [(lit "1b_applying_for",
      VDict
        [(lit "travel_delay", VBool (checked (lit "Travel Delay")));
         (lit "lost_checked_luggage", VBool (checked (lit "Lost Checked Luggage")));
         (lit "trip_interruption", VBool (checked (lit "Trip Interruption")));
         (lit "emergency_quarantine_indemnity_benefit_covid_19",
          VBool (checked (lit "Covid-19")));
         (lit "other", VBool (contains (lit "Other") t))])] in
  let details := _extract_field t incident_pattern in
  let details :=
    match details with
    | Some ((_ :: _) as d) => if contains (lit "DocuSign") d then None else details
    | _ => details
    end in
  let details := if falsy details then Some (lit "N/A") else details in
  dict_set (lit "2b_incident_details") (of_opt details) part_b.

(** Line 648. *)
Definition sig_date_pattern : regex :=
  Grp 1 (Seq [Rep true 1 (Some 2) Digit; Chr 47; Rep true 1 (Some 2) Digit; Chr 47;
              Rep true 4 (Some 4) Digit]).

(** [[A-Z][a-z]+\s+[A-Z][a-z]+] *)
Definition two_names : regex :=
  Seq [In_ false r_upper; Plus (In_ false r_lower); Plus Space;
       In_ false r_upper; Plus (In_ false r_lower)].

Definition year_name_pattern : regex :=
  Seq [Grp 1 (Rep true 4 (Some 4) Digit); Grp 2 two_names].

Definition print_name_pattern : regex :=
  Seq [Lit (lit "Print Name"); Rep false 0 None Dot; Chr 10; Grp 1 two_names].

Definition _parse_part_d (t : text) : dict :=
  let signatures : dict := [] in
  let signatures :=
    match search no_flags sig_date_pattern t with
    | Some mt =>
        let norm_date := of_opt (_normalize_date (Some (group mt 1))) in
        dict_set (lit "insured_signature_date_mm_dd_yy") norm_date
          (dict_set (lit "claimant_signature_date_mm_dd_yy") norm_date signatures)
    | None =>
        dict_set (lit "insured_signature_date_mm_dd_yy") VNone
          (dict_set (lit "claimant_signature_date_mm_dd_yy") VNone signatures)
    end in
  let by_year (signatures : dict) : dict :=
    match search no_flags year_name_pattern t with
    | Some mt =>
        let name := group mt 2 in
        if (negb (contains (lit "Domestic") name) && negb (contains (lit "Farmington") name))%bool
        then dict_set (lit "printed_name") (VStr name) signatures
        else signatures
    | None => signatures
    end in
  let signatures := by_year (by_year signatures) in
  let signatures :=
    if missing (lit "printed_name") signatures then
      match search no_flags print_name_pattern t with
      | Some mt =>
          let name := group mt 1 in
          if negb (contains (lit "Domestic") name)
          then dict_set (lit "printed_name") (VStr name) signatures
          else signatures
      | None => signatures
      end
    else signatures in
  if missing (lit "printed_name") signatures
  then dict_set (lit "printed_name") (VStr []) signatures
  else signatures.

(** Line 832: the lines of the page are counted and nothing is extracted. *)
Definition _parse_supplement_b (t : text) : dict :=
  [(lit "supplement_b_items", VList [])].

(** Line 956: the signature that is searched for is not part of the result. *)
Definition _parse_third_party (t : text) : dict :=
  let third_party : list (text * option text) :=
    [(lit "name", None); (lit "address", None); (lit "city", None);
     (lit "state", None); (lit "postal_code", None); (lit "country", None)] in
  map (fun kv => (fst kv, of_opt (_clean_value (snd kv)))) third_party.

(** The extractors of the remaining sections.  No statement below looks at
    the fields they return, and they are kept as methods of the parser
    object [self]. *)
Record parser := {
  _parse_part_a : text -> dict;
  _parse_part_a_continued : text -> dict;
  _parse_part_c : text -> dict;
  _parse_supplement_a : text -> dict;
  _parse_supplement_c : text -> dict;
  _parse_supplement_d : text -> dict }.

Section Document.

Variable self : parser.

(** Line 93. *)
Definition _parse_page (page_text : text) (page_num : Z) : dict :=
  let section := _identify_section page_text page_num in
  let page_data : dict :=
    [(lit "page", VInt page_num); (lit "section", VStr section);
     (lit "raw_text", VStr page_text)] in
  if (contains (lit "PART A") section && Z.eqb page_num 1)%bool then
    dict_set (lit "form_fields") (VDict (_parse_part_a self page_text)) page_data
  else if (contains (lit "PART A") section && Z.eqb page_num 2)%bool then
    dict_set (lit "part_b") (VDict (_parse_part_b page_text))
      (dict_set (lit "form_fields") (VDict (_parse_part_a_continued self page_text)) page_data)
  else if contains (lit "PART C") section then
    dict_set (lit "form_fields") (VDict (_parse_part_c self page_text)) page_data
  else if contains (lit "PART D") section then
    dict_set (lit "signatures") (VDict (_parse_part_d page_text)) page_data
  else if contains (lit "SUPPLEMENT A") section then
    dict_set (lit "tables") (VDict (_parse_supplement_a self page_text)) page_data
  else if contains (lit "SUPPLEMENT B") section then
    dict_set (lit "tables") (VDict (_parse_supplement_b page_text)) page_data
  else if contains (lit "SUPPLEMENT C") section then
    let page_data :=
      dict_set (lit "form_fields") (VDict (_parse_supplement_c self page_text)) page_data in
    if contains (lit "THIRD PARTY") page_text
    then dict_set (lit "third_party_payment_form") (VDict (_parse_third_party page_text)) page_data
    else page_data
  else if contains (lit "SUPPLEMENT D") section then
    dict_set (lit "form_fields") (VDict (_parse_supplement_d self page_text)) page_data
  else page_data.

(** [enumerate(pages, i)]. *)
Fixpoint enumerate (i : Z) (pages : list text) : list (Z * text) :=
  match pages with
  | [] => []
  | p :: r => (i, p) :: enumerate (i + 1) r
  end.

(** [num_pages or n]. *)
Definition num_pages_or (num_pages : option Z) (n : Z) : Z :=
  match num_pages with
  | Some z => if Z.eqb z 0 then n else z
  | None => n
  end.

(** Line 22.  The value stored under ['document'] is the metadata dictionary
    (line 38) after the assignment of line 53. *)
Definition document_entry (now full_text : text) (num_pages : option Z) : dict :=
  let pages := _split_pages full_text in
  let document_metadata := _extract_document_metadata now full_text in
  dict_set (lit "total_pages") (VInt (num_pages_or num_pages (Z.of_nat (length pages))))
    document_metadata.

Definition parse_document (now full_text : text) (num_pages : option Z) : dict :=
  let pages := _split_pages full_text in
  let pages_data := map (fun ip => VDict (_parse_page (snd ip) (fst ip))) (enumerate 1 pages) in
  [(lit "document", VDict (document_entry now full_text num_pages));
   (lit "pages", VList pages_data)].

End Document.

End FormParser.

(** ** src/ocr/postprocessor.py *)

Module TextPostprocessor.

(** The two switches of [config/settings.py] that [process] reads
    ([POSTPROCESSING] also holds [min_confidence], which it does not read; a
    switch that a configuration leaves out counts as set). *)
Record config := { remove_extra_whitespace : bool; fix_common_ocr_errors : bool }.

Definition POSTPROCESSING : config :=
  {| remove_extra_whitespace := true; fix_common_ocr_errors := true |}.

(** Line 25, in the order of the dictionary. *)
Definition error_corrections : list (regex * text) :=
  [(Seq [Wordb; Chr 48; Wordb], lit "O");
   (Seq [Wordb; Chr 108; Wordb], lit "I");
   (Lit (lit "rn"), lit "m");
   (Chr 124, lit "I");
   (Chr 126, lit "-")].

(** Line 64. *)
Definition _remove_extra_whitespace (t : text) : text :=
  let t := Re.sub no_flags (Plus (Chr 32)) [RLit (lit " ")] t in
  let t := Re.sub no_flags (Rep true 3 None (Chr 10)) [RLit [10; 10]%N] t in
  let lines := map strip (split_on 10%N t) in
  let t := join [10%N] lines in
  strip t.

(** Line 78. *)
Definition _fix_common_errors (t : text) : text :=
  fold_left (fun t pr => Re.sub no_flags (fst pr) [RLit (snd pr)] t) error_corrections t.

(** Line 85.  The four calls of [replace] are written in the file with ASCII
    quotes.  The first two replace the double quote by itself.  In the next
    statement the three apostrophes open a string that the next three
    apostrophes close, so that the statement is one call of [replace]: its
    first argument is the text between them (a comma, a space, an apostrophe
    between double quotes, and the characters up to the opening parenthesis of
    the second [replace]), its second argument is the apostrophe. *)
Definition odd_literal : text :=
  lit ", " ++ [34; 39; 34]%N ++ lit ").replace(".

Definition _clean_special_characters (t : text) : text :=
  let t := Re.sub no_flags (In_ false [(8203, 8205); (65279, 65279)]%N) [] t in
  let t := replace [34%N] [34%N] (replace [34%N] [34%N] t) in
  let t := replace odd_literal [39%N] t in
  Re.sub no_flags
    (Seq [Plus Space; Grp 1 (In_ false [(46, 46); (44, 44); (59, 59); (58, 58); (33, 33); (63, 63)]%N)])
    [RGroup 1] t.

(** Line 33. *)
Definition process (cfg : config) (t : text) : text :=
  match t with
  | [] => t
  | _ :: _ =>
      let t := if remove_extra_whitespace cfg then _remove_extra_whitespace t else t in
      let t := if fix_common_ocr_errors cfg then _fix_common_errors t else t in
      _clean_special_characters t
  end.

(** One detection of the recognizer.  Confidences are Python floats; they
    are taken here as the rationals they stand for. *)
Record detection := { d_text : text; confidence : Q; d_page : Z }.

Inductive number := Float (q : Q) | Int (z : Z).

(** Line 166. *)
Definition calculate_confidence_score (detailed_results : list detection)
  : list (text * number) :=
  match detailed_results with
  | [] =>
      [(lit "average_confidence", Float 0); (lit "min_confidence", Float 0);
       (lit "max_confidence", Float 0); (lit "total_detections", Int 0)]
  | d :: r =>
      let confidences := map confidence detailed_results in
      [(lit "average_confidence",
        Float (fold_left Qplus confidences 0 / inject_Z (Z.of_nat (length confidences)))%Q);
       (lit "min_confidence", Float (fold_left Qmin (map confidence r) (confidence d)));
       (lit "max_confidence", Float (fold_left Qmax (map confidence r) (confidence d)));
       (lit "total_detections", Int (Z.of_nat (length detailed_results)));
       (lit "low_confidence_count",
        Int (Z.of_nat (length (filter (fun c => negb (Qle_bool (7 # 10) c)) confidences))))]
  end.

End TextPostprocessor.

(** ** measure_accuracy.py *)

Module MeasureAccuracy.

(** The leaves that [flatten_json] stores: every value that is neither a
    dictionary nor a list.  (Floats do not occur in the documents the parser
    writes and are not part of [value].) *)
Inductive leaf := LNone | LBool (b : bool) | LInt (z : Z) | LStr (s : text).

Definition flat := list (text * leaf).

Fixpoint flat_get (k : text) (d : flat) : option leaf :=
  match d with
  | [] => None
  | (k', v) :: r => if Str.eqb k' k then Some v else flat_get k r
  end.

Fixpoint flat_set (k : text) (v : leaf) (d : flat) : flat :=
  match d with
  | [] => [(k, v)]
  | (k', v') :: r => if Str.eqb k' k then (k', v) :: r else (k', v') :: flat_set k v r
  end.

(** [str(z)]. *)
Definition str_of_Z (z : Z) : text :=
  match z with
  | Zneg p => 45%N :: str_of_N (Npos p)
  | _ => str_of_N (Z.to_N z)
  end.

(** Line 10. *)
Definition normalize_text (v : leaf) : text :=
  match v with
  | LNone => []
  | LBool b => lower (if b then lit "True" else lit "False")
  | LInt z => replace [10%N] (lit " ") (strip (lower (str_of_Z z)))
  | LStr s => replace [10%N] (lit " ") (strip (lower s))
  end.

(** The floats of a report.  [calculate_cer] returns 0.0, 1.0 or one minus
    the similarity ratio that [difflib.SequenceMatcher] gives for the two
    normalized texts; the sums start from the integer 0.  The values are kept
    as the expressions that compute them. *)
Inductive pyfloat :=
| Zero
| Cer0
| Cer1
| CerDistance (ref hyp : text)
| Add (a b : pyfloat).

(** Line 18. *)
Definition calculate_cer (reference hypothesis : leaf) : pyfloat :=
  let ref := normalize_text reference in
  let hyp := normalize_text hypothesis in
  match ref, hyp with
  | [], [] => Cer0
  | [], _ :: _ => Cer1
  | _ :: _, _ => CerDistance ref hyp
  end.

(** [name[:-1]] *)
Definition drop_last (name : text) : text := removelast name.

(** Line 33: the inner [flatten], with [out] passed along. *)
Fixpoint flatten (x : value) (name : text) (out : flat) : flat :=
  match x with
  | VDict d =>
      (fix items (d : list (text * value)) (out : flat) : flat :=
         match d with
         | [] => out
         | (a, v) :: r => items r (flatten v (name ++ a ++ lit "_") out)
         end) d out
  | VList l =>
      (fix elems (l : list value) (i : N) (out : flat) : flat :=
         match l with
         | [] => out
         | a :: r => elems r (i + 1)%N (flatten a (name ++ str_of_N i ++ lit "_") out)
         end) l 0%N out
  | VNone => flat_set (drop_last name) LNone out
  | VBool b => flat_set (drop_last name) (LBool b) out
  | VInt z => flat_set (drop_last name) (LInt z) out
  | VStr s => flat_set (drop_last name) (LStr s) out
  end.

Definition flatten_json (y : dict) : flat := flatten (VDict y) [] [].

(** [==] on leaves; a boolean equals the integer it stands for. *)
Definition leaf_eq (a b : leaf) : bool :=
  match a, b with
  | LNone, LNone => true
  | LBool x, LBool y => Bool.eqb x y
  | LBool x, LInt y | LInt y, LBool x => Z.eqb (if x then 1 else 0) y
  | LInt x, LInt y => Z.eqb x y
  | LStr x, LStr y => Str.eqb x y
  | _, _ => false
  end.

(** The counters of a report. *)
Record metrics := {
  total_fields : nat;
  exact_matches : nat;
  norm_matches : nat;
  cer_sum : pyfloat }.

Definition zero_metrics : metrics :=
  {| total_fields := 0; exact_matches := 0; norm_matches := 0; cer_sum := Zero |}.

(** [page.get(key, {})] as the operand of [**]: anything but a dictionary
    raises [TypeError]. *)
Definition get_map (key : text) (page : dict) : option dict :=
  match dict_get key page with
  | None => Some []
  | Some (VDict d) => Some d
  | Some _ => None
  end.

(** [{**a, **b}] *)
Definition update (a b : dict) : dict :=
  fold_left (fun acc kv => dict_set (fst kv) (snd kv) acc) b a.

Fixpoint merge_maps (keys : list text) (page : dict) (acc : dict) : option dict :=
  match keys with
  | [] => Some acc
  | k :: r =>
      match get_map k page with
      | Some d => merge_maps r page (update acc d)
      | None => None
      end
  end.

(** The maps merged at lines 60 and 61. *)
Definition evaluated_maps : list text :=
  [lit "form_fields"; lit "signatures"; lit "part_b"; lit "third_party_payment_form"].

(** The maps merged at lines 157 and 158. *)
Definition listed_maps : list text :=
  [lit "form_fields"; lit "signatures"; lit "part_b"; lit "tables";
   lit "third_party_payment_form"].

Definition or_none (o : option leaf) : leaf :=
  match o with
  | Some v => v
  | None => LNone
  end.

(** The body of the loop at line 67. *)
Definition evaluate_field (pred_flat : flat) (mt : metrics) (item : text * leaf) : metrics :=
  let (key, truth_val) := item in
  match truth_val with
  | LNone => mt
  | _ =>
      let pred_val := or_none (flat_get key pred_flat) in
      let norm_ref := normalize_text truth_val in
      let norm_hyp := normalize_text pred_val in
      {| total_fields := total_fields mt + 1;
         exact_matches :=
           if leaf_eq pred_val truth_val then exact_matches mt + 1 else exact_matches mt;
         norm_matches :=
           if Str.eqb norm_ref norm_hyp then norm_matches mt + 1 else norm_matches mt;
         cer_sum := Add (cer_sum mt) (calculate_cer truth_val pred_val) |}
  end.

(** Line 50.  [None] stands for the [TypeError] of a section entry that is
    not a dictionary. *)
Definition evaluate_page (page_num : value) (pred_page truth_page : dict) : option metrics :=
  match merge_maps evaluated_maps pred_page [], merge_maps evaluated_maps truth_page [] with
  | Some pred_data, Some truth_data =>
      let pred_flat := flatten_json pred_data in
      let truth_flat := flatten_json truth_data in
      Some (fold_left (evaluate_field pred_flat) truth_flat zero_metrics)
  | _, _ => None
  end.

(** [==] on values; a boolean equals the integer it stands for, and
    dictionaries are compared without regard to order. *)
Fixpoint py_eq (a b : value) {struct a} : bool :=
  match a, b with
  | VNone, VNone => true
  | VBool x, VBool y => Bool.eqb x y
  | VBool x, VInt y | VInt y, VBool x => Z.eqb (if x then 1 else 0) y
  | VInt x, VInt y => Z.eqb x y
  | VStr x, VStr y => Str.eqb x y
  | VList l, VList l' =>
      (fix all2 (l l' : list value) : bool :=
         match l, l' with
         | [], [] => true
         | x :: r, y :: r' => (py_eq x y && all2 r r')%bool
         | _, _ => false
         end) l l'
  | VDict d, VDict d' =>
      (Nat.eqb (length d) (length d') &&
       (fix all (d : list (text * value)) : bool :=
          match d with
          | [] => true
          | (k, v) :: r =>
              (match dict_get k d' with
               | Some v' => py_eq v v'
               | None => false
               end && all r)%bool
          end) d)%bool
  | _, _ => false
  end.

(** [next((p for p in pages if p['page'] == page_num), {})]; the outer
    [None] is the [KeyError] of a page without a number. *)
Fixpoint find_page (page_num : value) (pages : list dict) : option dict :=
  match pages with
  | [] => Some []
  | p :: r =>
      match dict_get (lit "page") p with
      | Some n => if py_eq n page_num then Some p else find_page page_num r
      | None => None
      end
  end.

Definition add_metrics (total mt : metrics) : metrics :=
  {| total_fields := total_fields total + total_fields mt;
     exact_matches := exact_matches total + exact_matches mt;
     norm_matches := norm_matches total + norm_matches mt;
     cer_sum := Add (cer_sum total) (cer_sum mt) |}.

(** The first loop of [main] (line 123): the report of every ground-truth
    page and the grand total. *)
Fixpoint evaluate_pages (pred_pages truth_pages : list dict) (total : metrics)
  : option (list (value * metrics) * metrics) :=
  match truth_pages with
  | [] => Some ([], total)
  | truth_page :: r =>
      match dict_get (lit "page") truth_page with
      | None => None
      | Some page_num =>
          match find_page page_num pred_pages with
          | None => None
          | Some pred_page =>
              match evaluate_page page_num pred_page truth_page with
              | None => None
              | Some mt =>
                  match evaluate_pages pred_pages r (add_metrics total mt) with
                  | None => None
                  | Some (rows, total') => Some ((page_num, mt) :: rows, total')
                  end
              end
          end
      end
  end.

(** The second loop of [main] (line 153) for one page: the leaves whose
    normalized values differ, as (key, expected, got). *)
Definition mismatches (pred_page truth_page : dict) : option (list (text * leaf * leaf)) :=
  match merge_maps listed_maps pred_page [], merge_maps listed_maps truth_page [] with
  | Some pred_data, Some truth_data =>
      let pred_flat := flatten_json pred_data in
      let truth_flat := flatten_json truth_data in
      Some
        (flat_map
           (fun item : text * leaf =>
              let (key, truth_val) := item in
              match truth_val with
              | LNone => []
              | _ =>
                  let pred_val := or_none (flat_get key pred_flat) in
                  if Str.eqb (normalize_text truth_val) (normalize_text pred_val)
                  then []
                  else [(key, truth_val, pred_val)]
              end)
           truth_flat)
  | _, _ => None
  end.

End MeasureAccuracy.


(** ** main.py *)

Module Main.

(** Line 121: the page count that [process_document] passes to the parser. *)
Definition num_pages (image_paths : list text) : Z :=
  match image_paths with
  | [] => 1
  | _ :: _ => Z.of_nat (length image_paths)
  end.

End Main.

Import FormParser.
Import TextPostprocessor.
Import MeasureAccuracy.

(** ** Vocabulary of the statements *)

(** [needle] occurs somewhere inside [hay]. *)
Definition occurs (needle hay : text) : Prop :=
  exists a b, hay = a ++ needle ++ b.

Definition blank (s : text) : Prop := Forall (fun c => isspace c = true) s.

Definition digits (s : text) : Prop := Forall (fun c => isdigit c = true) s.

(** The closed enumeration of sections. *)
Definition all_sections : list text :=
  [PART_A; PART_A_B; PART_C; PART_D; SUPPLEMENT_A; SUPPLEMENT_B;
   SUPPLEMENT_C_3P; SUPPLEMENT_C; SUPPLEMENT_D; UNKNOWN_SECTION].

(** The marker phrases. *)
Definition markers : list text :=
  [lit "PART A: CLAIMANT INFORMATION"; lit "PART C: MEDICAL INFORMATION";
   lit "PART D: MEDICAL RECORD AUTHORIZATION"; lit "SUPPLEMENT A";
   lit "SUPPLEMENT B"; lit "SUPPLEMENT C"; lit "SUPPLEMENT D"].

(** The classifier as an ordered table of predicates: the first predicate
    that holds decides, and the unknown section is the default. *)
Definition section_rules : list ((text -> Z -> bool) * text) :=
  [(fun t p => (contains (lit "PART A: CLAIMANT INFORMATION") t && Z.eqb p 1)%bool, PART_A);
   (fun t p => (contains (lit "PART A: CLAIMANT INFORMATION") t && Z.eqb p 2)%bool, PART_A_B);
   (fun t _ => contains (lit "PART C: MEDICAL INFORMATION") t, PART_C);
   (fun t _ => contains (lit "PART D: MEDICAL RECORD AUTHORIZATION") t, PART_D);
   (fun t _ => contains (lit "SUPPLEMENT A") t, SUPPLEMENT_A);
   (fun t _ => contains (lit "SUPPLEMENT B") t, SUPPLEMENT_B);
   (fun t _ => (contains (lit "SUPPLEMENT C") t && contains (lit "THIRD PARTY") t)%bool,
    SUPPLEMENT_C_3P);
   (fun t _ => contains (lit "SUPPLEMENT C") t, SUPPLEMENT_C);
   (fun t _ => contains (lit "SUPPLEMENT D") t, SUPPLEMENT_D)].

Fixpoint first_match (rules : list ((text -> Z -> bool) * text)) (t : text) (p : Z) : text :=
  match rules with
  | [] => UNKNOWN_SECTION
  | (holds, section) :: r => if holds t p then section else first_match r t p
  end.

(** A date written as one or two digits, a slash, one or two digits, a
    slash and [n] digits. *)
Definition date_shape (n : nat) (s : text) : Prop :=
  exists mm dd yy,
    s = mm ++ lit "/" ++ dd ++ lit "/" ++ yy /\
    digits mm /\ digits dd /\ digits yy /\
    1 <= length mm <= 2 /\ 1 <= length dd <= 2 /\ length yy = n.

(** A character that [str.lower] leaves as it is wherever it stands. *)
Definition lower_fixed (c : char) : bool :=
  (negb (N.eqb c 931) &&
   match lower_char c with
   | [d] => N.eqb d c
   | _ => false
   end)%bool.

(** A text made of Western digits (0 to 9 of ASCII). *)
Definition in_western (s : text) : Prop := Forall (fun c => (48 <= c <= 57)%N) s.

(** A date of birth written in Arabic-Indic digits. *)
Definition arabic_indic_date : text :=
  [1632; 1636; 47; 1633; 1639; 47; 1633; 1641; 1640; 1640]%N.

(** The digits of [s] written as Western digits (0 to 9 of ASCII). *)
Definition western (s : text) : text := map (fun c => (48 + digit_value c)%N) s.

(** No range of [a] meets a range of [b]. *)
Definition ranges_disjoint (a b : list (char * char)) : bool :=
  forallb
    (fun r => forallb (fun r' => (N.ltb (snd r) (fst r') || N.ltb (snd r') (fst r))%bool) b)
    a.

(** A one-digit number with a zero before it; two digits stay. *)
Definition pad2 (s : text) : text :=
  match s with
  | [a] => [48%N; a]
  | _ => s
  end.


(** A ground-truth page and a predicted page whose only field differs in the
    width of the run of spaces between two words. *)
Definition truth_two_spaces : dict :=
  [(lit "page", VInt 1);
   (lit "form_fields", VDict [(lit "1a_claimant_full_name", VStr (lit "Ilyas  Malik"))])].

Definition pred_one_space : dict :=
  [(lit "page", VInt 1);
   (lit "form_fields", VDict [(lit "1a_claimant_full_name", VStr (lit "Ilyas Malik"))])].

(** A date with a two-digit month, a two-digit day and a four-digit year. *)
Definition padded_date (d : text) : Prop :=
  exists mm dd yy,
    d = mm ++ lit "/" ++ dd ++ lit "/" ++ yy /\
    digits mm /\ digits dd /\ digits yy /\
    length mm = 2 /\ length dd = 2 /\ length yy = 4.

Definition capitals (s : text) : Prop := Forall (fun c => in_ranges r_upper c = true) s.

(** Every run of white space replaced by one space; [in_run] tells that the
    character before was white space. *)
Fixpoint collapse_from (in_run : bool) (s : text) : text :=
  match s with
  | [] => []
  | c :: t =>
      if isspace c
      then if in_run then collapse_from true t else 32%N :: collapse_from true t
      else c :: collapse_from false t
  end.

Definition collapse (s : text) : text := collapse_from false s.

(** The text is empty or begins with a character that is not white space. *)
Definition no_space_first (s : text) : Prop :=
  match s with
  | [] => True
  | c :: _ => isspace c = false
  end.

(** A parser object whose remaining extractors find no field; it serves as
    a concrete [self] where a statement is tried on an input. *)
Definition silent_parser : parser :=
  {| _parse_part_a := fun _ => [];
     _parse_part_a_continued := fun _ => [];
     _parse_part_c := fun _ => [];
     _parse_supplement_a := fun _ => [];
     _parse_supplement_c := fun _ => [];
     _parse_supplement_d := fun _ => [] |}.

(** The entry of a page object under a key. *)
Definition page_entry (key : text) (page : value) : option value :=
  match page with
  | VDict d => dict_get key d
  | _ => None
  end.

(** A flattened ground-truth field that the evaluator scores: its value is
    not null. *)
Definition scored (item : text * leaf) : bool :=
  match snd item with
  | LNone => false
  | _ => true
  end.

(** A scored field whose predicted value is equal to the true one. *)
Definition exact_hit (pred_flat : flat) (item : text * leaf) : bool :=
  (scored item && leaf_eq (or_none (flat_get (fst item) pred_flat)) (snd item))%bool.

(** A scored field whose predicted value has the normalized text of the
    true one. *)
Definition norm_hit (pred_flat : flat) (item : text * leaf) : bool :=
  (scored item &&
   Str.eqb (normalize_text (snd item))
     (normalize_text (or_none (flat_get (fst item) pred_flat))))%bool.

(** A scored field whose normalized text is empty. *)
Definition scored_blank (item : text * leaf) : bool :=
  (scored item && match normalize_text (snd item) with [] => true | _ :: _ => false end)%bool.

(** A leaf as a value of a document. *)
Definition of_leaf (v : leaf) : value :=
  match v with
  | LNone => VNone
  | LBool b => VBool b
  | LInt z => VInt z
  | LStr s => VStr s
  end.

(** A ground-truth page and a predicted page of three form fields: one is
    predicted as it is, one in another case, one not at all. *)
Definition truth_three_fields : dict :=
  [(lit "page", VInt 1);
   (lit "form_fields",
    VDict [(lit "city", VStr (lit "Winchester")); (lit "state", VStr (lit "MA"));
           (lit "country", VStr (lit "USA")); (lit "email", VNone)])].

Definition pred_three_fields : dict :=
  [(lit "page", VInt 1);
   (lit "form_fields",
    VDict [(lit "city", VStr (lit "Winchester")); (lit "state", VStr (lit "ma"))])].

(** The entry of a confidence report under a key. *)
Fixpoint report_get (k : text) (r : list (text * number)) : option number :=
  match r with
  | [] => None
  | (k', v) :: r' => if Str.eqb k' k then Some v else report_get k r'
  end.

(** [\n] replaced by a space. *)
Definition flatten_newline (c : char) : char := if N.eqb c 10 then 32%N else c.

(** The position reached from [st] once the characters [ds] are consumed
    and [t] remains. *)
Fixpoint advance (ds t : text) (st : mstate) : mstate :=
  match ds with
  | [] => {| prev := prev st; rest := t; caps := caps st |}
  | x :: ds' => advance ds' t (adv x (ds' ++ t) st)
  end.

(** ** Strings *)

Lemma eqb_refl (a : text) : Str.eqb a a = true.
Proof.
  induction a as [|x a IH]; simpl; [reflexivity|].
  now rewrite N.eqb_refl, IH.
Qed.

Lemma eqb_eq (a b : text) : Str.eqb a b = true <-> a = b.
Proof.
  split.
  - revert b; induction a as [|x a IH]; intros [|y b] H; simpl in H;
      try discriminate; [reflexivity|].
    apply andb_true_iff in H as [H1 H2].
    apply N.eqb_eq in H1. f_equal; auto.
  - intros ->. apply eqb_refl.
Qed.

Lemma startswith_cons (x : char) (p : text) (y : char) (s : text) :
  startswith (y :: s) (x :: p) = (N.eqb x y && startswith s p)%bool.
Proof. reflexivity. Qed.

Lemma startswith_spec (s p : text) :
  startswith s p = true <-> exists t, s = p ++ t.
Proof.
  revert s; induction p as [|x p IH]; intros s.
  - split; [intros _; now exists s | now destruct s].
  - destruct s as [|y s].
    + split; [discriminate | intros [t Ht]; discriminate].
    + rewrite startswith_cons, andb_true_iff, N.eqb_eq, IH. split.
      * intros [-> [t ->]]. now exists t.
      * intros [t Ht]. injection Ht as -> ->. split; [reflexivity | now exists t].
Qed.

Lemma contains_cons (n : text) (c : char) (h : text) :
  contains n (c :: h) = (startswith (c :: h) n || contains n h)%bool.
Proof. reflexivity. Qed.

Lemma contains_spec (n h : text) : contains n h = true <-> occurs n h.
Proof.
  unfold occurs. induction h as [|c h IH].
  - change (contains n []) with (startswith [] n || false)%bool.
    rewrite orb_false_r, startswith_spec. split.
    + intros [t Ht]. exists [], t. exact Ht.
    + intros [a [b Hab]]. destruct a; [|discriminate]. now exists b.
  - rewrite contains_cons, orb_true_iff, startswith_spec, IH. split.
    + intros [[t Ht] | [a [b Hab]]].
      * exists [], t. exact Ht.
      * exists (c :: a), b. simpl. now rewrite Hab.
    + intros [[|x a] [b Hab]].
      * left. now exists b.
      * right. injection Hab as _ ->. now exists a, b.
Qed.

Lemma contains_false (n h : text) : contains n h = false <-> ~ occurs n h.
Proof.
  rewrite <- contains_spec. destruct (contains n h); split; intros H;
    try reflexivity; try discriminate; congruence.
Qed.

(** ** Quantified character classes *)

Lemma rep_loop_eq body g lo hi k fuel cnt st :
  rep_loop body g lo hi k fuel cnt st =
  let stop := if Nat.leb lo cnt then k st else None in
  if below cnt hi then
    match fuel with
    | O => stop
    | S f =>
        let more :=
          body (fun st' =>
                  if Nat.ltb (length (rest st')) (length (rest st))
                  then rep_loop body g lo hi k f (S cnt) st'
                  else None) st in
        if g
        then match more with Some r => Some r | None => stop end
        else match stop with Some r => Some r | None => more end
    end
  else stop.
Proof. destruct fuel; reflexivity. Qed.

Section CharLoop.

(** A loop whose body matches one character of a class [p]. *)
Variable body : cont -> cont.
Variable p : char -> bool.
Hypothesis body_eq :
  forall k st,
    body k st =
    match rest st with
    | x :: t => if p x then k (adv x t st) else None
    | [] => None
    end.

Variables (g : bool) (lo hi : nat) (k : cont).

(** What a successful loop has consumed. *)
Lemma char_loop_inv :
  forall fuel cnt st r,
    cnt <= hi ->
    rep_loop body g lo (Some hi) k fuel cnt st = Some r ->
    exists ds st',
      rest st = ds ++ rest st' /\ Forall (fun c => p c = true) ds /\
      lo <= cnt + length ds <= hi /\ k st' = Some r.
Proof.
  assert (Hstop : forall cnt st r, cnt <= hi ->
            (if Nat.leb lo cnt then k st else None) = Some r ->
            exists ds st',
              rest st = ds ++ rest st' /\ Forall (fun c => p c = true) ds /\
              lo <= cnt + length ds <= hi /\ k st' = Some r).
  { intros cnt st r Hc H. destruct (Nat.leb_spec lo cnt); [|discriminate].
    exists [], st. simpl. repeat split; auto; lia. }
  induction fuel as [|f IH]; intros cnt st r Hc H; rewrite rep_loop_eq in H;
    cbv zeta in H; unfold below in H.
  - destruct (Nat.ltb cnt hi); eauto.
  - destruct (Nat.ltb_spec cnt hi) as [Hlt|]; [|eauto].
    assert (Hmore : body
              (fun st' =>
                 if Nat.ltb (length (rest st')) (length (rest st))
                 then rep_loop body g lo (Some hi) k f (S cnt) st'
                 else None) st = Some r ->
            exists ds st',
              rest st = ds ++ rest st' /\ Forall (fun c => p c = true) ds /\
              lo <= cnt + length ds <= hi /\ k st' = Some r).
    { rewrite body_eq. destruct (rest st) as [|x t] eqn:Er; [discriminate|].
      destruct (p x) eqn:Ep; [|discriminate].
      cbn [adv rest length].
      destruct (Nat.ltb_spec (length t) (S (length t))); [|lia].
      intros H'. apply IH in H'; [|lia].
      destruct H' as (ds & st' & H1 & H2 & H3 & H4).
      exists (x :: ds), st'. cbn [rest adv] in H1. simpl. rewrite H1.
      repeat split; auto; lia. }
    destruct g.
    + destruct (body _ st) eqn:Eb; [injection H as ->; auto | eauto].
    + destruct (if Nat.leb lo cnt then k st else None) eqn:Es;
        [injection H as ->; eauto | auto].
Qed.

(** A greedy loop takes a maximal run of the class when the rest of the
    pattern then succeeds. *)
Lemma char_loop_greedy :
  g = true ->
  forall ds fuel cnt st t r,
    rest st = ds ++ t ->
    Forall (fun c => p c = true) ds ->
    length ds <= fuel ->
    lo <= cnt + length ds <= hi ->
    (cnt + length ds = hi \/
     match t with [] => True | c :: _ => p c = false end) ->
    k (advance ds t st) = Some r ->
    rep_loop body g lo (Some hi) k fuel cnt st = Some r.
Proof.
  intros ->. induction ds as [|x ds IH]; intros fuel cnt st t r Hr Hd Hf Hc Hmax Hk;
    rewrite rep_loop_eq; cbv zeta; unfold below.
  - simpl in Hr, Hk, Hc, Hmax.
    assert (Est : {| prev := prev st; rest := t; caps := caps st |} = st)
      by (destruct st; simpl in *; now subst).
    rewrite Est in Hk.
    destruct (Nat.leb_spec lo cnt); [|lia]. rewrite Hk.
    destruct (Nat.ltb_spec cnt hi) as [Hlt|]; [|reflexivity].
    destruct fuel; [reflexivity|].
    rewrite body_eq, Hr.
    destruct Hmax as [Hmax | Hmax]; [lia|].
    destruct t as [|c t]; [reflexivity|]. now rewrite Hmax.
  - simpl in Hf, Hc.
    destruct (Nat.ltb_spec cnt hi) as [Hlt|]; [|lia].
    destruct fuel as [|f]; [lia|].
    rewrite body_eq, Hr. simpl app.
    inversion Hd as [|? ? Hx Hd']; subst. rewrite Hx.
    cbn [adv rest length].
    replace (Nat.ltb (length (ds ++ t)) (S (length (ds ++ t)))) with true
      by (symmetry; apply Nat.ltb_lt; lia).
    rewrite (IH f (S cnt) (adv x (ds ++ t) st) t r); auto; try lia.
    simpl in Hmax. destruct Hmax as [Hmax | Hmax]; [left; lia | now right].
Qed.

End CharLoop.

Lemma m_class (rs : list (char * char)) (k : cont) (st : mstate) :
  m no_flags (In_ false rs) k st =
  match rest st with
  | x :: t => if in_ranges rs x then k (adv x t st) else None
  | [] => None
  end.
Proof. reflexivity. Qed.

Lemma m_chr (c : char) (k : cont) (st : mstate) :
  m no_flags (Chr c) k st =
  match rest st with
  | x :: t => if N.eqb c x then k (adv x t st) else None
  | [] => None
  end.
Proof. reflexivity. Qed.

Lemma rest_advance (ds t : text) (st : mstate) : rest (advance ds t st) = t.
Proof. revert st; induction ds as [|x ds IH]; intros st; simpl; auto. Qed.

Lemma caps_advance (ds t : text) (st : mstate) : caps (advance ds t st) = caps st.
Proof.
  revert st; induction ds as [|x ds IH]; intros st; simpl; auto.
  now rewrite IH.
Qed.

Lemma consumed_app (ds : text) (st st' : mstate) :
  rest st = ds ++ rest st' -> consumed st st' = ds.
Proof.
  intros H. unfold consumed. rewrite H, length_app.
  replace (length ds + length (rest st') - length (rest st')) with (length ds) by lia.
  now rewrite firstn_app, firstn_all, Nat.sub_diag, firstn_O, app_nil_r.
Qed.

Lemma grp_digits_greedy (n lo hi : nat) (k : cont) (ds t : text) (st r : mstate) :
  rest st = ds ++ t -> digits ds -> lo <= length ds <= hi ->
  (length ds = hi \/ match t with [] => True | c :: _ => isdigit c = false end) ->
  k (set_cap n ds (advance ds t st)) = Some r ->
  m no_flags (Grp n (Rep true lo (Some hi) Digit)) k st = Some r.
Proof.
  intros Hr Hd Hl Hmax Hk. cbn [m].
  apply (@char_loop_greedy (m no_flags Digit) isdigit (m_class r_digit))
    with (ds := ds) (t := t); auto.
  - rewrite Hr, length_app. lia.
  - cbv beta. rewrite (@consumed_app ds); [exact Hk | now rewrite rest_advance].
Qed.

Lemma grp_digits_inv (n lo hi : nat) (g : bool) (k : cont) (st r : mstate) :
  lo <= hi ->
  m no_flags (Grp n (Rep g lo (Some hi) Digit)) k st = Some r ->
  exists ds st',
    rest st = ds ++ rest st' /\ digits ds /\ lo <= length ds <= hi /\
    k (set_cap n ds st') = Some r.
Proof.
  intros Hle H. cbn [m] in H.
  apply (@char_loop_inv (m no_flags Digit) isdigit (m_class r_digit)) in H; [|lia].
  destruct H as (ds & st' & H1 & H2 & H3 & H4).
  exists ds, st'. rewrite (@consumed_app ds st st' H1) in H4. auto.
Qed.

Lemma chr_fwd (c : char) (k : cont) (t : text) (st r : mstate) :
  rest st = c :: t -> k (adv c t st) = Some r -> m no_flags (Chr c) k st = Some r.
Proof. intros Hr Hk. now rewrite m_chr, Hr, N.eqb_refl. Qed.

Lemma chr_inv (c : char) (k : cont) (st r : mstate) :
  m no_flags (Chr c) k st = Some r ->
  exists t, rest st = c :: t /\ k (adv c t st) = Some r.
Proof.
  rewrite m_chr. destruct (rest st) as [|x t]; [discriminate|].
  destruct (N.eqb_spec c x) as [->|]; [|discriminate].
  intros H. now exists t.
Qed.

(** ** White space *)

Lemma dropwhile_blank_app (l s : text) :
  blank l -> dropwhile isspace (l ++ s) = dropwhile isspace s.
Proof.
  induction 1 as [|c l Hc _ IH]; simpl; [reflexivity|]. now rewrite Hc.
Qed.

Lemma dropwhile_head (s : text) :
  dropwhile isspace s = [] \/
  exists c t, dropwhile isspace s = c :: t /\ isspace c = false.
Proof.
  induction s as [|c s IH]; simpl; [now left|].
  destruct (isspace c) eqn:E; [exact IH|]. right. now exists c, s.
Qed.

Lemma blank_rev (l : text) : blank l -> blank (rev l).
Proof. intros H. apply Forall_rev. exact H. Qed.

(** [strip] removes a blank margin around a text that begins and ends with
    characters that are not white space. *)
Lemma strip_padded (l r : text) (a : char) (mid : text) (b : char) :
  blank l -> blank r -> isspace a = false -> isspace b = false ->
  strip (l ++ (a :: mid ++ [b]) ++ r) = a :: mid ++ [b].
Proof.
  intros Hl Hr Ha Hb. unfold strip, lstrip, rstrip.
  rewrite dropwhile_blank_app by assumption.
  simpl. rewrite Ha.
  change (a :: (mid ++ [b]) ++ r) with ((a :: mid ++ [b]) ++ r).
  rewrite rev_app_distr, dropwhile_blank_app by now apply blank_rev.
  change (a :: mid ++ [b]) with ((a :: mid) ++ [b]).
  rewrite rev_app_distr. simpl. rewrite Hb.
  change (b :: rev mid ++ [a]) with ([b] ++ rev mid ++ [a]).
  rewrite !rev_app_distr. simpl. now rewrite rev_involutive.
Qed.

Lemma strip_last (s t : text) (c : char) : strip s = t ++ [c] -> isspace c = false.
Proof.
  unfold strip, rstrip. intros H.
  destruct (dropwhile_head (rev (lstrip s))) as [E | (x & u & E & Hx)];
    rewrite E in H; simpl in H.
  - now destruct t.
  - apply app_inj_tail in H as [_ <-]. exact Hx.
Qed.

Lemma ranges_disjoint_sound (a b : list (char * char)) (c : char) :
  ranges_disjoint a b = true -> in_ranges a c = true -> in_ranges b c = false.
Proof.
  intros D Ha. destruct (in_ranges b c) eqn:Hb; [|reflexivity]. exfalso.
  unfold in_ranges in Ha, Hb.
  apply existsb_exists in Ha as (r & Hr & Hin).
  apply existsb_exists in Hb as (r' & Hr' & Hin').
  unfold ranges_disjoint in D. rewrite forallb_forall in D. specialize (D r Hr).
  rewrite forallb_forall in D. specialize (D r' Hr').
  unfold in_range in Hin, Hin'. apply andb_true_iff in Hin, Hin'.
  rewrite !N.leb_le in Hin, Hin'. apply orb_true_iff in D. rewrite !N.ltb_lt in D. lia.
Qed.

Lemma digit_not_space (c : char) : isdigit c = true -> isspace c = false.
Proof. apply ranges_disjoint_sound. vm_compute. reflexivity. Qed.

(** ** The date patterns *)

Lemma slash_not_digit : isdigit 47%N = false.
Proof. reflexivity. Qed.

Lemma date_pattern_eq (n : nat) (k : cont) (st : mstate) :
  m no_flags (date_pattern n) k st =
  if at_bol no_flags st then
    m no_flags (Grp 1 (Rep true 1 (Some 2) Digit))
      (m no_flags (Chr 47)
         (m no_flags (Grp 2 (Rep true 1 (Some 2) Digit))
            (m no_flags (Chr 47)
               (m no_flags (Grp 3 (Rep true n (Some n) Digit))
                  (fun st' => if at_eol no_flags st' then k st' else None))))) st
  else None.
Proof. reflexivity. Qed.

(** A text of the date shape is matched, and the groups are its parts. *)
Lemma date_match_sound (n : nat) (mm dd yy : text) :
  digits mm -> digits dd -> digits yy ->
  1 <= length mm <= 2 -> 1 <= length dd <= 2 -> length yy = n ->
  exists mt,
    re_match no_flags (date_pattern n) (mm ++ lit "/" ++ dd ++ lit "/" ++ yy) = Some mt /\
    group mt 1 = mm /\ group mt 2 = dd /\ group mt 3 = yy.
Proof.
  intros Hm Hd Hy Lm Ld Ly.
  enough (exists st',
             m no_flags (date_pattern n) Some
               (start_of (mm ++ lit "/" ++ dd ++ lit "/" ++ yy)) = Some st' /\
             caps st' = [(3, yy); (2, dd); (1, mm)]) as (st' & E & Ec).
  { unfold re_match, match_at. cbn [prev rest start_of].
    change {| prev := None; rest := mm ++ lit "/" ++ dd ++ lit "/" ++ yy; caps := [] |}
      with (start_of (mm ++ lit "/" ++ dd ++ lit "/" ++ yy)).
    rewrite E. eexists. split; [reflexivity|].
    unfold group. cbn [m_groups]. rewrite Ec. now cbn. }
  eexists. split.
  - rewrite date_pattern_eq. cbn [at_bol start_of prev].
    eapply grp_digits_greedy with (ds := mm);
      [reflexivity | assumption | assumption | right; reflexivity |].
    eapply chr_fwd; [cbn [rest set_cap]; rewrite rest_advance; reflexivity|].
    eapply grp_digits_greedy with (ds := dd);
      [reflexivity | assumption | assumption | right; reflexivity |].
    eapply chr_fwd; [cbn [rest set_cap]; rewrite rest_advance; reflexivity|].
    eapply grp_digits_greedy with (ds := yy) (t := []);
      [cbn [rest adv]; now rewrite app_nil_r | assumption | lia | now right |].
    unfold at_eol. cbn [rest set_cap]. rewrite rest_advance. reflexivity.
  - cbn [caps set_cap adv]. rewrite !caps_advance.
    cbn [caps set_cap adv]. rewrite !caps_advance.
    cbn [caps set_cap adv]. rewrite !caps_advance. now cbn.
Qed.

(** A match of the date pattern spans a text of the date shape, followed by
    nothing or by one final newline. *)
Lemma date_match_complete (n : nat) (s : text) (mt : Match) :
  re_match no_flags (date_pattern n) s = Some mt ->
  exists core tail, s = core ++ tail /\ (tail = [] \/ tail = [10%N]) /\ date_shape n core.
Proof.
  unfold re_match, match_at. cbn [prev rest start_of].
  destruct (m no_flags (date_pattern n) Some _) as [st'|] eqn:E; [|discriminate].
  intros _. rewrite date_pattern_eq in E. cbn [at_bol prev] in E.
  apply grp_digits_inv in E as (mm & s1 & R1 & D1 & L1 & E); [|lia].
  apply chr_inv in E as (t1 & R1' & E).
  apply grp_digits_inv in E as (dd & s2 & R2 & D2 & L2 & E); [|lia].
  apply chr_inv in E as (t2 & R2' & E).
  apply grp_digits_inv in E as (yy & s3 & R3 & D3 & L3 & E); [|lia].
  cbn [at_eol rest set_cap adv] in *.
  exists (mm ++ lit "/" ++ dd ++ lit "/" ++ yy), (rest s3).
  assert (Hs : s = (mm ++ lit "/" ++ dd ++ lit "/" ++ yy) ++ rest s3).
  { rewrite R1, R1', R2, R2', R3. rewrite <- !app_assoc. reflexivity. }
  split; [exact Hs|]. split.
  - unfold at_eol in E. cbn [rest set_cap MULTILINE no_flags] in E.
    destruct (rest s3) as [|c [|c' t]]; [now left | | ].
    + destruct (N.eqb_spec c 10) as [->|]; [now right | discriminate].
    + destruct (N.eqb c 10); discriminate.
  - exists mm, dd, yy. repeat split; auto; lia.
Qed.

(** Two texts of digits that are followed by a slash and agree as a whole
    agree part by part. *)
Lemma digits_slash_inj (a a' r r' : text) :
  digits a -> digits a' -> a ++ 47%N :: r = a' ++ 47%N :: r' -> a = a' /\ r = r'.
Proof.
  intros Ha. revert a'. induction Ha as [|x a Hx _ IH]; intros a' Ha' H.
  - destruct Ha' as [|y a' Hy _]; simpl in H.
    + now injection H.
    + injection H as <- _. cbv in Hy. discriminate.
  - destruct Ha' as [|y a' Hy Ha']; simpl in H.
    + injection H as -> _. cbv in Hx. discriminate.
    + injection H as -> H. destruct (IH a' Ha' H) as [-> ->]. auto.
Qed.

Lemma date_shape_unique (n n' : nat) (core core' tail : text) :
  date_shape n core -> date_shape n' core' -> core = core' ++ tail ->
  (tail = [] \/ tail = [10%N]) -> n' <= n /\ (n' = n -> tail = []).
Proof.
  intros (mm & dd & yy & -> & Hm & Hd & Hy & _ & _ & Ly)
         (mm' & dd' & yy' & -> & Hm' & Hd' & Hy' & _ & _ & Ly') H Ht.
  rewrite <- !app_assoc in H. simpl in H.
  apply digits_slash_inj in H as [-> H]; auto.
  apply digits_slash_inj in H as [-> H]; auto.
  subst yy. rewrite length_app in Ly. split; [lia|].
  intros ->. destruct Ht as [-> | ->]; [reflexivity | simpl in Ly; lia].
Qed.

Lemma digit_value_cases (c : char) :
  In (digit_value c) [0; 1; 2; 3; 4; 5; 6; 7; 8; 9]%N.
Proof.
  assert (H : (digit_value c < 10)%N).
  { unfold digit_value. destruct (find (in_range c) r_digit); [|reflexivity].
    now apply N.mod_lt. }
  assert (H' : (digit_value c = 0 \/ digit_value c = 1 \/ digit_value c = 2 \/
                digit_value c = 3 \/ digit_value c = 4 \/ digit_value c = 5 \/
                digit_value c = 6 \/ digit_value c = 7 \/ digit_value c = 8 \/
                digit_value c = 9)%N) by lia.
  simpl. intuition.
Qed.

(** Formatting the number that one or two digits denote gives the digits
    in Western digits, zero-padded. *)
Lemma fmt02_int_of (s : text) :
  digits s -> 1 <= length s <= 2 -> fmt02 (int_of s) = pad2 (western s).
Proof.
  intros _ Hl.
  destruct s as [|a [|b [|c s]]]; simpl in Hl; try lia;
    unfold western, int_of; cbn [map fold_left pad2];
    change (0 * 10 + digit_value a)%N with (digit_value a).
  - pose proof (digit_value_cases a) as Ha. simpl in Ha.
    repeat (destruct Ha as [<- | Ha]; [reflexivity|]). destruct Ha.
  - pose proof (digit_value_cases a) as Ha. pose proof (digit_value_cases b) as Hb.
    simpl in Ha, Hb.
    repeat (destruct Ha as [<- | Ha];
            [repeat (destruct Hb as [<- | Hb]; [reflexivity|]); destruct Hb|]).
    destruct Ha.
Qed.

(** ** Date normalization *)

Lemma normalize_date_nonempty (s : text) :
  s <> [] ->
  _normalize_date (Some s) =
  match re_match no_flags (date_pattern 4) (strip s) with
  | Some mt =>
      Some (fmt02 (int_of (group mt 1)) ++ lit "/" ++ fmt02 (int_of (group mt 2))
            ++ lit "/" ++ group mt 3)
  | None =>
      match re_match no_flags (date_pattern 2) (strip s) with
      | Some mt =>
          Some (fmt02 (int_of (group mt 1)) ++ lit "/" ++ fmt02 (int_of (group mt 2))
                ++ lit "/20" ++ group mt 3)
      | None => Some (strip s)
      end
  end.
Proof. destruct s; [congruence | reflexivity]. Qed.

Lemma strip_date (n : nat) (l r core : text) :
  blank l -> blank r -> 1 <= n -> date_shape n core -> strip (l ++ core ++ r) = core.
Proof.
  intros Hl Hr Hn (mm & dd & yy & -> & Hm & Hd & Hy & Lm & Ld & Ly).
  destruct mm as [|a mm]; [simpl in Lm; lia|].
  destruct (exists_last (l := yy)) as (yy' & b & ->).
  { intros ->. simpl in Ly. lia. }
  inversion Hm as [|? ? Ha _]; subst.
  apply Forall_app in Hy as [_ Hb]. inversion Hb as [|? ? Hb' _]; subst.
  replace ((a :: mm) ++ lit "/" ++ dd ++ lit "/" ++ yy' ++ [b])
    with (a :: (mm ++ lit "/" ++ dd ++ lit "/" ++ yy') ++ [b])
    by (simpl; repeat (rewrite <- app_assoc; simpl); reflexivity).
  apply strip_padded; auto using digit_not_space.
Qed.

Lemma date_no_match (n : nat) (s : text) :
  ~ date_shape n (strip s) -> re_match no_flags (date_pattern n) (strip s) = None.
Proof.
  intros H. destruct (re_match no_flags (date_pattern n) (strip s)) as [mt|] eqn:E;
    [|reflexivity].
  apply date_match_complete in E as (core & tail & Hs & [-> | ->] & Hc).
  - rewrite app_nil_r in Hs. congruence.
  - apply strip_last in Hs. discriminate.
Qed.

Lemma date_shorter_no_match (core : text) :
  date_shape 2 core -> re_match no_flags (date_pattern 4) core = None.
Proof.
  intros H. destruct (re_match no_flags (date_pattern 4) core) as [mt|] eqn:E;
    [|reflexivity].
  apply date_match_complete in E as (core' & tail & Hs & Ht & Hc).
  destruct (date_shape_unique H Hc Hs Ht). lia.
Qed.

Lemma normalize_date_shape (l r mm dd yy : text) :
  blank l -> blank r -> digits mm -> digits dd -> digits yy ->
  1 <= length mm <= 2 -> 1 <= length dd <= 2 ->
  (length yy = 4 ->
   _normalize_date (Some (l ++ (mm ++ lit "/" ++ dd ++ lit "/" ++ yy) ++ r)) =
   Some (pad2 (western mm) ++ lit "/" ++ pad2 (western dd) ++ lit "/" ++ yy)) /\
  (length yy = 2 ->
   _normalize_date (Some (l ++ (mm ++ lit "/" ++ dd ++ lit "/" ++ yy) ++ r)) =
   Some (pad2 (western mm) ++ lit "/" ++ pad2 (western dd) ++ lit "/20" ++ yy)).
Proof.
  intros Hl Hr Hm Hd Hy Lm Ld.
  assert (Hne : l ++ (mm ++ lit "/" ++ dd ++ lit "/" ++ yy) ++ r <> []).
  { destruct mm; [simpl in Lm; lia|]. now destruct l. }
  rewrite (normalize_date_nonempty Hne).
  split; intros Ly.
  - rewrite (@strip_date 4) by (auto; try lia; now exists mm, dd, yy).
    destruct (date_match_sound Hm Hd Hy Lm Ld Ly) as (mt & -> & -> & -> & ->).
    now rewrite !fmt02_int_of.
  - rewrite (@strip_date 2) by (auto; try lia; now exists mm, dd, yy).
    rewrite date_shorter_no_match by now exists mm, dd, yy.
    destruct (date_match_sound Hm Hd Hy Lm Ld Ly) as (mt & -> & -> & -> & ->).
    now rewrite !fmt02_int_of.
Qed.

Lemma normalize_date_other (s : text) :
  s <> [] -> ~ date_shape 4 (strip s) -> ~ date_shape 2 (strip s) ->
  _normalize_date (Some s) = Some (strip s).
Proof.
  intros Hne H4 H2. rewrite (normalize_date_nonempty Hne).
  now rewrite !date_no_match.
Qed.

(** C7, as the claim states it, fails: the empty string has neither date
    shape, and it is not returned trimmed but dropped. *)
Lemma empty_date_string_is_dropped :
  ~ date_shape 4 (strip []) /\ ~ date_shape 2 (strip []) /\
  _normalize_date (Some []) = None /\
  _normalize_date (Some []) <> Some (strip []).
Proof.
  assert (H : forall n, ~ date_shape n (strip [])).
  { intros n (mm & dd & yy & E & _). change (strip []) with (@nil N) in E.
    destruct mm; discriminate. }
  repeat split; try apply H. discriminate.
Qed.

(** C7, amended.  Date normalization rewrites M/D/YYYY and M/D/YY, whatever
    the white space around them and whatever decimal digits they are written
    in, to MM/DD/YYYY: the month and the day as two Western digits,
    zero-padded, the digits of the year as they are written, a two-digit
    year put in the 21st century by the prefix "20": "9/5/2023" gives
    "09/05/2023" and "07/09/23" gives "07/09/2023".  Every other string that
    is not empty is returned trimmed and otherwise unchanged; the empty
    string, like [None], yields [None]. *)
Theorem normalize_date_rewrites_or_trims :
  _normalize_date (Some (lit "9/5/2023")) = Some (lit "09/05/2023") /\
  _normalize_date (Some (lit "07/09/23")) = Some (lit "07/09/2023") /\
  (_normalize_date (Some []) = None /\ _normalize_date None = None) /\
  (forall l r mm dd yy : text,
      blank l -> blank r -> digits mm -> digits dd -> digits yy ->
      1 <= length mm <= 2 -> 1 <= length dd <= 2 ->
      (length yy = 4 ->
       _normalize_date (Some (l ++ (mm ++ lit "/" ++ dd ++ lit "/" ++ yy) ++ r)) =
       Some (pad2 (western mm) ++ lit "/" ++ pad2 (western dd) ++ lit "/" ++ yy)) /\
      (length yy = 2 ->
       _normalize_date (Some (l ++ (mm ++ lit "/" ++ dd ++ lit "/" ++ yy) ++ r)) =
       Some (pad2 (western mm) ++ lit "/" ++ pad2 (western dd) ++ lit "/20" ++ yy))) /\
  (forall s : text,
      s <> [] -> ~ date_shape 4 (strip s) -> ~ date_shape 2 (strip s) ->
      _normalize_date (Some s) = Some (strip s)).
Proof.
  split; [vm_compute; reflexivity|]. split; [vm_compute; reflexivity|].
  split; [now split|]. split.
  - apply normalize_date_shape.
  - apply normalize_date_other.
Qed.

Lemma normalize_date_rewrites_or_trims_witness :
  _normalize_date (Some (lit " 1/2/2024 ")) = Some (lit "01/02/2024") /\
  _normalize_date (Some (lit "11/2/24")) = Some (lit "11/02/2024") /\
  _normalize_date (Some (lit " July 8th ")) = Some (lit "July 8th") /\
  _normalize_date (Some [1641; 47; 1637; 47; 1634; 1632; 1634; 1635]%N)
  = Some (lit "09/05/" ++ [1634; 1632; 1634; 1635]%N).
Proof.
  assert (D : forall s, forallb isdigit s = true -> digits s).
  { intros s H. apply Forall_forall. intros c Hc.
    now apply (proj1 (forallb_forall _ _) H). }
  assert (B : forall s, forallb isspace s = true -> blank s).
  { intros s H. apply Forall_forall. intros c Hc.
    now apply (proj1 (forallb_forall _ _) H). }
  pose proof normalize_date_rewrites_or_trims as (_ & _ & _ & Hshape & Hother).
  split; [|split; [|split]].
  - apply (Hshape (lit " ") (lit " ") (lit "1") (lit "2") (lit "2024"));
      try (apply D; reflexivity); try (apply B; reflexivity);
      try (simpl; lia); reflexivity.
  - apply (Hshape [] [] (lit "11") (lit "2") (lit "24"));
      try (apply D; reflexivity); try (apply B; reflexivity);
      try (simpl; lia); reflexivity.
  - apply (Hother (lit " July 8th ")); [discriminate | |];
      intros (mm & dd & yy & E & Hm & _ & _ & Lm & _);
      destruct mm as [|a mm]; [simpl in Lm; lia | | simpl in Lm; lia |];
      (injection E as <- _; inversion Hm as [|? ? Ha _]; discriminate).
  - apply (Hshape [] [] [1641%N] [1637%N] [1634; 1632; 1634; 1635]%N);
      try (apply D; reflexivity); try (apply B; reflexivity);
      try (simpl; lia); reflexivity.
Defined.

(** ** The ZIP check *)

(** C10, as the claim states it, fails: neither "48333" nor "2005" occurs in
    the empty candidate, and it is not returned but dropped. *)
Lemma empty_zip_candidate_is_dropped :
  ~ occurs (lit "48333") [] /\ ~ occurs (lit "2005") [] /\
  _validate_zip (Some []) = None /\ _validate_zip (Some []) <> Some [].
Proof.
  repeat split; try (apply contains_false; reflexivity). discriminate.
Qed.

(** C10, amended.  [_validate_zip] rejects by substring: a candidate in which
    "48333" or "2005" occurs anywhere yields [None], so that the postal code
    "20057" is rejected too; any other candidate that is not empty is
    returned unchanged; the empty candidate, like [None], yields [None]. *)
Theorem validate_zip_rejects_by_substring :
  (forall z : text,
      (occurs (lit "48333") z \/ occurs (lit "2005") z ->
       _validate_zip (Some z) = None) /\
      (z <> [] -> ~ occurs (lit "48333") z -> ~ occurs (lit "2005") z ->
       _validate_zip (Some z) = Some z)) /\
  _validate_zip (Some (lit "20057")) = None /\
  _validate_zip (Some []) = None /\ _validate_zip None = None.
Proof.
  split; [|repeat split].
  intros z. split.
  - intros H. destruct z as [|c z].
    + reflexivity.
    + unfold _validate_zip.
      destruct H as [H | H]; apply contains_spec in H; rewrite H;
        [reflexivity | now rewrite orb_true_r].
  - intros Hz H1 H2. destruct z as [|c z]; [congruence|].
    unfold _validate_zip.
    apply contains_false in H1, H2. now rewrite H1, H2.
Qed.

Lemma validate_zip_rejects_by_substring_witness :
  _validate_zip (Some (lit "48333-2005")) = None /\
  _validate_zip (Some (lit "02139")) = Some (lit "02139").
Proof.
  split.
  - apply (proj1 (proj1 validate_zip_rejects_by_substring (lit "48333-2005"))).
    left. exists [], (lit "-2005"). reflexivity.
  - apply (proj2 (proj1 validate_zip_rejects_by_substring (lit "02139"))).
    + discriminate.
    + apply contains_false. reflexivity.
    + apply contains_false. reflexivity.
Defined.

(** ** The section classifier *)

Lemma identify_section_first_match (t : text) (p : Z) :
  _identify_section t p = first_match section_rules t p.
Proof.
  unfold _identify_section, section_rules, first_match.
  repeat match goal with
         | |- context [if ?b then _ else _] => destruct b eqn:?
         end; simpl in *; try reflexivity; try discriminate.
Qed.

(** C9.  The classifier is total and deterministic: every page text and page
    number yield exactly one section of the closed enumeration; the result
    is the unknown section when no marker phrase occurs in the text; the
    first predicate that holds, in the fixed order, decides; and the claimant
    header gives the plain PART A section on page 1 and the combined
    PART A (Continued) + PART B section on page 2. *)
Theorem identify_section_total_ordered :
  forall (t : text) (p : Z),
    (exists! s, In s all_sections /\ _identify_section t p = s) /\
    ((forall mk, In mk markers -> ~ occurs mk t) ->
     _identify_section t p = UNKNOWN_SECTION) /\
    _identify_section t p = first_match section_rules t p /\
    (occurs (lit "PART A: CLAIMANT INFORMATION") t ->
     _identify_section t 1 = PART_A /\ _identify_section t 2 = PART_A_B).
Proof.
  intros t p. split; [|split; [|split; [|intros H; split]]].
  - exists (_identify_section t p). split.
    + split; [|reflexivity].
      unfold _identify_section, all_sections.
      repeat match goal with
             | |- context [if ?b then _ else _] => destruct b
             end; simpl; tauto.
    + now intros s [_ <-].
  - intros H.
    assert (Hm : forall mk, In mk markers -> contains mk t = false).
    { intros mk Hin. apply contains_false. now apply H. }
    unfold _identify_section.
    rewrite !Hm by (simpl; tauto). reflexivity.
  - apply identify_section_first_match.
  - apply contains_spec in H. unfold _identify_section. now rewrite H.
  - apply contains_spec in H. unfold _identify_section. now rewrite H.
Qed.

Lemma identify_section_total_ordered_witness :
  (_identify_section (lit "WorldTrips PART A: CLAIMANT INFORMATION 1A.") 1 = PART_A /\
   _identify_section (lit "WorldTrips PART A: CLAIMANT INFORMATION 1A.") 2 = PART_A_B) /\
  _identify_section (lit "Page 9") 9 = UNKNOWN_SECTION.
Proof.
  split.
  - apply (proj2 (proj2 (proj2 (identify_section_total_ordered
             (lit "WorldTrips PART A: CLAIMANT INFORMATION 1A.") 1)))).
    exists (lit "WorldTrips "), (lit " 1A."). reflexivity.
  - apply (proj1 (proj2 (identify_section_total_ordered (lit "Page 9") 9))).
    intros mk Hin. apply contains_false.
    simpl in Hin.
    repeat (destruct Hin as [<- | Hin]; [reflexivity|]). destruct Hin.
Defined.

(** ** The clean stage *)

Lemma m_rep (fl : flags) (g : bool) (lo : nat) (hi : option nat) (a : regex)
    (k : cont) (st : mstate) :
  m fl (Rep g lo hi a) k st = rep_loop (m fl a) g lo hi k (length (rest st)) 0 st.
Proof. reflexivity. Qed.

Lemma no_space_run (st : mstate) :
  match rest st with [] => True | c :: _ => isspace c = false end ->
  match_at no_flags (Plus Space) [] st = None.
Proof.
  intros H. unfold match_at, Plus, Space. rewrite m_rep. cbn [rest prev].
  rewrite rep_loop_eq. cbv zeta. cbn [below Nat.leb].
  destruct (rest st) as [|c t]; [reflexivity|].
  cbn [length]. rewrite m_class. cbn [rest]. unfold isspace in H. now rewrite H.
Qed.

Lemma sub_spaces_none (tpl : list repl_item) :
  forall fuel st,
    Forall (fun c => isspace c = false) (rest st) ->
    sub_loop no_flags (Plus Space) tpl fuel st = rest st.
Proof.
  induction fuel as [|f IH]; intros st H; [reflexivity|].
  cbn [sub_loop]. rewrite no_space_run.
  - destruct (rest st) as [|c t] eqn:E; [reflexivity|].
    inversion H; subst. rewrite IH; [reflexivity | assumption].
  - destruct (rest st); [exact I | now inversion H].
Qed.

Lemma strip_no_space (s : text) :
  Forall (fun c => isspace c = false) s -> strip s = s.
Proof.
  intros H. unfold strip, lstrip, rstrip.
  assert (D : forall u, Forall (fun c => isspace c = false) u -> dropwhile isspace u = u).
  { intros u Hu. destruct Hu as [|c u Hc _]; simpl; [reflexivity | now rewrite Hc]. }
  rewrite (D s H), D by now apply Forall_rev. apply rev_involutive.
Qed.

(** A value without white space passes through the clean stage in force as
    it is, whatever its characters. *)
Lemma clean_value_no_space (v : text) :
  v <> [] -> Forall (fun c => isspace c = false) v -> _clean_value (Some v) = Some v.
Proof.
  intros Hne H. unfold _clean_value, Re.sub.
  rewrite strip_no_space by assumption.
  rewrite sub_spaces_none by assumption.
  cbn [rest start_of]. destruct v; [congruence | reflexivity].
Qed.

(** C1.  The clean stage is meant to trim a value, strip underscores and
    periods and turn the tokens "none", "n/a" and "unspecified" into [None].
    The definition at line 151 does so, but the class binds [_clean_value]
    again at line 1064, and the definition in force only trims and collapses
    white space: it returns the sentinel tokens and the stray underscores
    and periods unchanged. *)
Theorem clean_value_in_force_keeps_sentinels :
  (_clean_value (Some (lit "N/A")) = Some (lit "N/A") /\
   _clean_value (Some (lit "none")) = Some (lit "none") /\
   _clean_value (Some (lit " Unspecified ")) = Some (lit "Unspecified") /\
   _clean_value (Some (lit "_Ilyas Malik.")) = Some (lit "_Ilyas Malik.")) /\
  (_clean_value_151 (Some (lit "N/A")) = None /\
   _clean_value_151 (Some (lit "none")) = None /\
   _clean_value_151 (Some (lit " Unspecified ")) = None /\
   _clean_value_151 (Some (lit "_Ilyas Malik.")) = Some (lit "Ilyas Malik")).
Proof. repeat split; reflexivity. Qed.

(** ** Dictionaries *)


Lemma dict_get_set_other (k k' : text) (v : value) (d : dict) :
  Str.eqb k' k = false -> dict_get k (dict_set k' v d) = dict_get k d.
Proof.
  intros Hk. induction d as [|[k0 v0] d IH]; simpl.
  - now rewrite Hk.
  - destruct (Str.eqb k0 k') eqn:E; simpl.
    + apply eqb_eq in E. subst k0. now rewrite Hk.
    + now rewrite IH.
Qed.

(** ** Document metadata *)



(** ** The accuracy evaluator: which maps are merged *)

Lemma get_map_set_other (k k' : text) (v : value) (page : dict) :
  Str.eqb k' k = false -> get_map k (dict_set k' v page) = get_map k page.
Proof. intros H. unfold get_map. now rewrite dict_get_set_other. Qed.

(** C3.  The per-page metrics are meant to merge every section-typed map of
    the page, [tables] included, as the mismatch pass of [main] does.
    [evaluate_page] merges [form_fields], [signatures], [part_b] and
    [third_party_payment_form] only: whatever the [tables] entries of the two
    pages hold, the metrics are those of the pages without them.  A truth page
    whose only leaf lies in [tables] has no counted field, per page and in the
    total, while the same leaf under [form_fields] counts, and the mismatch
    pass lists it. *)
Theorem evaluate_page_leaves_tables_out :
  (forall (page_num : value) (pred_page truth_page : dict) (pred_tables truth_tables : value),
      evaluate_page page_num
        (dict_set (lit "tables") pred_tables pred_page)
        (dict_set (lit "tables") truth_tables truth_page)
      = evaluate_page page_num pred_page truth_page) /\
  (let items :=
     VDict [(lit "supplement_a_items",
             VList [VDict [(lit "amount_charged", VStr (lit "458.35"))]])] in
   let in_tables := [(lit "page", VInt 5); (lit "tables", items)] in
   let in_form_fields := [(lit "page", VInt 5); (lit "form_fields", items)] in
   evaluate_page (VInt 5) [] in_tables = Some zero_metrics /\
   option_map total_fields (evaluate_page (VInt 5) [] in_form_fields) = Some 1 /\
   option_map (fun res => total_fields (snd res))
     (evaluate_pages [] [in_tables] zero_metrics) = Some 0 /\
   mismatches [] in_tables
   = Some [(lit "supplement_a_items_0_amount_charged", LStr (lit "458.35"), LNone)]).
Proof.
  split.
  - intros page_num pred_page truth_page pred_tables truth_tables.
    unfold evaluate_page, evaluated_maps. cbn [merge_maps].
    now rewrite !get_map_set_other by reflexivity.
  - cbv zeta. repeat split; vm_compute; reflexivity.
Qed.

(** ** PART D *)

(** C4.  Every field of a parsed document is meant to be a value or [None],
    never the empty string.  For a PART D page without a printed name the
    signatures map of the parsed document holds the empty string under
    [printed_name], next to the two dates that are [None]; and whatever the
    page text, [printed_name] is a string, never [None]. *)
Theorem part_d_printed_name_is_empty_string :
  (forall (self : parser) (now : text),
      dict_get (lit "pages")
        (parse_document self now
           (lit "--- Page 1 ---" ++ [10%N] ++ lit "PART D: MEDICAL RECORD AUTHORIZATION")
           None)
      = Some (VList
                [VDict
                   [(lit "page", VInt 1);
                    (lit "section", VStr PART_D);
                    (lit "raw_text", VStr (lit "PART D: MEDICAL RECORD AUTHORIZATION"));
                    (lit "signatures",
                     VDict
                       [(lit "claimant_signature_date_mm_dd_yy", VNone);
                        (lit "insured_signature_date_mm_dd_yy", VNone);
                        (lit "printed_name", VStr [])])]])) /\
  (forall t : text,
      exists s, dict_get (lit "printed_name") (_parse_part_d t) = Some (VStr s)).
Proof.
  split.
  - intros self now. vm_compute. reflexivity.
  - intros t. unfold _parse_part_d.
    destruct (search no_flags sig_date_pattern t);
      destruct (search no_flags year_name_pattern t) as [mt|];
      destruct (search no_flags print_name_pattern t) as [mt'|];
      repeat match goal with
             | |- context [if ?b then _ else _] => destruct b eqn:?
             end;
      cbn in *; try discriminate; eauto.
Qed.

(** ** Confidence metrics *)

(** C6.  For an empty token set the confidence report is meant to hold five
    zero metrics.  It holds four: average, minimum, maximum and the number of
    detections; the count of low-confidence tokens, which every report of a
    non-empty set has, is missing.  (No division takes place.) *)
Theorem empty_confidence_report_lacks_low_count :
  calculate_confidence_score []
  = [(lit "average_confidence", Float 0); (lit "min_confidence", Float 0);
     (lit "max_confidence", Float 0); (lit "total_detections", Int 0)] /\
  report_get (lit "low_confidence_count") (calculate_confidence_score []) = None /\
  (forall (d : detection) (r : list detection),
      exists n, report_get (lit "low_confidence_count") (calculate_confidence_score (d :: r))
                = Some (Int n)).
Proof.
  split; [reflexivity|]. split; [reflexivity|].
  intros d r. eexists. reflexivity.
Qed.

(** ** Idempotence *)

Lemma dropwhile_stop (w : text) (a : char) :
  isspace a = false -> dropwhile isspace (w ++ [a]) = dropwhile isspace w ++ [a].
Proof.
  intros Ha. induction w as [|c w IH]; simpl; [now rewrite Ha|].
  now destruct (isspace c).
Qed.

Lemma dropwhile_idem (s : text) :
  dropwhile isspace (dropwhile isspace s) = dropwhile isspace s.
Proof.
  induction s as [|c s IH]; simpl; [reflexivity|].
  destruct (isspace c) eqn:E; [exact IH | simpl; now rewrite E].
Qed.

Lemma strip_idem (s : text) : strip (strip s) = strip s.
Proof.
  unfold strip, lstrip, rstrip.
  destruct (dropwhile_head s) as [E | (a & u & E & Ha)]; rewrite E; [reflexivity|].
  simpl rev. rewrite dropwhile_stop by assumption.
  rewrite rev_app_distr. simpl. rewrite Ha.
  change (a :: rev (dropwhile isspace (rev u)))
    with ([a] ++ rev (dropwhile isspace (rev u))).
  rewrite rev_app_distr, rev_involutive. simpl.
  rewrite dropwhile_stop by assumption.
  now rewrite dropwhile_idem, rev_app_distr.
Qed.

Lemma pad2_digits (s : text) : digits s -> 1 <= length s <= 2 ->
  digits (pad2 s) /\ 1 <= length (pad2 s) <= 2 /\ pad2 (pad2 s) = pad2 s.
Proof.
  intros Hd Hl. destruct s as [|a [|b [|c s]]]; simpl in Hl; try lia; simpl.
  - repeat split; auto. constructor; [reflexivity | assumption].
  - repeat split; auto.
Qed.

Lemma western_char (c : char) :
  isdigit (48 + digit_value c) = true /\ digit_value (48 + digit_value c) = digit_value c.
Proof.
  pose proof (digit_value_cases c) as H. simpl in H.
  repeat (destruct H as [<- | H]; [split; reflexivity|]). destruct H.
Qed.

(** Western digits are digits, and they are their own Western digits. *)
Lemma western_digits (s : text) :
  digits (western s) /\ length (western s) = length s /\ western (western s) = western s.
Proof.
  unfold western. split; [|split].
  - apply Forall_forall. intros x Hx. apply in_map_iff in Hx as (c & <- & _).
    apply western_char.
  - apply length_map.
  - rewrite map_map. apply map_ext. intros c. f_equal. apply western_char.
Qed.

Lemma western_pad2 (s : text) : western (pad2 s) = pad2 (western s).
Proof. destruct s as [|a [|b s]]; reflexivity. Qed.

(** A date of either shape is rewritten to a text that is normalized to
    itself. *)
Lemma normalize_date_fixes_shape (mm dd yy : text) :
  digits mm -> digits dd -> digits yy ->
  1 <= length mm <= 2 -> 1 <= length dd <= 2 -> length yy = 4 ->
  _normalize_date
    (Some (pad2 (western mm) ++ lit "/" ++ pad2 (western dd) ++ lit "/" ++ yy)) =
  Some (pad2 (western mm) ++ lit "/" ++ pad2 (western dd) ++ lit "/" ++ yy).
Proof.
  intros _ _ Hy Lm Ld Ly.
  destruct (western_digits mm) as (Hm & Em & Wm).
  destruct (western_digits dd) as (Hd & Ed & Wd).
  rewrite <- Em in Lm. rewrite <- Ed in Ld.
  destruct (pad2_digits Hm Lm) as (Hm' & Lm' & Pm).
  destruct (pad2_digits Hd Ld) as (Hd' & Ld' & Pd).
  pose proof (proj1 (@normalize_date_shape [] [] (pad2 (western mm)) (pad2 (western dd)) yy
                       (Forall_nil _) (Forall_nil _) Hm' Hd' Hy Lm' Ld') Ly) as H.
  rewrite app_nil_r in H. simpl app at 1 in H.
  rewrite !western_pad2, Wm, Wd, Pm, Pd in H. exact H.
Qed.

(** Date normalization is idempotent on every string that is not blank. *)
Lemma normalize_date_idempotent_unless_blank (s : text) :
  strip s <> [] ->
  _normalize_date (_normalize_date (Some s)) = _normalize_date (Some s).
Proof.
  intros Hs.
  assert (Hne : s <> []) by (intros ->; now apply Hs).
  assert (Hshape : forall n mt,
             re_match no_flags (date_pattern n) (strip s) = Some mt ->
             exists mm dd yy,
               digits mm /\ digits dd /\ digits yy /\ 1 <= length mm <= 2 /\
               1 <= length dd <= 2 /\ length yy = n /\
               group mt 1 = mm /\ group mt 2 = dd /\ group mt 3 = yy).
  { intros n mt E.
    destruct (date_match_complete _ _ E) as (core & tail & Hc & [-> | ->] & Hd).
    - rewrite app_nil_r in Hc. destruct Hd as (mm & dd & yy & -> & Hm & Hd & Hy & Lm & Ld & Ly).
      destruct (date_match_sound Hm Hd Hy Lm Ld Ly) as (mt' & E' & G1 & G2 & G3).
      rewrite Hc, E' in E. injection E as <-.
      exists mm, dd, yy. repeat split; auto; lia.
    - apply strip_last in Hc. discriminate. }
  rewrite (normalize_date_nonempty Hne).
  destruct (re_match no_flags (date_pattern 4) (strip s)) as [mt|] eqn:E4.
  - destruct (Hshape 4 mt E4) as (mm & dd & yy & Hm & Hd & Hy & Lm & Ld & Ly & -> & -> & ->).
    rewrite !fmt02_int_of by assumption.
    now apply normalize_date_fixes_shape.
  - destruct (re_match no_flags (date_pattern 2) (strip s)) as [mt|] eqn:E2.
    + destruct (Hshape 2 mt E2) as (mm & dd & yy & Hm & Hd & Hy & Lm & Ld & Ly & -> & -> & ->).
      rewrite !fmt02_int_of by assumption.
      change (lit "/20" ++ yy) with (lit "/" ++ (lit "20" ++ yy)).
      apply normalize_date_fixes_shape; auto.
      * apply Forall_app. split; [|assumption].
        repeat constructor.
      * rewrite length_app. simpl. lia.
    + rewrite (normalize_date_nonempty Hs), strip_idem, E4, E2. reflexivity.
Qed.

Lemma normalize_date_idempotent_unless_blank_witness :
  _normalize_date (_normalize_date (Some (lit " 9/5/23 ")))
  = _normalize_date (Some (lit " 9/5/23 ")).
Proof.
  apply normalize_date_idempotent_unless_blank. vm_compute. discriminate.
Defined.

(** C8.  Normalizing twice is meant to give what normalizing once gives.  The
    text pipeline keeps three newlines for a text whose blank lines hold a
    space, and its second pass collapses them to two; the date normalizer
    turns a blank string into the empty string, and the empty string into
    [None]. *)
Theorem normalization_twice_differs :
  (let x := lit "a" ++ [10; 32; 10; 32; 10]%N ++ lit "b" in
   process POSTPROCESSING x = lit "a" ++ [10; 10; 10]%N ++ lit "b" /\
   process POSTPROCESSING (process POSTPROCESSING x) = lit "a" ++ [10; 10]%N ++ lit "b" /\
   process POSTPROCESSING (process POSTPROCESSING x) <> process POSTPROCESSING x) /\
  (_normalize_date (Some (lit " ")) = Some [] /\
   _normalize_date (_normalize_date (Some (lit " "))) = None /\
   _normalize_date (_normalize_date (Some (lit " "))) <> _normalize_date (Some (lit " "))).
Proof.
  cbv zeta. repeat split; try (vm_compute; reflexivity); vm_compute; discriminate.
Qed.

(** ** The accuracy evaluator: normalized matches *)

Lemma replace_newline (s : text) :
  replace [10%N] (lit " ") s = map flatten_newline s.
Proof.
  unfold replace.
  assert (H : forall fuel u, length u <= fuel ->
                replace_from [10%N] (lit " ") fuel u = map flatten_newline u).
  { induction fuel as [|f IH]; intros [|c u] Hl; simpl in Hl; try reflexivity; try lia.
    cbn [replace_from]. rewrite startswith_cons.
    replace (startswith u []) with true by now destruct u.
    rewrite andb_true_r.
    cbn [map]. unfold flatten_newline at 1. rewrite (N.eqb_sym c 10).
    destruct (N.eqb 10 c); cbn [length skipn]; rewrite IH by lia; reflexivity. }
  now apply H.
Qed.

(** What [normalize_text] does to a string: trim, lower-case, and put a space
    for every newline that is left. *)
Lemma normalize_text_str (s : text) :
  normalize_text (LStr s) = map flatten_newline (strip (lower s)).
Proof. unfold normalize_text. now rewrite replace_newline. Qed.

(** ** The matcher: where a match ends and what it leaves *)

(** Every success of the matcher goes through its continuation, at a
    position that is a suffix of the position it started from. *)
Lemma rep_loop_through (body : cont -> cont) :
  (forall k st res, body k st = Some res ->
     exists ds st', rest st = ds ++ rest st' /\ k st' = Some res) ->
  forall g lo hi k fuel cnt st res,
    rep_loop body g lo hi k fuel cnt st = Some res ->
    exists ds st', rest st = ds ++ rest st' /\ k st' = Some res.
Proof.
  intros Hbody g lo hi k.
  assert (Hstop : forall cnt st res,
            (if Nat.leb lo cnt then k st else None) = Some res ->
            exists ds st', rest st = ds ++ rest st' /\ k st' = Some res).
  { intros cnt st res H. destruct (Nat.leb lo cnt); [|discriminate].
    now exists [], st. }
  induction fuel as [|f IH]; intros cnt st res H; rewrite rep_loop_eq in H;
    cbv zeta in H.
  - destruct (below cnt hi); eauto.
  - destruct (below cnt hi); [|eauto].
    assert (Hmore : forall res',
              body (fun st' =>
                      if Nat.ltb (length (rest st')) (length (rest st))
                      then rep_loop body g lo hi k f (S cnt) st'
                      else None) st = Some res' ->
              exists ds st', rest st = ds ++ rest st' /\ k st' = Some res').
    { intros res' H'. apply Hbody in H' as (ds & st1 & R1 & H').
      destruct (Nat.ltb _ _); [|discriminate].
      apply IH in H' as (ds' & st2 & R2 & H').
      exists (ds ++ ds'), st2. split; [|assumption].
      now rewrite R1, R2, app_assoc. }
    destruct g.
    + destruct (body _ st) eqn:Eb; [injection H as ->; eauto | eauto].
    + destruct (if Nat.leb lo cnt then k st else None) eqn:Es;
        [injection H as ->; eauto | eauto].
Qed.

Lemma m_through (fl : flags) (r : regex) :
  forall k st res,
    m fl r k st = Some res ->
    exists ds st', rest st = ds ++ rest st' /\ k st' = Some res.
Proof.
  assert (Hone : forall (ok : bool) (k : cont) (st res : mstate) x t,
            rest st = x :: t ->
            (if ok then k (adv x t st) else None) = Some res ->
            exists ds st', rest st = ds ++ rest st' /\ k st' = Some res).
  { intros ok k st res x t Hr H. destruct ok; [|discriminate].
    exists [x], (adv x t st). now rewrite Hr. }
  induction r as [| c | | neg rs | a IHa b IHb | g lo hi a IHa | n a IHa | | | ];
    intros k st res H; cbn [m] in H.
  - now exists [], st.
  - destruct (rest st) as [|x t] eqn:Hr; [discriminate|].
    rewrite <- Hr. exact (Hone _ _ _ _ _ _ Hr H).
  - destruct (rest st) as [|x t] eqn:Hr; [discriminate|].
    rewrite <- Hr. exact (Hone _ _ _ _ _ _ Hr H).
  - destruct (rest st) as [|x t] eqn:Hr; [discriminate|].
    rewrite <- Hr. exact (Hone _ _ _ _ _ _ Hr H).
  - apply IHa in H as (ds & st1 & R1 & H).
    apply IHb in H as (ds' & st2 & R2 & H).
    exists (ds ++ ds'), st2. split; [|assumption]. now rewrite R1, R2, app_assoc.
  - eapply rep_loop_through; eauto.
  - apply IHa in H as (ds & st1 & R1 & H).
    exists ds, (set_cap n (consumed st st1) st1). now split.
  - destruct (at_bol fl st); [|discriminate]. now exists [], st.
  - destruct (at_eol fl st); [|discriminate]. now exists [], st.
  - destruct (at_wordb st); [|discriminate]. now exists [], st.
Qed.

(** A match object splits the text it was found in: what it matched and
    what remains make up the text at the position of the match. *)
Lemma match_at_split (fl : flags) (r : regex) (pre : text) (st : mstate) (mt : Match) :
  match_at fl r pre st = Some mt ->
  rest st = m_0 mt ++ rest (m_end mt) /\
  m fl r Some {| prev := prev st; rest := rest st; caps := [] |} = Some (m_end mt) /\
  m_groups mt = caps (m_end mt).
Proof.
  unfold match_at. destruct (m fl r Some _) as [st'|] eqn:E; [|discriminate].
  intros H. injection H as <-. cbn [m_0 m_end m_groups]. split; [|now split].
  apply m_through in E as (ds & st1 & R & E). injection E as ->.
  cbn [rest] in R. now rewrite (@consumed_app ds st st' R).
Qed.

(** A match found by [re.search] is a match at some position. *)
Lemma search_from_inv (fl : flags) (r : regex) :
  forall s pre_rev p mt,
    search_from fl r pre_rev p s = Some mt ->
    exists pre st, match_at fl r pre st = Some mt.
Proof.
  induction s as [|c s IH]; intros pre_rev p mt H; cbn [search_from] in H;
    destruct (match_at fl r (rev pre_rev) _) eqn:E.
  - injection H as ->. eauto.
  - discriminate.
  - injection H as ->. eauto.
  - eapply IH. exact H.
Qed.

(** So is every match listed by [re.finditer]. *)
Lemma finditer_loop_inv (fl : flags) (r : regex) :
  forall fuel st mt,
    In mt (finditer_loop fl r fuel st) ->
    exists st', match_at fl r [] st' = Some mt.
Proof.
  induction fuel as [|f IH]; intros st mt H; [destruct H|].
  cbn [finditer_loop] in H.
  assert (Hskip : In mt match rest st with
                        | [] => []
                        | c :: t => finditer_loop fl r f (adv c t st)
                        end -> exists st', match_at fl r [] st' = Some mt).
  { destruct (rest st); [intros [] | apply IH]. }
  destruct (match_at fl r [] st) as [mt'|] eqn:E; [|auto].
  destruct (m_0 mt'); destruct H as [<- | H]; eauto.
Qed.

Lemma m_cat (fl : flags) (a b : regex) (k : cont) (st : mstate) :
  m fl (Cat a b) k st = m fl a (m fl b k) st.
Proof. reflexivity. Qed.

Lemma m_wordb (fl : flags) (k : cont) (st : mstate) :
  m fl Wordb k st = if at_wordb st then k st else None.
Proof. reflexivity. Qed.

Lemma m_grp (fl : flags) (n : nat) (a : regex) (k : cont) (st : mstate) :
  m fl (Grp n a) k st = m fl a (fun st' => k (set_cap n (consumed st st') st')) st.
Proof. reflexivity. Qed.

(** A quantified class inside a group captures a run of the class. *)
Lemma grp_class_inv (rs : list (N * N)) (n lo hi : nat) (g : bool) (k : cont)
    (st res : mstate) :
  lo <= hi ->
  m no_flags (Grp n (Rep g lo (Some hi) (In_ false rs))) k st = Some res ->
  exists ds st',
    rest st = ds ++ rest st' /\ Forall (fun c => in_ranges rs c = true) ds /\
    lo <= length ds <= hi /\ k (set_cap n ds st') = Some res.
Proof.
  intros Hle H. rewrite m_grp, m_rep in H.
  apply (@char_loop_inv (m no_flags (In_ false rs)) (in_ranges rs) (m_class rs)) in H;
    [|lia].
  destruct H as (ds & st' & H1 & H2 & H3 & H4).
  exists ds, st'. rewrite (@consumed_app ds st st' H1) in H4. auto.
Qed.

(** Digits, a slash, digits, a slash, digits. *)
Lemma slashed_digits_inv (lo hi n : nat) (k : cont) (st res : mstate) :
  lo <= hi ->
  m no_flags
    (Seq [Rep true lo (Some hi) Digit; Chr 47; Rep true lo (Some hi) Digit; Chr 47;
          Rep true n (Some n) Digit]) k st = Some res ->
  exists mm dd yy st',
    rest st = (mm ++ lit "/" ++ dd ++ lit "/" ++ yy) ++ rest st' /\
    digits mm /\ digits dd /\ digits yy /\
    lo <= length mm <= hi /\ lo <= length dd <= hi /\ length yy = n /\
    k st' = Some res.
Proof.
  intros Hle H. unfold Seq in H. cbn [fold_right] in H.
  rewrite m_cat, m_rep in H.
  apply (@char_loop_inv (m no_flags Digit) isdigit (m_class r_digit)) in H; [|lia].
  destruct H as (mm & s1 & R1 & D1 & L1 & H).
  rewrite m_cat in H. apply chr_inv in H as (t1 & R1' & H).
  rewrite m_cat, m_rep in H.
  apply (@char_loop_inv (m no_flags Digit) isdigit (m_class r_digit)) in H; [|lia].
  destruct H as (dd & s2 & R2 & D2 & L2 & H).
  rewrite m_cat in H. apply chr_inv in H as (t2 & R2' & H).
  rewrite m_cat, m_rep in H.
  apply (@char_loop_inv (m no_flags Digit) isdigit (m_class r_digit)) in H; [|lia].
  destruct H as (yy & s3 & R3 & D3 & L3 & H).
  cbn [m rest adv] in *.
  exists mm, dd, yy, s3. repeat split; auto; try lia.
  rewrite R1, R1', R2, R2', R3. rewrite <- !app_assoc. reflexivity.
Qed.

(** The group of a pattern that ends with its only group. *)
Lemma last_group_inv (fl : flags) (g : regex) :
  forall (ps : list regex) (st res : mstate),
    m fl (Seq (ps ++ [Grp 1 g])) Some st = Some res ->
    exists st1, m fl (Grp 1 g) Some st1 = Some res.
Proof.
  induction ps as [|a ps IH]; intros st res H.
  - exists st. exact H.
  - change (Seq ((a :: ps) ++ [Grp 1 g])) with (Cat a (Seq (ps ++ [Grp 1 g]))) in H.
    rewrite m_cat in H. apply m_through in H as (ds & st1 & _ & H). eauto.
Qed.

Lemma group_of_caps (mt : Match) (v : text) (l : list (nat * text)) :
  m_groups mt = (1, v) :: l -> group mt 1 = v.
Proof. intros H. unfold group. now rewrite H. Qed.

(** ** Extracted values have the shape of their pattern *)

Lemma dob_group (st res : mstate) :
  m no_flags (Grp 1 dob_shape) Some st = Some res ->
  exists d l, caps res = (1, d) :: l /\ padded_date d.
Proof.
  intros H. rewrite m_grp in H. unfold dob_shape in H.
  apply slashed_digits_inv in H; [|lia].
  destruct H as (mm & dd & yy & st' & R & Dm & Dd & Dy & Lm & Ld & Ly & H).
  injection H as <-. rewrite (consumed_app _ _ _ R).
  eexists. eexists. split; [reflexivity|].
  exists mm, dd, yy. repeat split; auto; lia.
Qed.

Lemma western_id (s : text) : in_western s -> western s = s.
Proof.
  induction 1 as [|c s Hc _ IH]; [reflexivity|].
  unfold western in *. cbn [map]. rewrite IH. f_equal.
  assert (H : In c [48; 49; 50; 51; 52; 53; 54; 55; 56; 57]%N) by (simpl; lia).
  simpl in H. repeat (destruct H as [<- | H]; [reflexivity|]). destruct H.
Qed.

Lemma padded_date_normal (mm dd yy : text) :
  digits mm -> digits dd -> digits yy ->
  length mm = 2 -> length dd = 2 -> length yy = 4 ->
  _normalize_date (Some (mm ++ lit "/" ++ dd ++ lit "/" ++ yy))
  = Some (western mm ++ lit "/" ++ western dd ++ lit "/" ++ yy).
Proof.
  intros Dm Dd Dy Lm Ld Ly.
  assert (Pm : pad2 (western mm) = western mm)
    by (destruct mm as [|a [|b [|]]]; simpl in *; (lia || reflexivity)).
  assert (Pd : pad2 (western dd) = western dd)
    by (destruct dd as [|a [|b [|]]]; simpl in *; (lia || reflexivity)).
  pose proof (proj1 (@normalize_date_shape [] [] mm dd yy
                       (Forall_nil _) (Forall_nil _) Dm Dd Dy
                       ltac:(lia) ltac:(lia)) Ly) as H.
  rewrite app_nil_r, Pm, Pd in H. exact H.
Qed.

(** The date of birth that [_extract_dob_value] returns is a date with two
    decimal digits for the month, two for the day and four for the year.
    The date normalizer, which [_parse_part_a] applies to it, returns it
    with the month and the day in Western digits and the year as it is
    written: a date whose month and day are in Western digits is returned
    as it is. *)
Theorem extract_dob_is_padded_date (t d : text) :
  _extract_dob_value t = Some d ->
  padded_date d /\
  exists mm dd yy,
    d = mm ++ lit "/" ++ dd ++ lit "/" ++ yy /\ length mm = 2 /\ length dd = 2 /\
    _normalize_date (_extract_dob_value t)
    = Some (western mm ++ lit "/" ++ western dd ++ lit "/" ++ yy) /\
    (in_western mm -> in_western dd -> _normalize_date (_extract_dob_value t) = Some d).
Proof.
  intros H.
  enough (Hp : padded_date d).
  { split; [exact Hp|]. destruct Hp as (mm & dd & yy & -> & Dm & Dd & Dy & Lm & Ld & Ly).
    exists mm, dd, yy. rewrite H, (padded_date_normal Dm Dd Dy Lm Ld Ly).
    repeat split; auto. intros Wm Wd. now rewrite (western_id Wm), (western_id Wd). }
  unfold _extract_dob_value in H.
  destruct (findall no_flags (Grp 1 dob_shape) t) as [|z zs] eqn:E.
  - destruct (search no_flags dob_label_pattern t) as [mt|] eqn:Es; [|discriminate].
    injection H as <-.
    apply search_from_inv in Es as (pre & st & Es).
    apply match_at_split in Es as (_ & Es & G).
    change dob_label_pattern
      with (Seq ([Lit (lit "3A"); Chr 46; Star Space; Lit (lit "Date of Birth");
                  Star (In_ false ((58, 58)%N :: r_space))] ++ [Grp 1 dob_shape])) in Es.
    apply last_group_inv in Es as (st1 & Es).
    apply dob_group in Es as (d & l & C & Hd).
    rewrite C in G. now rewrite (group_of_caps _ G).
  - assert (Hd0 : d = last (z :: zs) []) by (injection H as H; symmetry; exact H).
    clear H.
    assert (Hin : In (last (z :: zs) []) (z :: zs)).
    { destruct (exists_last (l := z :: zs)) as (l' & a & ->); [discriminate|].
      rewrite last_last. apply in_or_app. right. now left. }
    rewrite <- Hd0 in Hin. clear Hd0.
    rewrite <- E in Hin. unfold findall in Hin.
    apply in_map_iff in Hin as (mt & Hg & Hin). cbv beta in Hg. subst d.
    apply finditer_loop_inv in Hin as (st & Hm).
    apply match_at_split in Hm as (_ & Hm & G).
    apply dob_group in Hm as (d & l & C & Hd).
    rewrite C in G. now rewrite (group_of_caps _ G).
Qed.

Lemma extract_dob_is_padded_date_witness :
  (padded_date (lit "04/17/1988") /\
   exists mm dd yy,
     lit "04/17/1988" = mm ++ lit "/" ++ dd ++ lit "/" ++ yy /\
     length mm = 2 /\ length dd = 2 /\
     _normalize_date (_extract_dob_value (lit "Male 9/5/2023 04/17/1988 USA"))
     = Some (western mm ++ lit "/" ++ western dd ++ lit "/" ++ yy) /\
     (in_western mm -> in_western dd ->
      _normalize_date (_extract_dob_value (lit "Male 9/5/2023 04/17/1988 USA"))
      = Some (lit "04/17/1988"))) /\
  (padded_date arabic_indic_date /\
   exists mm dd yy,
     arabic_indic_date = mm ++ lit "/" ++ dd ++ lit "/" ++ yy /\
     length mm = 2 /\ length dd = 2 /\
     _normalize_date (_extract_dob_value (lit "Male " ++ arabic_indic_date))
     = Some (western mm ++ lit "/" ++ western dd ++ lit "/" ++ yy) /\
     (in_western mm -> in_western dd ->
      _normalize_date (_extract_dob_value (lit "Male " ++ arabic_indic_date))
      = Some arabic_indic_date)).
Proof.
  split.
  - apply (@extract_dob_is_padded_date (lit "Male 9/5/2023 04/17/1988 USA")).
    vm_compute. reflexivity.
  - apply (@extract_dob_is_padded_date (lit "Male " ++ arabic_indic_date)).
    vm_compute. reflexivity.
Defined.

(** The postal code chosen by [_parse_part_a] and [_parse_part_a_continued]
    is made of five digits and contains neither "48333" nor "2005": the ZIP
    and the box number of the form's header are never taken for the
    claimant's postal code. *)
Theorem first_valid_zip_is_no_header_zip (t z : text) :
  first_valid_zip t = Some z ->
  digits z /\ length z = 5 /\
  ~ occurs (lit "48333") z /\ ~ occurs (lit "2005") z /\
  _validate_zip (Some z) = Some z.
Proof.
  unfold first_valid_zip. intros H. apply find_some in H as [Hin Hv].
  assert (Hz : digits z /\ length z = 5).
  { unfold findall in Hin. apply in_map_iff in Hin as (mt & Hg & Hin).
    cbv beta in Hg. subst z.
    apply finditer_loop_inv in Hin as (st & Hm).
    apply match_at_split in Hm as (_ & Hm & G).
    unfold zip_candidate_pattern, Seq in Hm. cbn [fold_right] in Hm.
    rewrite m_cat, m_wordb in Hm.
    destruct (at_wordb _); [|discriminate].
    rewrite m_cat in Hm. apply grp_digits_inv in Hm; [|lia].
    destruct Hm as (ds & st' & _ & Hd & Hl & Hm).
    rewrite m_cat, m_wordb in Hm. destruct (at_wordb _); [|discriminate].
    cbn [m] in Hm.
    injection Hm as Hm. rewrite <- Hm in G. cbn [caps set_cap] in G.
    rewrite (group_of_caps _ G). split; [assumption | lia]. }
  destruct Hz as [Hd Hl]. split; [assumption|]. split; [assumption|].
  unfold _validate_zip in *. destruct z as [|c z]; [discriminate|].
  destruct (contains (lit "48333") (c :: z)) eqn:E1; [discriminate|].
  destruct (contains (lit "2005") (c :: z)) eqn:E2; [discriminate|].
  apply contains_false in E1, E2. auto.
Qed.

Lemma first_valid_zip_is_no_header_zip_witness :
  _validate_zip (Some (lit "01890")) = Some (lit "01890").
Proof.
  apply (first_valid_zip_is_no_header_zip
           (lit "P.O. Box 2005 Farmington Hills, MI 48333-2005 Winchester MA 01890")).
  reflexivity.
Defined.

(** The postal code that [_extract_postal_value] returns is made of five
    digits. *)
Theorem extract_postal_value_five_digits (t z : text) :
  _extract_postal_value t = Some z -> digits z /\ length z = 5.
Proof.
  unfold _extract_postal_value. intros H.
  destruct (search no_flags postal_pattern t) as [mt|] eqn:Es; [|discriminate].
  injection H as <-.
  apply search_from_inv in Es as (pre & st & Es).
  apply match_at_split in Es as (_ & Es & G).
  change postal_pattern
    with (Seq ([Lit (lit "7A"); Rep true 0 (Some 1) (In_ false [(58, 58); (46, 46)]%N);
                Star Space; Lit (lit "Postal Code");
                Star (In_ false ((58, 58)%N :: r_space))]
               ++ [Grp 1 (Rep true 5 (Some 5) Digit)])) in Es.
  apply last_group_inv in Es as (st1 & Es).
  apply grp_digits_inv in Es; [|lia].
  destruct Es as (ds & st' & _ & Hd & Hl & Es).
  injection Es as Es. rewrite <- Es in G. cbn [caps set_cap] in G.
  rewrite (group_of_caps _ G). split; [assumption | lia].
Qed.

Lemma extract_postal_value_five_digits_witness :
  digits (lit "01890") /\ length (lit "01890") = 5.
Proof.
  apply (extract_postal_value_five_digits (lit "7A. Postal Code: 018901 8A. Country")).
  reflexivity.
Defined.

(** The state that [_extract_state_value] returns is made of two capital
    letters. *)
Theorem extract_state_value_two_capitals (t z : text) :
  _extract_state_value t = Some z -> capitals z /\ length z = 2.
Proof.
  unfold _extract_state_value. intros H.
  destruct (search no_flags state_pattern t) as [mt|] eqn:Es; [|discriminate].
  injection H as <-.
  apply search_from_inv in Es as (pre & st & Es).
  apply match_at_split in Es as (_ & Es & G).
  change state_pattern
    with (Seq ([Lit (lit "6A"); Chr 46; Star Space; Lit (lit "State");
                Star (In_ false ((58, 58)%N :: r_space))]
               ++ [Grp 1 (Rep true 2 (Some 2) (In_ false r_upper))])) in Es.
  apply last_group_inv in Es as (st1 & Es).
  apply grp_class_inv in Es; [|lia].
  destruct Es as (ds & st' & _ & Hd & Hl & Es).
  injection Es as Es. rewrite <- Es in G. cbn [caps set_cap] in G.
  rewrite (group_of_caps _ G). split; [assumption | lia].
Qed.

Lemma extract_state_value_two_capitals_witness :
  capitals (lit "MA") /\ length (lit "MA") = 2.
Proof.
  apply (extract_state_value_two_capitals (lit "6A. State: MASS 7A. Postal Code")).
  reflexivity.
Defined.

(** ** Substitution of single characters *)

(** [re.sub] for a pattern that matches one character of a class, with a
    replacement that does not depend on the match. *)
Lemma sub_one_char (r : regex) (p : N -> bool) (tpl : list repl_item) (out : text) :
  (forall k st,
      m no_flags r k st =
      match rest st with
      | x :: t => if p x then k (adv x t st) else None
      | [] => None
      end) ->
  (forall mt, expand tpl mt = out) ->
  forall s, Re.sub no_flags r tpl s = flat_map (fun x => if p x then out else [x]) s.
Proof.
  intros Hr Hout s. unfold Re.sub.
  enough (H : forall fuel st, length (rest st) < fuel ->
                sub_loop no_flags r tpl fuel st
                = flat_map (fun x => if p x then out else [x]) (rest st))
    by (apply H; simpl; lia).
  induction fuel as [|f IH]; intros st Hl; [lia|].
  cbn [sub_loop]. unfold match_at. rewrite Hr. cbn [rest].
  destruct (rest st) as [|x t] eqn:E; [reflexivity|].
  simpl in Hl. cbn [flat_map].
  destruct (p x).
  - cbn [m_0 m_end].
    rewrite (@consumed_app [x] st (adv x t {| prev := prev st; rest := x :: t; caps := [] |}))
      by (now rewrite E).
    rewrite Hout, IH by (simpl; lia). reflexivity.
  - rewrite IH by (simpl; lia). reflexivity.
Qed.

Lemma flat_map_delete (p : N -> bool) (s : text) :
  flat_map (fun x => if negb (p x) then [] else [x]) s = filter p s.
Proof.
  induction s as [|c s IH]; simpl; [reflexivity|].
  destruct (p c); simpl; now rewrite IH.
Qed.

(** A phone number passes [_validate_phone] exactly when it holds at least
    seven digits; it is then returned as it is, with its punctuation. *)
Theorem validate_phone_counts_digits (phone : text) :
  _validate_phone (Some phone) =
  if Nat.leb 7 (length (filter isdigit phone)) then Some phone else None.
Proof.
  unfold _validate_phone.
  rewrite (@sub_one_char (In_ true r_digit) (fun x => negb (isdigit x)) [] [])
    by reflexivity.
  rewrite flat_map_delete.
  destruct phone as [|c phone]; [reflexivity|].
  destruct (Nat.ltb_spec (length (filter isdigit (c :: phone))) 7);
    destruct (Nat.leb_spec 7 (length (filter isdigit (c :: phone))));
    try reflexivity; lia.
Qed.

(** ** The correction table *)

Lemma sub_chr (c d : N) (s : text) :
  Re.sub no_flags (Chr c) [RLit [d]] s = map (fun x => if N.eqb c x then d else x) s.
Proof.
  rewrite (@sub_one_char (Chr c) (N.eqb c) [RLit [d]] [d]) by reflexivity.
  induction s as [|x s IH]; simpl; [reflexivity|].
  rewrite IH. now destruct (N.eqb c x).
Qed.

(** The text that [_fix_common_errors] returns holds neither a pipe nor a
    tilde. *)
Theorem fix_common_errors_leaves_no_pipe_or_tilde (t : text) :
  ~ In 124%N (_fix_common_errors t) /\ ~ In 126%N (_fix_common_errors t).
Proof.
  unfold _fix_common_errors, error_corrections. cbn [fold_left fst snd].
  change (lit "I") with [73%N]. change (lit "-") with [45%N].
  rewrite !sub_chr.
  split; intros H; apply in_map_iff in H as (x & Hx & H).
  - destruct (N.eqb_spec 126 x) as [E|E]; [discriminate|]. subst x.
    apply in_map_iff in H as (y & Hy & _).
    destruct (N.eqb_spec 124 y) as [E'|E']; [discriminate | congruence].
  - destruct (N.eqb_spec 126 x) as [E|E]; [discriminate | congruence].
Qed.

(** ** Runs of white space *)

Section UnboundedCharLoop.

Variable body : cont -> cont.
Variable p : N -> bool.
Hypothesis body_eq :
  forall k st,
    body k st =
    match rest st with
    | x :: t => if p x then k (adv x t st) else None
    | [] => None
    end.

(** A loop without an upper bound is a loop with a bound that it cannot
    reach. *)
Lemma rep_loop_unbounded (g : bool) (lo : nat) (k : cont) :
  forall fuel cnt st hi,
    cnt + fuel < hi ->
    rep_loop body g lo None k fuel cnt st = rep_loop body g lo (Some hi) k fuel cnt st.
Proof.
  induction fuel as [|f IH]; intros cnt st hi Hlt; rewrite !rep_loop_eq; cbv zeta;
    unfold below; destruct (Nat.ltb_spec cnt hi); try lia; [reflexivity|].
  rewrite !body_eq. destruct (rest st) as [|x t]; [reflexivity|].
  destruct (p x); [|reflexivity].
  destruct (Nat.ltb _ _); [|reflexivity].
  now rewrite (IH (S cnt) _ hi) by lia.
Qed.

End UnboundedCharLoop.

(** A run of white space at the position of the match is matched whole. *)
Lemma space_run_matched (ds t : text) (st : mstate) :
  rest st = ds ++ t -> ds <> [] -> blank ds -> no_space_first t ->
  exists mt,
    match_at no_flags (Plus Space) [] st = Some mt /\ m_0 mt = ds /\ rest (m_end mt) = t.
Proof.
  intros Hr Hne Hb Ht. unfold match_at.
  set (st0 := {| prev := prev st; rest := rest st; caps := [] |}).
  assert (E : m no_flags (Plus Space) Some st0 = Some (advance ds t st0)).
  { unfold Plus. rewrite m_rep.
    rewrite (@rep_loop_unbounded (m no_flags Space) isspace (m_class r_space) true 1 Some
               _ 0 st0 (S (length (rest st0)))) by lia.
    apply (@char_loop_greedy (m no_flags Space) isspace (m_class r_space))
      with (ds := ds) (t := t); auto.
    - subst st0. cbn [rest]. rewrite Hr, length_app. lia.
    - subst st0. cbn [rest]. rewrite Hr, length_app.
      destruct ds; [congruence | simpl; lia]. }
  rewrite E. eexists. split; [reflexivity|]. cbn [m_0 m_end].
  rewrite rest_advance. split; [|reflexivity].
  apply consumed_app. now rewrite rest_advance.
Qed.

(** A text splits into its leading white space and the rest. *)
Lemma leading_space (s : text) :
  exists ds t, s = ds ++ t /\ blank ds /\ no_space_first t /\ t = dropwhile isspace s.
Proof.
  induction s as [|c s (ds & t & -> & Hb & Ht & Hd)].
  - exists [], []. repeat split; constructor.
  - destruct (isspace c) eqn:E.
    + exists (c :: ds), t. simpl. rewrite E. repeat split; auto. now constructor.
    + exists [], (c :: ds ++ t). simpl. rewrite E. repeat split; auto. constructor.
Qed.

Lemma collapse_from_true_blank (ds t : text) :
  blank ds -> collapse_from true (ds ++ t) = collapse_from true t.
Proof. induction 1 as [|c ds Hc _ IH]; simpl; [reflexivity | now rewrite Hc]. Qed.

Lemma collapse_from_first (t : text) :
  no_space_first t -> collapse_from true t = collapse_from false t.
Proof. destruct t as [|c t]; simpl; [reflexivity | now intros ->]. Qed.

(** What [re.sub(r'\s+', ' ', s)] computes. *)
Lemma sub_spaces_collapse (s : text) :
  Re.sub no_flags (Plus Space) [RLit (lit " ")] s = collapse s.
Proof.
  unfold Re.sub, collapse.
  enough (H : forall fuel st, length (rest st) < fuel ->
                sub_loop no_flags (Plus Space) [RLit (lit " ")] fuel st
                = collapse_from false (rest st))
    by (apply H; simpl; lia).
  induction fuel as [|f IH]; intros st Hl; [lia|].
  cbn [sub_loop].
  destruct (rest st) as [|c t] eqn:E.
  - rewrite no_space_run by (now rewrite E). reflexivity.
  - simpl in Hl. destruct (isspace c) eqn:Ec.
    + destruct (leading_space t) as (ds & t' & -> & Hb & Ht & _).
      destruct (@space_run_matched (c :: ds) t' st) as (mt & -> & M0 & Me);
        [now rewrite E | discriminate | now constructor | assumption |].
      rewrite M0. cbn [expand flat_map]. rewrite IH.
      * rewrite Me. cbn [collapse_from]. rewrite Ec.
        rewrite collapse_from_true_blank by assumption.
        now rewrite collapse_from_first.
      * rewrite Me. rewrite length_app in Hl. lia.
    + rewrite no_space_run by (now rewrite E).
      rewrite IH by (simpl; lia). cbn [rest adv collapse_from]. now rewrite Ec.
Qed.

Lemma space_32 : isspace 32%N = true.
Proof. reflexivity. Qed.

Lemma collapse_space_is_32 (c : N) :
  forall s b, In c (collapse_from b s) -> isspace c = true -> c = 32%N.
Proof.
  induction s as [|x s IH]; intros b H Hc; simpl in H; [destruct H|].
  destruct (isspace x) eqn:Ex.
  - destruct b; [eauto|]. destruct H as [<- | H]; eauto.
  - destruct H as [<- | H]; [congruence | eauto].
Qed.

Lemma collapse_true_first (s : text) : no_space_first (collapse_from true s).
Proof.
  induction s as [|x s IH]; simpl; [exact I|].
  destruct (isspace x) eqn:Ex; [exact IH | exact Ex].
Qed.

Lemma collapse_no_double (s : text) :
  forall b, contains [32; 32]%N (collapse_from b s) = false.
Proof.
  induction s as [|x s IH]; intros b; simpl collapse_from; [reflexivity|].
  destruct (isspace x) eqn:Ex.
  - destruct b; [apply IH|].
    rewrite contains_cons, IH, orb_false_r, startswith_cons. simpl N.eqb.
    pose proof (collapse_true_first s) as Hf.
    destruct (collapse_from true s) as [|y u]; [reflexivity|].
    rewrite startswith_cons. simpl in Hf.
    destruct (N.eqb_spec 32 y) as [<-|]; [|reflexivity].
    rewrite space_32 in Hf. discriminate.
  - rewrite contains_cons, IH, orb_false_r, startswith_cons.
    destruct (N.eqb_spec 32 x) as [<-|]; [|reflexivity].
    rewrite space_32 in Ex. discriminate.
Qed.

Lemma collapse_idem (s : text) :
  collapse_from false (collapse_from true s) = collapse_from true s /\
  collapse_from false (collapse_from false s) = collapse_from false s.
Proof.
  induction s as [|x s [IH1 IH2]]; simpl; [now split|].
  destruct (isspace x) eqn:Ex.
  - split; [exact IH1|]. cbn [collapse_from]. rewrite space_32.
    rewrite collapse_from_first by apply collapse_true_first. now rewrite IH1.
  - simpl. rewrite Ex, IH2. now split.
Qed.

Lemma collapse_first (s : text) : no_space_first s -> no_space_first (collapse s).
Proof.
  destruct s as [|c s]; simpl; [auto|]. intros H. unfold collapse. simpl.
  now rewrite H.
Qed.

Lemma collapse_snoc (w : text) (z : N) :
  isspace z = false -> forall b, collapse_from b (w ++ [z]) = collapse_from b w ++ [z].
Proof.
  intros Hz. induction w as [|x w IH]; intros b; simpl.
  - now rewrite Hz.
  - destruct (isspace x); [destruct b|]; now rewrite IH.
Qed.

Lemma collapse_last (s : text) :
  no_space_first (rev s) -> no_space_first (rev (collapse s)).
Proof.
  destruct (rev s) as [|z w] eqn:E; intros H.
  - apply (f_equal (@rev N)) in E. rewrite rev_involutive in E. subst s. exact I.
  - apply (f_equal (@rev N)) in E. rewrite rev_involutive in E. subst s.
    simpl in *. unfold collapse. rewrite collapse_snoc by assumption.
    rewrite rev_app_distr. exact H.
Qed.

Lemma strip_fixed (u : text) :
  no_space_first u -> no_space_first (rev u) -> strip u = u.
Proof.
  intros H1 H2. unfold strip, lstrip, rstrip.
  assert (D : forall w, no_space_first w -> dropwhile isspace w = w).
  { intros [|c w] Hw; simpl in *; [reflexivity | now rewrite Hw]. }
  rewrite (D u H1), (D _ H2). apply rev_involutive.
Qed.

Lemma strip_ends (s : text) :
  no_space_first (strip s) /\ no_space_first (rev (strip s)).
Proof.
  assert (D : forall w, no_space_first (dropwhile isspace w)).
  { intros w. destruct (dropwhile_head w) as [-> | (c & t & -> & Hc)]; simpl; auto. }
  unfold strip, lstrip, rstrip. split; [|rewrite rev_involutive; apply D].
  pose proof (D s) as H. destruct (dropwhile isspace s) as [|a u]; [exact I|].
  simpl in H. simpl rev. rewrite dropwhile_stop by assumption.
  rewrite rev_app_distr. exact H.
Qed.

(** The values that the clean stage in force returns are in normal form:
    not empty, without white space around them, with a single space for
    every run of white space inside; and the stage returns such a value as
    it is, so that cleaning twice is cleaning once. *)
Theorem clean_value_normal_form (v : option text) (r : text) :
  _clean_value v = Some r ->
  r <> [] /\ strip r = r /\
  (forall c, In c r -> isspace c = true -> c = 32%N) /\
  ~ occurs [32; 32]%N r /\
  _clean_value (_clean_value v) = _clean_value v.
Proof.
  intros H.
  assert (Hr : exists u, r = collapse (strip u) /\ r <> []).
  { destruct v as [u|]; [|discriminate]. unfold _clean_value in H.
    rewrite sub_spaces_collapse in H.
    destruct (collapse (strip u)) eqn:E; [discriminate|].
    injection H as <-. exists u. now rewrite E. }
  destruct Hr as (u & Hu & Hne).
  assert (Hs : strip r = r).
  { subst r. destruct (strip_ends u).
    apply strip_fixed; [now apply collapse_first | now apply collapse_last]. }
  split; [assumption|]. split; [assumption|]. split; [|split].
  - intros c Hc. subst r. now apply collapse_space_is_32 with (s := strip u) (b := false).
  - apply contains_false. subst r. apply collapse_no_double.
  - rewrite H. unfold _clean_value. rewrite sub_spaces_collapse, Hs.
    replace (collapse r) with r by (subst r; symmetry; apply collapse_idem).
    destruct r; [congruence | reflexivity].
Qed.

Lemma clean_value_normal_form_witness :
  _clean_value (_clean_value (Some (lit "  Winchester   High  School ")))
  = _clean_value (Some (lit "  Winchester   High  School ")).
Proof.
  apply (@clean_value_normal_form (Some (lit "  Winchester   High  School "))
           (lit "Winchester High School")).
  reflexivity.
Defined.

(** ** Pages *)

(** Every page that [_split_pages] returns is trimmed and not empty. *)
Theorem split_pages_trimmed_nonempty (t : text) :
  Forall (fun p => p <> [] /\ strip p = p) (_split_pages t).
Proof.
  unfold _split_pages. apply Forall_forall. intros p Hp.
  apply in_map_iff in Hp as (q & <- & Hq). apply filter_In in Hq as [_ Hq].
  unfold not_blank in Hq. split; [|apply strip_idem].
  destruct (strip q); [discriminate | discriminate].
Qed.

Lemma unknown_section_has_no_part :
  contains (lit "PART A") UNKNOWN_SECTION = false /\
  contains (lit "PART C") UNKNOWN_SECTION = false /\
  contains (lit "PART D") UNKNOWN_SECTION = false /\
  contains (lit "SUPPLEMENT A") UNKNOWN_SECTION = false /\
  contains (lit "SUPPLEMENT B") UNKNOWN_SECTION = false /\
  contains (lit "SUPPLEMENT C") UNKNOWN_SECTION = false /\
  contains (lit "SUPPLEMENT D") UNKNOWN_SECTION = false.
Proof. repeat split; reflexivity. Qed.

Lemma parse_page_entries (self : parser) (page_text : text) (page_num : Z) :
  dict_get (lit "page") (_parse_page self page_text page_num) = Some (VInt page_num) /\
  dict_get (lit "section") (_parse_page self page_text page_num)
  = Some (VStr (_identify_section page_text page_num)) /\
  dict_get (lit "raw_text") (_parse_page self page_text page_num) = Some (VStr page_text).
Proof.
  repeat split; unfold _parse_page;
    repeat match goal with
           | |- context [if ?b then _ else _] => destruct b
           end; reflexivity.
Qed.

(** Every page object carries its number, its section and its text, whatever
    the section parser adds; a page of the unknown section carries nothing
    else. *)
Theorem parse_page_keeps_page_section_text (self : parser) (page_text : text) (page_num : Z) :
  dict_get (lit "page") (_parse_page self page_text page_num) = Some (VInt page_num) /\
  dict_get (lit "section") (_parse_page self page_text page_num)
  = Some (VStr (_identify_section page_text page_num)) /\
  dict_get (lit "raw_text") (_parse_page self page_text page_num) = Some (VStr page_text) /\
  (_identify_section page_text page_num = UNKNOWN_SECTION ->
   _parse_page self page_text page_num
   = [(lit "page", VInt page_num); (lit "section", VStr UNKNOWN_SECTION);
      (lit "raw_text", VStr page_text)]).
Proof.
  destruct (parse_page_entries self page_text page_num) as (Hp & Hs & Ht).
  repeat split; try assumption.
  intros H. unfold _parse_page. rewrite H.
  destruct unknown_section_has_no_part as (-> & -> & -> & -> & -> & -> & ->).
  reflexivity.
Qed.

Lemma parse_page_keeps_page_section_text_witness :
  _parse_page silent_parser (lit "Thank you for your claim.") 9
  = [(lit "page", VInt 9); (lit "section", VStr UNKNOWN_SECTION);
     (lit "raw_text", VStr (lit "Thank you for your claim."))].
Proof.
  apply (parse_page_keeps_page_section_text silent_parser (lit "Thank you for your claim.") 9).
  reflexivity.
Defined.

Lemma enumerate_pages (self : parser) :
  forall (pages : list text) (i : nat),
    map (page_entry (lit "page"))
      (map (fun ip => VDict (_parse_page self (snd ip) (fst ip)))
         (enumerate (Z.of_nat i) pages))
    = map (fun k => Some (VInt (Z.of_nat k))) (seq i (length pages)) /\
    map (page_entry (lit "raw_text"))
      (map (fun ip => VDict (_parse_page self (snd ip) (fst ip)))
         (enumerate (Z.of_nat i) pages))
    = map (fun p => Some (VStr p)) pages.
Proof.
  induction pages as [|p pages IH]; intros i; [now split|].
  cbn [enumerate map length seq page_entry fst snd].
  destruct (parse_page_entries self p (Z.of_nat i)) as (-> & _ & ->).
  replace (Z.of_nat i + 1)%Z with (Z.of_nat (S i)) by lia.
  destruct (IH (S i)) as [-> ->]. now split.
Qed.

(** The parsed document has one page object for every segmented page, in
    order: their numbers are 1, 2, 3, ... and their texts are the segmented
    pages. *)
Theorem parse_document_numbers_pages (self : parser) (now full_text : text)
    (num_pages : option Z) :
  exists pages,
    dict_get (lit "pages") (parse_document self now full_text num_pages)
    = Some (VList pages) /\
    length pages = length (_split_pages full_text) /\
    map (page_entry (lit "page")) pages
    = map (fun k => Some (VInt (Z.of_nat k))) (seq 1 (length (_split_pages full_text))) /\
    map (page_entry (lit "raw_text")) pages
    = map (fun p => Some (VStr p)) (_split_pages full_text).
Proof.
  destruct (enumerate_pages self (_split_pages full_text) 1) as [Hnum Htext].
  eexists. split; [reflexivity|]. split; [|split; [exact Hnum | exact Htext]].
  apply (f_equal (@length _)) in Htext. rewrite !length_map in Htext.
  rewrite length_map. exact Htext.
Qed.

(** ** PART B and PART D *)

(** The incident details of PART B are never missing and never empty: they
    are a trimmed text without "DocuSign", which is "N/A" when nothing else
    was found. *)
Theorem part_b_incident_details_never_empty (t : text) :
  exists d,
    dict_get (lit "2b_incident_details") (_parse_part_b t) = Some (VStr d) /\
    d <> [] /\ strip d = d /\ ~ occurs (lit "DocuSign") d.
Proof.
  assert (Hna : exists d, Some (VStr (lit "N/A")) = Some (VStr d) /\
                          d <> [] /\ strip d = d /\ ~ occurs (lit "DocuSign") d).
  { exists (lit "N/A"). repeat split; [discriminate | now apply contains_false]. }
  unfold _parse_part_b, _extract_field.
  destruct (search flag_IM incident_pattern t) as [mt|]; [|exact Hna].
  pose proof (strip_idem (group mt 1)) as Hs.
  generalize dependent (strip (group mt 1)). intros [|c d] Hs; [exact Hna|].
  destruct (contains (lit "DocuSign") (c :: d)) eqn:E; [exact Hna|].
  exists (c :: d). repeat split; [discriminate | exact Hs | now apply contains_false].
Qed.

Lemma sig_date_normalized (t : text) (mt : Match) :
  search no_flags sig_date_pattern t = Some mt ->
  exists d, _normalize_date (Some (group mt 1)) = Some d /\ padded_date d.
Proof.
  intros Es. apply search_from_inv in Es as (pre & st & Es).
  apply match_at_split in Es as (_ & Es & G).
  unfold sig_date_pattern in Es. rewrite m_grp in Es.
  apply slashed_digits_inv in Es; [|lia].
  destruct Es as (mm & dd & yy & st' & R & Dm & Dd & Dy & Lm & Ld & Ly & H).
  injection H as H. rewrite (consumed_app _ _ _ R) in H.
  rewrite <- H in G. cbn [caps set_cap] in G.
  rewrite (group_of_caps _ G).
  pose proof (proj1 (@normalize_date_shape [] [] mm dd yy
                       (Forall_nil _) (Forall_nil _) Dm Dd Dy Lm Ld) Ly) as Hn.
  rewrite app_nil_r in Hn.
  exists (pad2 (western mm) ++ lit "/" ++ pad2 (western dd) ++ lit "/" ++ yy).
  split; [exact Hn|].
  destruct (western_digits mm) as (Wm & Em & _).
  destruct (western_digits dd) as (Wd & Ed & _).
  rewrite <- Em in Lm. rewrite <- Ed in Ld.
  destruct (pad2_digits Wm Lm) as (Dm' & _ & _).
  destruct (pad2_digits Wd Ld) as (Dd' & _ & _).
  exists (pad2 (western mm)), (pad2 (western dd)), yy. repeat split; auto.
  - destruct (western mm) as [|a [|b [|]]]; simpl in *; (lia || reflexivity).
  - destruct (western dd) as [|a [|b [|]]]; simpl in *; (lia || reflexivity).
Qed.

(** The signatures of PART D always hold the same three entries: the
    claimant's and the insured's signature date, which are one and the same
    value, either [None] or a date with a two-digit month, a two-digit day
    and a four-digit year; and a printed name that is a string without
    "Domestic". *)
Theorem part_d_dates_agree_and_name_is_clean (t : text) :
  exists (date : value) (name : text),
    _parse_part_d t
    = [(lit "claimant_signature_date_mm_dd_yy", date);
       (lit "insured_signature_date_mm_dd_yy", date);
       (lit "printed_name", VStr name)] /\
    (date = VNone \/ exists d, date = VStr d /\ padded_date d) /\
    ~ occurs (lit "Domestic") name.
Proof.
  unfold _parse_part_d.
  destruct (search no_flags sig_date_pattern t) as [mt|] eqn:Es;
    [destruct (sig_date_normalized _ Es) as (d & -> & Hp)|];
    destruct (search no_flags year_name_pattern t) as [mt1|];
    destruct (search no_flags print_name_pattern t) as [mt2|];
    try (generalize (group mt1 2); intros n1);
    try (generalize (group mt2 1); intros n2);
    try destruct (contains (lit "Domestic") n1) eqn:D1;
    try destruct (contains (lit "Farmington") n1) eqn:F1;
    try destruct (contains (lit "Domestic") n2) eqn:D2;
    try destruct n1; try destruct n2; cbn;
    (eexists; eexists; split; [reflexivity|]; split;
     [first [left; reflexivity | right; eexists; split; [reflexivity | eassumption]]
     |apply contains_false; first [assumption | reflexivity]]).
Qed.

(** ** The accuracy evaluator: counters *)

Lemma evaluate_fields_count (pred_flat : flat) :
  forall (truth_flat : flat) (mt : metrics),
    total_fields (fold_left (evaluate_field pred_flat) truth_flat mt)
    = total_fields mt + length (filter scored truth_flat) /\
    exact_matches (fold_left (evaluate_field pred_flat) truth_flat mt)
    = exact_matches mt + length (filter (exact_hit pred_flat) truth_flat) /\
    norm_matches (fold_left (evaluate_field pred_flat) truth_flat mt)
    = norm_matches mt + length (filter (norm_hit pred_flat) truth_flat).
Proof.
  induction truth_flat as [|[k v] l IH]; intros mt; cbn [fold_left filter].
  - cbn [length]. lia.
  - destruct (IH (evaluate_field pred_flat mt (k, v))) as (-> & -> & ->).
    unfold exact_hit, norm_hit, scored. cbn [fst snd].
    destruct v;
      cbn [evaluate_field total_fields exact_matches norm_matches andb];
      repeat match goal with
             | |- context [if ?b then _ else _] => destruct b
             end; cbn [length]; lia.
Qed.

Lemma filter_length_mono (A : Type) (p q : A -> bool) (l : list A) :
  (forall x, p x = true -> q x = true) ->
  length (filter p l) <= length (filter q l).
Proof.
  intros H. induction l as [|x l IH]; cbn [filter]; [lia|].
  destruct (p x) eqn:P; [rewrite (H x P); cbn [length]; lia|].
  destruct (q x); cbn [length]; lia.
Qed.

(** C5, as the claim states it, fails: two names that differ only in the
    width of the run of spaces between the words are not a normalized
    match. *)
Lemma wider_space_run_is_no_normalized_match :
  option_map total_fields (evaluate_page (VInt 1) pred_one_space truth_two_spaces) = Some 1 /\
  option_map norm_matches (evaluate_page (VInt 1) pred_one_space truth_two_spaces) = Some 0 /\
  option_map norm_matches (evaluate_page (VInt 1) pred_one_space truth_two_spaces) <> Some 1.
Proof. repeat split; vm_compute; try reflexivity; discriminate. Qed.

(** C5, amended.  For a ground-truth leaf that is not null, the
    normalized-match counter goes up by one exactly when the normalized texts
    of the two values are identical, and stays otherwise, so that the
    normalized matches of a page are the scored fields whose normalized text
    is that of the predicted value.  The normalized text of [None] (which
    also stands for a field that was not predicted) is empty, that of a
    boolean is "true" or "false", that of a number is that of its decimal
    writing, and that of a string is the string in lower case, trimmed of
    surrounding white space, with every newline replaced by a space; runs of
    white space inside the value are kept as they are, so two strings whose
    trimmed lower-case texts differ in length are never a normalized
    match. *)
Theorem norm_match_is_equality_of_normalized_text :
  (forall (pred_flat : flat) (mt : metrics) (key : text) (truth_val : leaf),
      truth_val <> LNone ->
      let pred_val := or_none (flat_get key pred_flat) in
      let mt' := evaluate_field pred_flat mt (key, truth_val) in
      (normalize_text truth_val = normalize_text pred_val ->
       norm_matches mt' = norm_matches mt + 1) /\
      (normalize_text truth_val <> normalize_text pred_val ->
       norm_matches mt' = norm_matches mt)) /\
  (forall (page_num : value) (pred_page truth_page pred_data truth_data : dict),
      merge_maps evaluated_maps pred_page [] = Some pred_data ->
      merge_maps evaluated_maps truth_page [] = Some truth_data ->
      option_map norm_matches (evaluate_page page_num pred_page truth_page)
      = Some (length (filter (norm_hit (flatten_json pred_data))
                        (flatten_json truth_data)))) /\
  (normalize_text LNone = [] /\
   normalize_text (LBool true) = lit "true" /\
   normalize_text (LBool false) = lit "false" /\
   (forall z : Z, normalize_text (LInt z) = normalize_text (LStr (str_of_Z z))) /\
   (forall s : text, normalize_text (LStr s) = map flatten_newline (strip (lower s)))) /\
  (forall s1 s2 : text,
      normalize_text (LStr s1) = normalize_text (LStr s2) ->
      length (strip (lower s1)) = length (strip (lower s2))).
Proof.
  split; [|split; [|split]].
  - intros pred_flat mt key truth_val Hnn. cbv zeta.
    assert (E : norm_matches (evaluate_field pred_flat mt (key, truth_val)) =
                if Str.eqb (normalize_text truth_val)
                     (normalize_text (or_none (flat_get key pred_flat)))
                then norm_matches mt + 1 else norm_matches mt).
    { destruct truth_val; [congruence | reflexivity | reflexivity | reflexivity]. }
    rewrite E. split; intros H.
    + apply eqb_eq in H. now rewrite H.
    + destruct (Str.eqb _ _) eqn:Eq; [|reflexivity].
      apply eqb_eq in Eq. contradiction.
  - intros page_num pred_page truth_page pred_data truth_data Hp Ht.
    unfold evaluate_page. rewrite Hp, Ht. cbn [option_map]. f_equal.
    now destruct (evaluate_fields_count (flatten_json pred_data) (flatten_json truth_data)
                    zero_metrics) as (_ & _ & ->).
  - split; [reflexivity|]. split; [vm_compute; reflexivity|].
    split; [vm_compute; reflexivity|]. split; [intros z; reflexivity|].
    apply normalize_text_str.
  - intros s1 s2 H. rewrite !normalize_text_str in H.
    apply (f_equal (@length N)) in H. now rewrite !length_map in H.
Qed.

Lemma norm_match_is_equality_of_normalized_text_witness :
  (norm_matches
     (evaluate_field [(lit "city", LStr (lit " WINCHESTER"))] zero_metrics
        (lit "city", LStr (lit "Winchester"))) = 1) /\
  (norm_matches
     (evaluate_field [(lit "city", LStr (lit "Win  chester"))] zero_metrics
        (lit "city", LStr (lit "Win chester"))) = 0).
Proof.
  pose proof (proj1 norm_match_is_equality_of_normalized_text) as H.
  split.
  - apply (H [(lit "city", LStr (lit " WINCHESTER"))] zero_metrics (lit "city")
             (LStr (lit "Winchester"))); [discriminate | vm_compute; reflexivity].
  - apply (H [(lit "city", LStr (lit "Win  chester"))] zero_metrics (lit "city")
             (LStr (lit "Win chester"))); [discriminate | vm_compute; discriminate].
Defined.

(** On every page the evaluator counts no more exact matches and no more
    normalized matches than fields: no accuracy is above 100 per cent. *)
Theorem evaluate_page_matches_within_total (page_num : value) (pred_page truth_page : dict)
    (mt : metrics) :
  evaluate_page page_num pred_page truth_page = Some mt ->
  exact_matches mt <= total_fields mt /\ norm_matches mt <= total_fields mt.
Proof.
  unfold evaluate_page.
  destruct (merge_maps evaluated_maps pred_page []) as [pred_data|]; [|discriminate].
  destruct (merge_maps evaluated_maps truth_page []) as [truth_data|]; [|discriminate].
  intros H. injection H as <-.
  destruct (evaluate_fields_count (flatten_json pred_data) (flatten_json truth_data)
              zero_metrics) as (-> & -> & ->).
  cbn [zero_metrics total_fields exact_matches norm_matches].
  split; apply Nat.add_le_mono_l, filter_length_mono; intros x Hx;
    now apply andb_true_iff in Hx.
Qed.

Lemma evaluate_page_matches_within_total_witness :
  exists mt,
    evaluate_page (VInt 1) pred_three_fields truth_three_fields = Some mt /\
    exact_matches mt <= total_fields mt /\ norm_matches mt <= total_fields mt.
Proof.
  eexists. split; [vm_compute; reflexivity|].
  apply (evaluate_page_matches_within_total (VInt 1) pred_three_fields truth_three_fields).
  vm_compute. reflexivity.
Defined.

(** Against a page that was not predicted (the empty page that stands for
    it) no field is an exact match, and the normalized matches are the
    scored fields whose true value has an empty normalized text. *)
Theorem evaluate_page_of_missing_prediction (page_num : value) (truth_page : dict)
    (mt : metrics) :
  evaluate_page page_num [] truth_page = Some mt ->
  exact_matches mt = 0 /\
  option_map (fun truth_data => length (filter scored_blank (flatten_json truth_data)))
    (merge_maps evaluated_maps truth_page [])
  = Some (norm_matches mt).
Proof.
  unfold evaluate_page.
  change (merge_maps evaluated_maps [] []) with (Some (@nil (text * value))).
  destruct (merge_maps evaluated_maps truth_page []) as [truth_data|]; [|discriminate].
  intros H. injection H as <-.
  change (flatten_json []) with (@nil (text * leaf)).
  destruct (evaluate_fields_count [] (flatten_json truth_data) zero_metrics)
    as (_ & -> & ->).
  cbn [zero_metrics exact_matches norm_matches option_map Nat.add].
  split.
  - induction (flatten_json truth_data) as [|[k v] l IH]; [reflexivity|].
    cbn [filter]. unfold exact_hit at 1, scored at 1. cbn [fst snd flat_get or_none].
    destruct v; exact IH.
  - f_equal. induction (flatten_json truth_data) as [|[k v] l IH]; [reflexivity|].
    cbn [filter]. unfold norm_hit at 1, scored_blank at 1.
    cbn [fst snd flat_get or_none].
    change (normalize_text LNone) with (@nil N).
    replace (Str.eqb (normalize_text v) [])
      with (match normalize_text v with [] => true | _ :: _ => false end)
      by now destruct (normalize_text v).
    destruct (scored (k, v) && _)%bool; cbn [length]; now rewrite IH.
Qed.

Lemma evaluate_page_of_missing_prediction_witness :
  exists mt,
    evaluate_page (VInt 1) [] truth_three_fields = Some mt /\ exact_matches mt = 0.
Proof.
  eexists. split; [vm_compute; reflexivity|].
  apply (evaluate_page_of_missing_prediction (VInt 1) truth_three_fields).
  vm_compute. reflexivity.
Defined.

(** The report has one row for every ground-truth page, under that page's
    number and in the same order, and each counter of the grand total is
    what it was at the start plus the sum of the rows. *)
Theorem evaluate_pages_total_is_sum_of_rows (pred_pages : list dict) :
  forall (truth_pages : list dict) (total : metrics)
         (rows : list (value * metrics)) (total' : metrics),
    evaluate_pages pred_pages truth_pages total = Some (rows, total') ->
    map (fun row => Some (fst row)) rows = map (dict_get (lit "page")) truth_pages /\
    total_fields total'
    = total_fields total + list_sum (map (fun row => total_fields (snd row)) rows) /\
    exact_matches total'
    = exact_matches total + list_sum (map (fun row => exact_matches (snd row)) rows) /\
    norm_matches total'
    = norm_matches total + list_sum (map (fun row => norm_matches (snd row)) rows).
Proof.
  induction truth_pages as [|truth_page r IH]; intros total rows total' H;
    cbn [evaluate_pages] in H.
  - injection H as <- <-. cbn. repeat split; lia.
  - destruct (dict_get (lit "page") truth_page) as [page_num|] eqn:Ep; [|discriminate].
    destruct (find_page page_num pred_pages) as [pred_page|]; [|discriminate].
    destruct (evaluate_page page_num pred_page truth_page) as [mt|]; [|discriminate].
    destruct (evaluate_pages pred_pages r (add_metrics total mt)) as [[rows0 total0]|] eqn:Er;
      [|discriminate].
    injection H as <- <-.
    destruct (IH _ _ _ Er) as (Hr & Ht & He & Hn).
    cbn [map fst snd list_sum]. rewrite Ep, Hr, Ht, He, Hn.
    cbn [add_metrics total_fields exact_matches norm_matches].
    repeat split; try reflexivity; unfold list_sum; cbn [fold_right]; lia.
Qed.

Lemma evaluate_pages_total_is_sum_of_rows_witness :
  exists rows total',
    evaluate_pages [pred_three_fields; pred_one_space]
      [truth_three_fields; truth_two_spaces] zero_metrics = Some (rows, total') /\
    total_fields total'
    = total_fields zero_metrics + list_sum (map (fun row => total_fields (snd row)) rows).
Proof.
  eexists. eexists. split; [vm_compute; reflexivity|].
  apply (evaluate_pages_total_is_sum_of_rows [pred_three_fields; pred_one_space]
           [truth_three_fields; truth_two_spaces] zero_metrics).
  vm_compute. reflexivity.
Defined.

Lemma merge_without_tables (page : dict) :
  dict_get (lit "tables") page = None ->
  merge_maps listed_maps page [] = merge_maps evaluated_maps page [].
Proof.
  intros H.
  assert (T : get_map (lit "tables") page = Some []) by (unfold get_map; now rewrite H).
  unfold listed_maps, evaluated_maps. cbn [merge_maps]. rewrite T.
  repeat match goal with
         | |- context [match get_map ?k page with _ => _ end] => destruct (get_map k page)
         end; reflexivity.
Qed.

Lemma mismatch_count (pred_flat : flat) (truth_flat : flat) :
  length
    (flat_map
       (fun item : text * leaf =>
          let (key, truth_val) := item in
          match truth_val with
          | LNone => []
          | _ =>
              let pred_val := or_none (flat_get key pred_flat) in
              if Str.eqb (normalize_text truth_val) (normalize_text pred_val)
              then []
              else [(key, truth_val, pred_val)]
          end)
       truth_flat)
  + length (filter (norm_hit pred_flat) truth_flat)
  = length (filter scored truth_flat).
Proof.
  induction truth_flat as [|[k v] l IH]; [reflexivity|].
  cbn [flat_map filter]. rewrite length_app.
  match goal with
  | |- context [length (flat_map ?f l)] => set (rest_lines := length (flat_map f l)) in *
  end.
  clearbody rest_lines.
  unfold norm_hit at 1, scored at 1 2. cbn [fst snd].
  destruct v; cbn [andb length app];
    repeat match goal with
           | |- context [if ?b then _ else _] => destruct b
           end; cbn [length]; lia.
Qed.

(** For two pages without a [tables] entry the mismatch pass lists exactly
    the scored fields that are no normalized match: the number of listed
    lines and the normalized matches add up to the number of fields. *)
Theorem mismatches_complement_norm_matches (page_num : value) (pred_page truth_page : dict)
    (mt : metrics) :
  dict_get (lit "tables") pred_page = None ->
  dict_get (lit "tables") truth_page = None ->
  evaluate_page page_num pred_page truth_page = Some mt ->
  exists lines,
    mismatches pred_page truth_page = Some lines /\
    length lines + norm_matches mt = total_fields mt.
Proof.
  intros Hp Ht. unfold evaluate_page, mismatches.
  rewrite (merge_without_tables _ Hp), (merge_without_tables _ Ht).
  destruct (merge_maps evaluated_maps pred_page []) as [pred_data|]; [|discriminate].
  destruct (merge_maps evaluated_maps truth_page []) as [truth_data|]; [|discriminate].
  intros H. injection H as <-.
  eexists. split; [reflexivity|].
  destruct (evaluate_fields_count (flatten_json pred_data) (flatten_json truth_data)
              zero_metrics) as (-> & _ & ->).
  cbn [zero_metrics total_fields norm_matches Nat.add].
  apply mismatch_count.
Qed.

Lemma mismatches_complement_norm_matches_witness :
  exists mt lines,
    evaluate_page (VInt 1) pred_three_fields truth_three_fields = Some mt /\
    mismatches pred_three_fields truth_three_fields = Some lines /\
    length lines + norm_matches mt = total_fields mt.
Proof.
  destruct (mismatches_complement_norm_matches (VInt 1) pred_three_fields truth_three_fields
              (mt := {| total_fields := 3; exact_matches := 1; norm_matches := 2;
                        cer_sum :=
                          Add (Add (Add Zero
                                      (CerDistance (lit "winchester") (lit "winchester")))
                                 (CerDistance (lit "ma") (lit "ma")))
                            (CerDistance (lit "usa") []) |}))
    as (lines & Hl & Hc); [reflexivity | reflexivity | vm_compute; reflexivity |].
  eexists. exists lines. split; [vm_compute; reflexivity|]. split; assumption.
Defined.

(** ** The accuracy evaluator: normalization and flattening *)

Lemma dropwhile_map (f : N -> N) (s : text) :
  (forall c, isspace (f c) = isspace c) ->
  dropwhile isspace (map f s) = map f (dropwhile isspace s).
Proof.
  intros Hf. induction s as [|c s IH]; cbn [map dropwhile]; [reflexivity|].
  rewrite Hf. now destruct (isspace c).
Qed.

Lemma strip_map (f : N -> N) (s : text) :
  (forall c, isspace (f c) = isspace c) ->
  strip (map f s) = map f (strip s).
Proof.
  intros Hf. unfold strip, lstrip, rstrip.
  now rewrite dropwhile_map, <- map_rev, dropwhile_map, map_rev.
Qed.

Lemma isspace_flatten_newline (c : N) : isspace (flatten_newline c) = isspace c.
Proof.
  unfold flatten_newline. destruct (N.eqb_spec c 10) as [->|]; reflexivity.
Qed.

Lemma flatten_newline_idem (c : N) :
  flatten_newline (flatten_newline c) = flatten_newline c.
Proof.
  unfold flatten_newline. destruct (N.eqb_spec c 10) as [->|Hc]; [reflexivity|].
  now destruct (N.eqb_spec c 10).
Qed.

(** Every character that the table of lower-case forms gives is left as it
    is by [str.lower]. *)
Lemma lower_table_fixed : forallb (fun e => lower_fixed (snd e)) lower_table = true.
Proof. vm_compute. reflexivity. Qed.

Lemma lower_char_fixed (c : N) :
  c <> 931%N -> Forall (fun d => lower_fixed d = true) (lower_char c).
Proof.
  intros Hc. unfold lower_char at 1.
  destruct (N.eqb c 304) eqn:E304; [repeat constructor|].
  destruct (find (fun e => N.eqb (fst e) c) lower_table) as [e|] eqn:Ef.
  - apply find_some in Ef as [Hin _]. constructor; [|constructor].
    pose proof lower_table_fixed as H. rewrite forallb_forall in H. now apply H.
  - constructor; [|constructor]. unfold lower_fixed, lower_char.
    rewrite E304, Ef, N.eqb_refl. now apply N.eqb_neq in Hc as ->.
Qed.

Lemma lower_from_fixed (s : text) :
  forall before_rev, Forall (fun d => lower_fixed d = true) (lower_from before_rev s).
Proof.
  induction s as [|c s IH]; intros before_rev; cbn [lower_from]; [constructor|].
  apply Forall_app. split; [|apply IH].
  destruct (N.eqb_spec c 931) as [->|Hc]; [|now apply lower_char_fixed].
  destruct (final_sigma before_rev s); repeat constructor.
Qed.

Lemma lower_of_fixed (s : text) :
  Forall (fun d => lower_fixed d = true) s ->
  forall before_rev, lower_from before_rev s = s.
Proof.
  induction 1 as [|c s Hc _ IH]; intros before_rev; cbn [lower_from]; [reflexivity|].
  unfold lower_fixed in Hc. apply andb_true_iff in Hc as [Hs Hl].
  apply negb_true_iff in Hs. rewrite Hs, IH.
  destruct (lower_char c) as [|d [|d' l]]; try discriminate.
  apply N.eqb_eq in Hl. now subst d.
Qed.

Lemma dropwhile_Forall (P : N -> Prop) (p : N -> bool) (s : text) :
  Forall P s -> Forall P (dropwhile p s).
Proof.
  induction 1 as [|c s Hc Hs IH]; cbn [dropwhile]; [constructor|].
  destruct (p c); [exact IH | now constructor].
Qed.

Lemma strip_Forall (P : N -> Prop) (s : text) : Forall P s -> Forall P (strip s).
Proof.
  intros H. unfold strip, rstrip, lstrip.
  apply Forall_rev, dropwhile_Forall, Forall_rev, dropwhile_Forall, H.
Qed.

Lemma normalize_text_str_idem (s : text) :
  normalize_text (LStr (normalize_text (LStr s))) = normalize_text (LStr s).
Proof.
  rewrite !normalize_text_str.
  assert (Hf : Forall (fun d => lower_fixed d = true)
                 (map flatten_newline (strip (lower s)))).
  { apply Forall_forall. intros x Hx. apply in_map_iff in Hx as (c & <- & Hc).
    pose proof (strip_Forall (lower_from_fixed s [])) as H.
    rewrite Forall_forall in H. specialize (H c Hc).
    unfold flatten_newline. now destruct (N.eqb c 10). }
  unfold lower at 1. rewrite (lower_of_fixed Hf).
  rewrite (strip_map _ _ isspace_flatten_newline), strip_idem, map_map.
  apply map_ext. intros c. apply flatten_newline_idem.
Qed.

(** The normalized text of a value is its own normalized text: normalizing
    for the fuzzy comparison a second time changes nothing. *)
Theorem normalize_text_idempotent (v : leaf) :
  normalize_text (LStr (normalize_text v)) = normalize_text v.
Proof.
  destruct v as [|[|]|z|s]; try reflexivity.
  - change (normalize_text (LInt z)) with (normalize_text (LStr (str_of_Z z))).
    apply normalize_text_str_idem.
  - apply normalize_text_str_idem.
Qed.

Lemma flatten_dict_cons (a : text) (v : value) (r : list (text * value)) (name : text)
    (out : flat) :
  flatten (VDict ((a, v) :: r)) name out
  = flatten (VDict r) name (flatten v (name ++ a ++ lit "_") out).
Proof. reflexivity. Qed.

Lemma flat_set_fresh (k : text) (v : leaf) (out : flat) :
  ~ In k (map fst out) -> flat_set k v out = out ++ [(k, v)].
Proof.
  induction out as [|[k' v'] out IH]; intros H; cbn [flat_set app]; [reflexivity|].
  destruct (Str.eqb k' k) eqn:E.
  - apply eqb_eq in E. subst k'. exfalso. apply H. now left.
  - rewrite IH; [reflexivity|]. intros Hin. apply H. now right.
Qed.

Lemma flatten_flat_map (d out : flat) :
  NoDup (map fst (out ++ d)) ->
  flatten (VDict (map (fun kv => (fst kv, of_leaf (snd kv))) d)) [] out = out ++ d.
Proof.
  revert out. induction d as [|[k v] d IH]; intros out H.
  - now rewrite app_nil_r.
  - cbn [map fst snd]. rewrite flatten_dict_cons.
    assert (E : flatten (of_leaf v) ([] ++ k ++ lit "_") out = out ++ [(k, v)]).
    { assert (Hk : drop_last ([] ++ k ++ lit "_") = k)
        by (unfold drop_last; cbn [app]; apply removelast_last).
      assert (Hf : ~ In k (map fst out)).
      { rewrite map_app in H. cbn [map fst] in H.
        apply NoDup_remove_2 in H. intros Hin. apply H, in_or_app. now left. }
      destruct v; cbn [of_leaf flatten]; rewrite Hk; now apply flat_set_fresh. }
    rewrite E, IH; rewrite <- app_assoc; [reflexivity | exact H].
Qed.

(** A map of scalar fields is flattened to itself: every field keeps its
    name, its value and its place. *)
Theorem flatten_json_keeps_flat_map (d : flat) :
  NoDup (map fst d) ->
  flatten_json (map (fun kv => (fst kv, of_leaf (snd kv))) d) = d.
Proof. intros H. unfold flatten_json. now rewrite flatten_flat_map. Qed.

Lemma flatten_json_keeps_flat_map_witness :
  flatten_json
    [(lit "city", VStr (lit "Winchester")); (lit "usa_resident", VBool true);
     (lit "email", VNone)]
  = [(lit "city", LStr (lit "Winchester")); (lit "usa_resident", LBool true);
     (lit "email", LNone)].
Proof.
  apply (flatten_json_keeps_flat_map
           [(lit "city", LStr (lit "Winchester")); (lit "usa_resident", LBool true);
            (lit "email", LNone)]).
  repeat constructor; cbn; intuition discriminate.
Defined.

(** ** Texts without page markers *)

Lemma lit_inv (l : text) :
  forall (k : cont) (st res : mstate),
    m no_flags (Lit l) k st = Some res ->
    exists st', rest st = l ++ rest st' /\ k st' = Some res.
Proof.
  induction l as [|c l IH]; intros k st res H.
  - now exists st.
  - change (Lit (c :: l)) with (Cat (Chr c) (Lit l)) in H. rewrite m_cat in H.
    apply chr_inv in H as (t & R & H).
    apply IH in H as (st' & R' & H). cbn [rest adv] in R'.
    exists st'. split; [|exact H]. now rewrite R, R'.
Qed.

Lemma page_marker_starts (pre : text) (st : mstate) (mt : Match) :
  match_at no_flags page_pattern pre st = Some mt ->
  exists b, rest st = lit "--- Page " ++ b.
Proof.
  intros H. apply match_at_split in H as (_ & H & _).
  unfold page_pattern, Seq in H. cbn [fold_right] in H. rewrite m_cat in H.
  apply lit_inv in H as (st' & R & _). cbn [rest] in R. eauto.
Qed.

Lemma split_loop_no_marker :
  forall (fuel : nat) (piece_rev : text) (st : mstate),
    ~ occurs (lit "--- Page ") (rest st) ->
    length (rest st) < fuel ->
    split_loop no_flags page_pattern fuel piece_rev st = [rev piece_rev ++ rest st].
Proof.
  induction fuel as [|f IH]; intros piece_rev st Hno Hl; [lia|].
  cbn [split_loop].
  destruct (match_at no_flags page_pattern [] st) as [mt|] eqn:E.
  - exfalso. apply page_marker_starts in E as (b & E). apply Hno. now exists [], b.
  - destruct (rest st) as [|c t] eqn:R; [now rewrite app_nil_r|].
    rewrite IH; cbn [rest adv].
    + cbn [rev]. now rewrite <- app_assoc.
    + intros (a & b & Hab). apply Hno. exists (c :: a), b. now rewrite Hab.
    + simpl in Hl. lia.
Qed.

(** A text that holds no page marker (no "--- Page ") is one page, its
    trimmed text; a blank text is no page at all. *)
Theorem split_pages_without_marker (t : text) :
  ~ occurs (lit "--- Page ") t ->
  _split_pages t = match strip t with
                   | [] => []
                   | _ :: _ => [strip t]
                   end.
Proof.
  intros Hno. unfold _split_pages, Re.split.
  rewrite split_loop_no_marker by (cbn [start_of rest]; first [assumption | lia]).
  cbn [start_of rest rev app].
  unfold not_blank. destruct (strip t) eqn:E;
    repeat (cbn [filter map]; rewrite ?E); reflexivity.
Qed.

Lemma split_pages_without_marker_witness :
  _split_pages (lit " Claimant Statement and Authorization ")
  = [lit "Claimant Statement and Authorization"].
Proof.
  apply (@split_pages_without_marker (lit " Claimant Statement and Authorization ")).
  apply contains_false. reflexivity.
Defined.

(** ** Confidence metrics of a token set that is not empty *)

Lemma fold_min_le (l : list Q) :
  forall a : Q,
    (fold_left Qmin l a <= a)%Q /\ forall x, In x l -> (fold_left Qmin l a <= x)%Q.
Proof.
  induction l as [|y l IH]; intros a; cbn [fold_left].
  - split; [apply Qle_refl | intros x []].
  - destruct (IH (Qmin a y)) as [H1 H2]. split.
    + eapply Qle_trans; [exact H1 | apply Q.le_min_l].
    + intros x [<- | Hx]; [eapply Qle_trans; [exact H1 | apply Q.le_min_r] | auto].
Qed.

Lemma fold_max_ge (l : list Q) :
  forall a : Q,
    (a <= fold_left Qmax l a)%Q /\ forall x, In x l -> (x <= fold_left Qmax l a)%Q.
Proof.
  induction l as [|y l IH]; intros a; cbn [fold_left].
  - split; [apply Qle_refl | intros x []].
  - destruct (IH (Qmax a y)) as [H1 H2]. split.
    + eapply Qle_trans; [apply Q.le_max_l | exact H1].
    + intros x [<- | Hx]; [eapply Qle_trans; [apply Q.le_max_r | exact H1] | auto].
Qed.

(** The report of a token set that is not empty counts every token, counts
    no more tokens of low confidence than tokens, and its minimum and
    maximum enclose the confidence of every token. *)
Theorem confidence_report_encloses_every_token (d : detection) (r : list detection) :
  exists (lo hi : Q) (low : Z),
    report_get (lit "min_confidence") (calculate_confidence_score (d :: r))
    = Some (Float lo) /\
    report_get (lit "max_confidence") (calculate_confidence_score (d :: r))
    = Some (Float hi) /\
    report_get (lit "total_detections") (calculate_confidence_score (d :: r))
    = Some (Int (Z.of_nat (length (d :: r)))) /\
    report_get (lit "low_confidence_count") (calculate_confidence_score (d :: r))
    = Some (Int low) /\
    (0 <= low <= Z.of_nat (length (d :: r)))%Z /\
    forall x, In x (d :: r) -> (lo <= confidence x)%Q /\ (confidence x <= hi)%Q.
Proof.
  eexists. eexists. eexists.
  split; [reflexivity|]. split; [reflexivity|]. split; [reflexivity|].
  split; [reflexivity|]. split.
  - split; [lia|]. apply inj_le.
    rewrite <- (length_map confidence (d :: r)). apply List.filter_length_le.
  - destruct (fold_min_le (map confidence r) (confidence d)) as [Hd Hr].
    destruct (fold_max_ge (map confidence r) (confidence d)) as [Hd' Hr'].
    intros x [<- | Hx]; [now split|].
    split; [apply Hr | apply Hr']; now apply in_map.
Qed.
